(** * BACnet stack core: NPDU codec and Load Control object

    A shallow embedding of [src/bacnet/npdu.c] and of
    [src/bacnet/basic/object/lc.c] (with the parts of [bacapp.c] the Load
    Control object calls), followed by the properties of the specification
    that concern them.

    Conventions.  C integers are [Z]; an unsigned w-bit quantity is a [Z]
    in [0, 2^w) and every place where the C code narrows a value has the
    narrowing written out.  Octet buffers are [list Z].  A C array is a
    [list] read with [!!!] and written with [<[i:=x]>].  A nullable pointer
    argument is an [option]; a pointer the callee writes through comes
    back in the result. *)

From Stdlib Require Import ZArith Lia Bool.
From Stdlib Require Import Floats.SpecFloat.
From Stdlib Require Strings.String Strings.Ascii Numbers.DecimalString.
From stdpp Require Import base numbers list.

Open Scope Z_scope.

(** ** Octet-level helpers shared by both codecs *)

(** [BIT(x)] of [bacdef.h]: the mask with bit [x] set. *)
Definition BIT (x : Z) : Z := Z.shiftl 1 x.

(** [buf[pos]] for an [int] offset [pos].  The bound checks of the callers
    keep every read inside the buffer; a read outside it gives 0 here. *)
Definition octet_at (buf : list Z) (pos : Z) : Z := buf !!! Z.to_nat pos.

(** An octet, as stored in a [uint8_t]. *)
Definition is_octet (b : Z) : Prop := 0 <= b < 256.

(** Modelled from the spec: [encode_unsigned16] of [bacint.c] is not part
    of the sources at hand; section 6 fixes the wire format ("Fields are
    big-endian"): the most significant octet first. *)
Definition encode_unsigned16 (value : Z) : list Z :=
  [Z.land (Z.shiftr value 8) 0xFF; Z.land value 0xFF].

(** Modelled from the spec: [decode_unsigned16] of [bacint.c], the inverse
    reading of two octets at [pos]; it always reports two octets consumed. *)
Definition decode_unsigned16 (buf : list Z) (pos : Z) : Z :=
  Z.lor (Z.shiftl (octet_at buf pos) 8) (octet_at buf (pos + 1)).

(** [for (i = first; i < first + n; i++) a[i] = f(i);] on a C array. *)
Fixpoint store_loop (f : nat -> Z) (first n : nat) (a : list Z) : list Z :=
  match n with
  | O => a
  | S n' => store_loop f (S first) n' (<[first := f first]> a)
  end.

(** [for (i = 0; i < n; i++) out[len++] = a[i];] : the octets emitted. *)
Definition load_loop (a : list Z) (n : nat) : list Z :=
  (fun i => a !!! i) <$> seq 0 n.

(** ** The NPDU codec ([npdu.c]) *)

Module Npdu.

(** Modelled from the spec: section 6 gives the constant. *)
Definition BACNET_BROADCAST_NETWORK : Z := 0xFFFF.

(** Modelled from the spec: section 6 gives the constants used by
    [npdu_encode_npdu_data]. *)
Definition BACNET_PROTOCOL_VERSION : Z := 1.
Definition HOP_COUNT_DEFAULT : Z := 255.

(** [BACNET_ADDRESS], as far as the NPDU codec touches it: the routed part
    [net], [len], [adr[MAX_MAC_LEN]].  (The local [mac]/[mac_len] pair of
    the C struct is never read or written by [npdu.c].) *)
Record BACNET_ADDRESS := mkAddress {
  net : Z;          (* uint16_t *)
  len : Z;          (* uint8_t  *)
  adr : list Z      (* uint8_t adr[MAX_MAC_LEN] *)
}.

(** [BACNET_NPDU_DATA]. *)
Record BACNET_NPDU_DATA := mkNpduData {
  protocol_version : Z;        (* uint8_t *)
  data_expecting_reply : bool;
  network_layer_message : bool;
  priority : Z;                (* BACNET_MESSAGE_PRIORITY, 0..3 *)
  network_message_type : Z;    (* BACNET_NETWORK_MESSAGE_TYPE *)
  vendor_id : Z;               (* uint16_t *)
  hop_count : Z                (* uint8_t *)
}.

Section Codec.

(** Two constants come from headers that are not part of the sources at
    hand; the codec is embedded for every value of them.
    [MAX_MAC_LEN] is 6 or 7 in the shipped configurations (section 6). *)
Variable MAX_MAC_LEN : nat.
Variable NETWORK_MESSAGE_INVALID : Z.

(** [dest && dest->net] *)
Definition dest_given (dest : option BACNET_ADDRESS) : bool :=
  match dest with
  | Some a => negb (net a =? 0)
  | None => false
  end.

(** [src && src->net && src->len] *)
Definition src_given (src : option BACNET_ADDRESS) : bool :=
  match src with
  | Some a => negb (net a =? 0) && negb (len a =? 0)
  | None => false
  end.

(** The control octet built in [npdu[1]]. *)
Definition control_octet
    (dest src : option BACNET_ADDRESS) (npdu_data : BACNET_NPDU_DATA) : Z :=
  let c := 0 in
  let c := if network_layer_message npdu_data then Z.lor c (BIT 7) else c in
  let c := if dest_given dest then Z.lor c (BIT 5) else c in
  let c := if src_given src then Z.lor c (BIT 3) else c in
  let c := if data_expecting_reply npdu_data then Z.lor c (BIT 2) else c in
  Z.lor c (Z.land (priority npdu_data) 0x03).

(** [if (a->len > MAX_MAC_LEN) { a->len = MAX_MAC_LEN; }] : the encoder
    writes through the caller's pointer. *)
Definition clamp_len (a : BACNET_ADDRESS) : BACNET_ADDRESS :=
  if Z.of_nat MAX_MAC_LEN <? len a
  then mkAddress (net a) (Z.of_nat MAX_MAC_LEN) (adr a)
  else a.

(** The net, length and address octets of one (already clamped) address. *)
Definition address_octets (a : BACNET_ADDRESS) : list Z :=
  encode_unsigned16 (net a) ++ [len a] ++ load_loop (adr a) (Z.to_nat (len a)).

Record encoded := mkEncoded {
  enc_len : Z;                           (* the [int] returned *)
  enc_npdu : list Z;                     (* npdu[0 .. len-1] as written *)
  enc_dest : option BACNET_ADDRESS;      (* *dest after the call *)
  enc_src : option BACNET_ADDRESS        (* *src after the call *)
}.

(** [npdu_encode_pdu].  With a NULL [npdu] the C function performs the same
    walk and returns the same [len] without storing the octets. *)
Definition npdu_encode_pdu
    (dest src : option BACNET_ADDRESS) (npdu_data : option BACNET_NPDU_DATA)
    : encoded :=
  match npdu_data with
  | None => mkEncoded 0 [] dest src
  | Some d =>
      let head := [protocol_version d; control_octet dest src d] in
      let dest' := if dest_given dest then clamp_len <$> dest else dest in
      let dest_part :=
        match dest' with
        | Some a => if dest_given dest then address_octets a else []
        | None => []
        end in
      let src' := if src_given src then clamp_len <$> src else src in
      let src_part :=
        match src' with
        | Some a => if src_given src then address_octets a else []
        | None => []
        end in
      let hop_part := if dest_given dest then [hop_count d] else [] in
      let msg_part :=
        if network_layer_message d
        then [network_message_type d `mod` 256] ++
             (if 0x80 <=? network_message_type d
              then encode_unsigned16 (vendor_id d) else [])
        else [] in
      let npdu := head ++ dest_part ++ src_part ++ hop_part ++ msg_part in
      mkEncoded (Z.of_nat (length npdu)) npdu dest' src'
  end.

(** [npdu_encode_npdu_data]: the header the stack uses for an APDU. *)
Definition npdu_encode_npdu_data
    (data_expecting_reply : bool) (priority : Z) : BACNET_NPDU_DATA :=
  mkNpduData BACNET_PROTOCOL_VERSION data_expecting_reply false priority
             NETWORK_MESSAGE_INVALID 0 HOP_COUNT_DEFAULT.

(** One address block of the decoder (the destination and the source block
    have the same shape).  [BlockReject] is the [return -1]. *)
Inductive block :=
  | BlockReject (a : option BACNET_ADDRESS)
  | BlockDone (pos : Z) (anet : Z) (a : option BACNET_ADDRESS).

Definition decode_address_block
    (npdu : list Z) (pdu_len pos : Z) (a : option BACNET_ADDRESS) : block :=
  if pos + 3 <=? pdu_len then
    let anet := decode_unsigned16 npdu pos in
    let pos := pos + 2 in
    let alen := octet_at npdu pos in
    let pos := pos + 1 in
    let a := (fun x => mkAddress anet alen (adr x)) <$> a in
    if negb (alen =? 0) then
      if (Z.of_nat MAX_MAC_LEN <? alen) || (pdu_len <? pos + alen)
      then BlockReject a
      else
        BlockDone (pos + alen) anet
          ((fun x =>
              mkAddress (net x) (len x)
                (store_loop (fun i => octet_at npdu (pos + Z.of_nat i))
                            0 (Z.to_nat alen) (adr x))) <$> a)
    else BlockDone pos anet a
  else BlockDone pos 0 a.

(** [for (i = 0; i < MAX_MAC_LEN; i++) a->adr[i] = 0;] *)
Definition zero_adr (l : list Z) : list Z :=
  store_loop (fun _ => 0) 0 MAX_MAC_LEN l.

(** "zero out the destination address" *)
Definition clear_dest (a : BACNET_ADDRESS) : BACNET_ADDRESS :=
  mkAddress 0 0 (zero_adr (adr a)).

(** The source is cleared likewise, except that a [net] the receive
    function preset to [BACNET_BROADCAST_NETWORK] is left alone. *)
Definition clear_src (a : BACNET_ADDRESS) : BACNET_ADDRESS :=
  mkAddress (if negb (net a =? BACNET_BROADCAST_NETWORK) then 0 else net a)
            0 (zero_adr (adr a)).

Record decoded := mkDecoded {
  dec_len : Z;                              (* the [int] returned *)
  dec_dest : option BACNET_ADDRESS;         (* *dest after the call *)
  dec_src : option BACNET_ADDRESS;          (* *src after the call *)
  dec_data : option BACNET_NPDU_DATA        (* *npdu_data after the call *)
}.

(** The tail of [bacnet_npdu_decode]: hop count, message type, vendor id. *)
Definition decode_tail
    (npdu : list Z) (pdu_len pos dest_net : Z) (d : BACNET_NPDU_DATA)
    : Z * BACNET_NPDU_DATA :=
  let '(pos, hop) :=
    if negb (dest_net =? 0)
    then if pos <? pdu_len then (pos + 1, octet_at npdu pos) else (pos, 0)
    else (pos, 0) in
  if network_layer_message d then
    if pos <? pdu_len then
      let mt := octet_at npdu pos in
      let pos := pos + 1 in
      if 0x80 <=? mt then
        if pos + 2 <=? pdu_len
        then (pos + 2,
              mkNpduData (protocol_version d) (data_expecting_reply d)
                (network_layer_message d) (priority d) mt
                (decode_unsigned16 npdu pos) hop)
        else (pos,
              mkNpduData (protocol_version d) (data_expecting_reply d)
                (network_layer_message d) (priority d) mt (vendor_id d) hop)
      else (pos,
            mkNpduData (protocol_version d) (data_expecting_reply d)
              (network_layer_message d) (priority d) mt (vendor_id d) hop)
    else (pos,
          mkNpduData (protocol_version d) (data_expecting_reply d)
            (network_layer_message d) (priority d) (network_message_type d)
            (vendor_id d) hop)
  else (pos,
        mkNpduData (protocol_version d) (data_expecting_reply d)
          (network_layer_message d) (priority d) NETWORK_MESSAGE_INVALID
          (vendor_id d) hop).

(** [bacnet_npdu_decode]. *)
Definition bacnet_npdu_decode
    (npdu : option (list Z)) (pdu_len : Z)
    (dest src : option BACNET_ADDRESS) (npdu_data : option BACNET_NPDU_DATA)
    : decoded :=
  match npdu, npdu_data with
  | Some buf, Some d0 =>
      if 2 <=? pdu_len then
        let ctl := octet_at buf 1 in
        let d :=
          mkNpduData (octet_at buf 0)
            (negb (Z.land ctl (BIT 2) =? 0))
            (negb (Z.land ctl (BIT 7) =? 0))
            (Z.land ctl 0x03)
            (network_message_type d0) (vendor_id d0) (hop_count d0) in
        let pos := 2 in
        let dest_block :=
          if negb (Z.land ctl (BIT 5) =? 0)
          then decode_address_block buf pdu_len pos dest
          else BlockDone pos 0 (clear_dest <$> dest) in
        match dest_block with
        | BlockReject dest' => mkDecoded (-1) dest' src (Some d)
        | BlockDone pos dest_net dest' =>
            let src_block :=
              if negb (Z.land ctl (BIT 3) =? 0)
              then decode_address_block buf pdu_len pos src
              else BlockDone pos 0 (clear_src <$> src) in
            match src_block with
            | BlockReject src' => mkDecoded (-1) dest' src' (Some d)
            | BlockDone pos _ src' =>
                let '(pos, d) := decode_tail buf pdu_len pos dest_net d in
                mkDecoded pos dest' src' (Some d)
            end
        end
      else mkDecoded 0 dest src npdu_data
  | _, _ => mkDecoded 0 dest src npdu_data
  end.

(** [npdu_decode]: the same with the whole [MAX_NPDU] assumed readable. *)
Definition npdu_decode (MAX_NPDU : Z)
    (npdu : option (list Z))
    (dest src : option BACNET_ADDRESS) (npdu_data : option BACNET_NPDU_DATA)
    : decoded :=
  bacnet_npdu_decode npdu MAX_NPDU dest src npdu_data.

(** *** Vocabulary for the properties of the codec *)

(** A header whose fields fit the wire: the priority is one of the four
    levels, a message type that is sent is an octet, the vendor identifier
    is a 16-bit value. *)
Definition wf_header (d : BACNET_NPDU_DATA) : Prop :=
  0 <= priority d <= 3 /\
  (network_layer_message d = true -> is_octet (network_message_type d)) /\
  0 <= vendor_id d < 65536.

(** An address whose mac length is at most [MAX_MAC_LEN]. *)
Definition wf_address (a : BACNET_ADDRESS) : Prop :=
  0 <= net a < 65536 /\ 0 <= len a <= Z.of_nat MAX_MAC_LEN /\
  length (adr a) = MAX_MAC_LEN.

Definition wf_address_opt (o : option BACNET_ADDRESS) : Prop :=
  forall a, o = Some a -> wf_address a.

(** The octets the encoder emits for an optional address. *)
Definition address_part (given : bool) (o : option BACNET_ADDRESS) : list Z :=
  match o with
  | Some a => if given then address_octets a else []
  | None => []
  end.

(** What the decoder leaves in [x] when it reads the address [a] into it:
    the net, the length and the first [len a] octets are those of [a]; the
    octets of [x] beyond them are not written. *)
Definition received (a x : BACNET_ADDRESS) : BACNET_ADDRESS :=
  mkAddress (net a) (len a)
    (take (Z.to_nat (len a)) (adr a) ++ drop (Z.to_nat (len a)) (adr x)).

(** The header the decoder returns for the encoding of [d] when it decodes
    into a structure that held [d0]: the fields that are on the wire are
    those of [d]; the hop count without a destination is 0, the message
    type of an APDU is [NETWORK_MESSAGE_INVALID], and a vendor identifier
    that is not on the wire is not written. *)
Definition decoded_header (dest_present : bool) (d d0 : BACNET_NPDU_DATA)
    : BACNET_NPDU_DATA :=
  mkNpduData (protocol_version d) (data_expecting_reply d)
    (network_layer_message d) (priority d)
    (if network_layer_message d then network_message_type d
     else NETWORK_MESSAGE_INVALID)
    (if network_layer_message d && (0x80 <=? network_message_type d)
     then vendor_id d else vendor_id d0)
    (if dest_present then hop_count d else 0).

Definition decoded_dest (dest : option BACNET_ADDRESS) (dest0 : BACNET_ADDRESS)
    : BACNET_ADDRESS :=
  match dest with
  | Some a => if dest_given dest then received a dest0 else clear_dest dest0
  | None => clear_dest dest0
  end.

Definition decoded_src (src : option BACNET_ADDRESS) (src0 : BACNET_ADDRESS)
    : BACNET_ADDRESS :=
  match src with
  | Some a => if src_given src then received a src0 else clear_src src0
  | None => clear_src src0
  end.

(** [a] with the length the encoder leaves in an over-long address. *)
Definition clamped (a : BACNET_ADDRESS) : BACNET_ADDRESS :=
  mkAddress (net a) (Z.of_nat MAX_MAC_LEN) (adr a).

(** The octets the encoder emits for an address it is handed: none unless
    the address is given, and otherwise those of the address with its
    length clamped. *)
Definition emitted_address (given : bool) (o : option BACNET_ADDRESS)
    : list Z :=
  address_part given (clamp_len <$> o).

(** The octets behind the addresses: the hop count when a destination is
    given, then the message type of a network layer message and its
    vendor identifier. *)
Definition trailer_octets (dest_present : bool) (d : BACNET_NPDU_DATA)
    : list Z :=
  (if dest_present then [hop_count d] else []) ++
  (if network_layer_message d
   then [network_message_type d `mod` 256] ++
        (if 0x80 <=? network_message_type d
         then encode_unsigned16 (vendor_id d) else [])
   else []).

(** What the control octet of a received buffer declares. *)
Definition dest_declared (buf : list Z) : bool :=
  negb (Z.land (octet_at buf 1) (BIT 5) =? 0).

Definition src_declared (buf : list Z) : bool :=
  negb (Z.land (octet_at buf 1) (BIT 3) =? 0).

(** The address block at [pos] has its length octet inside the buffer, and
    that length is above [MAX_MAC_LEN] or runs past the end of the
    buffer. *)
Definition mac_refused (buf : list Z) (pdu_len pos : Z) : bool :=
  (pos + 3 <=? pdu_len) && negb (octet_at buf (pos + 2) =? 0) &&
  ((Z.of_nat MAX_MAC_LEN <? octet_at buf (pos + 2))
   || (pdu_len <? pos + 3 + octet_at buf (pos + 2))).

(** The offset that follows a destination block that was not refused. *)
Definition after_dest (buf : list Z) (pdu_len : Z) : Z :=
  if dest_declared buf && (5 <=? pdu_len) then 5 + octet_at buf 4 else 2.

Definition refused (buf : list Z) (pdu_len : Z) : bool :=
  (dest_declared buf && mac_refused buf pdu_len 2)
  || (src_declared buf && mac_refused buf pdu_len (after_dest buf pdu_len)).

(** *** The other entry points of [npdu.c] *)

(** [npdu_encode_npdu_network]: the header of a network layer message. *)
Definition npdu_encode_npdu_network
    (network_message_type : Z) (data_expecting_reply : bool) (priority : Z)
    : BACNET_NPDU_DATA :=
  mkNpduData BACNET_PROTOCOL_VERSION data_expecting_reply true priority
             network_message_type 0 HOP_COUNT_DEFAULT.

(** [bacnet_npdu_encode_pdu].  [pdu] is [true] for a non-NULL buffer.  The
    sizing call hands [npdu_encode_pdu] a NULL buffer: it stores no octet,
    and writes through [dest] and [src] as every call does. *)
Definition bacnet_npdu_encode_pdu (pdu : bool) (pdu_size : Z)
    (dest src : option BACNET_ADDRESS) (npdu_data : option BACNET_NPDU_DATA)
    : encoded :=
  let sizing := npdu_encode_pdu dest src npdu_data in
  let pdu_len := enc_len sizing in
  if pdu && (0 <? pdu_size) && (pdu_len <=? pdu_size)
  then npdu_encode_pdu (enc_dest sizing) (enc_src sizing) npdu_data
  else mkEncoded pdu_len [] (enc_dest sizing) (enc_src sizing).

(** The PDU type of a Confirmed-Request in the high nibble of the first
    APDU octet ([bacenum.h], which is not part of the sources at hand). *)
Variable PDU_TYPE_CONFIRMED_SERVICE_REQUEST : Z.

(** [npdu_confirmed_service]: "helper for datalink detecting an application
    confirmed service". *)
Definition npdu_confirmed_service (pdu : list Z) (pdu_len : Z) : bool :=
  (* BACNET_NPDU_DATA npdu_data = { 0 }; *)
  let npdu_data := mkNpduData 0 false false 0 0 0 0 in
  if 0 <? pdu_len then
    if octet_at pdu 0 =? BACNET_PROTOCOL_VERSION then
      (* only handle the version that we know how to handle *)
      let r := bacnet_npdu_decode (Some pdu) pdu_len None None
                 (Some npdu_data) in
      let apdu_offset := dec_len r in
      let npdu_data := default npdu_data (dec_data r) in
      if negb (network_layer_message npdu_data) && (0 <? apdu_offset) &&
         (apdu_offset <? pdu_len)
      then Z.land (octet_at pdu apdu_offset) 0xF0
           =? PDU_TYPE_CONFIRMED_SERVICE_REQUEST
      else false
    else false
  else false.

End Codec.

End Npdu.

(** ** IEEE-754 values

    [float] and [double] values are [spec_float]s, with the operations of
    the Standard Library's executable IEEE-754 model at the binary32
    (precision 24, emax 128) and binary64 (53, 1024) formats. *)

Module Ieee.

Definition prec32 : Z := 24.
Definition emax32 : Z := 128.

(** [(float)n] for an integer constant or an unsigned value. *)
Definition of_Z32 (n : Z) : spec_float := binary_normalize prec32 emax32 n 0 false.

Definition sub32 : spec_float -> spec_float -> spec_float := SFsub prec32 emax32.
Definition div32 : spec_float -> spec_float -> spec_float := SFdiv prec32 emax32.
Definition mul32 : spec_float -> spec_float -> spec_float := SFmul prec32 emax32.

(** C99 7.12.14.5: [islessgreater(x, y)] is [(x) < (y) || (x) > (y)]
    evaluated without raising "invalid"; it is false when [x] and [y] are
    unordered. *)
Definition islessgreater (x y : spec_float) : bool := SFltb x y || SFltb y x.

(** Modelled from the spec: the big-endian IEEE-754 reading of an octet
    string ("reals as IEEE-754 single, big-endian, exactly 4 octets;
    doubles as IEEE-754 double, 8 octets", section 4.1).  [mw] is the width
    of the fraction field and [ew] that of the exponent field. *)
Definition of_bits (mw ew : Z) (bits : Z) : spec_float :=
  let m := bits `mod` 2 ^ mw in
  let e := (bits `div` 2 ^ mw) `mod` 2 ^ ew in
  let s := negb ((bits `div` 2 ^ (mw + ew)) `mod` 2 =? 0) in
  if e =? 0 then
    match m with
    | Zpos p => S754_finite s p (2 - 2 ^ (ew - 1) - mw)
    | _ => S754_zero s
    end
  else if e =? 2 ^ ew - 1 then
    if m =? 0 then S754_infinity s else S754_nan
  else
    match m + 2 ^ mw with
    | Zpos p => S754_finite s p (e - 2 ^ (ew - 1) + 1 - mw)
    | _ => S754_nan
    end.

(** The unsigned big-endian value of an octet string. *)
Definition be_value (octets : list Z) : Z :=
  foldl (fun acc b => acc * 256 + b) 0 octets.

End Ieee.

(** ** Dates and times ([datetime.h]) *)

Module Datetime.

Record BACNET_DATE := mkDate {
  year : Z;      (* AD, 1900..2155; 2155 = unspecified *)
  month : Z;     (* 1..12, 255 = unspecified *)
  day : Z;       (* 1..31, 255 = unspecified *)
  wday : Z       (* 1 = Monday .. 7, 255 = unspecified *)
}.

Record BACNET_TIME := mkTime {
  hour : Z;
  min : Z;
  sec : Z;
  hundredths : Z
}.

Record BACNET_DATE_TIME := mkDateTime {
  date : BACNET_DATE;
  time : BACNET_TIME
}.

(** Modelled from the spec: [datetime_wildcard_set] of [datetime.c] is not
    part of the sources at hand; section 3 (iii) fixes the value it
    stores: "unspecified day = 255, unspecified year = 2155; for Time
    wildcards, any field = 255". *)
Definition datetime_wildcard_set : BACNET_DATE_TIME :=
  mkDateTime (mkDate 2155 255 255 255) (mkTime 255 255 255 255).

(** The remaining calendar routines of [datetime.c] that the Load Control
    object and the value codec call.  They are an interface here: every
    result below holds for all implementations of it. *)
Class DateTimeOps := {
  (* negative, zero or positive as the first is before, at or after *)
  datetime_compare : BACNET_DATE_TIME -> BACNET_DATE_TIME -> Z;
  datetime_compare_date : BACNET_DATE -> BACNET_DATE -> Z;
  datetime_compare_time : BACNET_TIME -> BACNET_TIME -> Z;
  (* the date and time advanced by a number of minutes *)
  datetime_add_minutes : BACNET_DATE_TIME -> Z -> BACNET_DATE_TIME;
  (* is every field of the date and time unspecified? *)
  datetime_wildcard : BACNET_DATE_TIME -> bool
}.

End Datetime.

(** ** The commandable output ([ao.h])

    [Analog_Output_Present_Value_Set] returns a [bool] in C that [lc.c]
    discards; only its effect on the Analog Output objects is kept.

    The Load Control object drives the Analog Output object of the same
    instance number through four entry points (section 6).  [AO] is the
    state of the Analog Output objects. *)
Class AnalogOutput (AO : Type) := {
  Analog_Output_Present_Value : AO -> Z -> spec_float;
  Analog_Output_Present_Value_Priority : AO -> Z -> Z;
  Analog_Output_Present_Value_Set : AO -> Z -> spec_float -> Z -> AO;
  Analog_Output_Present_Value_Relinquish : AO -> Z -> Z -> AO
}.

(** ** The tagged value codec ([bacapp.c]), as far as the Load Control
       object reaches it

    [bacapp.c] compiles one block per [BACAPP_...] feature macro.  The
    build embedded here has the primitive types [BACAPP_NULL],
    [BACAPP_BOOLEAN], [BACAPP_UNSIGNED], [BACAPP_REAL], [BACAPP_DOUBLE],
    [BACAPP_DATE] and [BACAPP_TIME]; in the decoders every other tag
    takes the [default:] arm of each [switch].  [bacapp_same_value] and
    [bacapp_copy] hold for every build with these seven types: what the
    arms of the other types do is left open there. *)

Module Bacapp.

Import Datetime.

(** [bacdef.h] *)
Definition BACNET_STATUS_ERROR : Z := -1.

(** Modelled from the spec: section 6 gives the constant. *)
Definition BACNET_ARRAY_ALL : Z := 0xFFFFFFFF.

(** Modelled from the spec: the application tag numbers of [bacenum.h],
    which is not part of the sources at hand.  Section 8 shows them on the
    wire in the high nibble of the tag octet: Unsigned 2 ([21 00]), Real 4
    ([44 ..]), Date 10 ([A4 ..]), Object identifier 12 ([C4 ..]); the
    others follow the same BACnet numbering. *)
Definition BACNET_APPLICATION_TAG_NULL : Z := 0.
Definition BACNET_APPLICATION_TAG_BOOLEAN : Z := 1.
Definition BACNET_APPLICATION_TAG_UNSIGNED_INT : Z := 2.
Definition BACNET_APPLICATION_TAG_REAL : Z := 4.
Definition BACNET_APPLICATION_TAG_DOUBLE : Z := 5.
Definition BACNET_APPLICATION_TAG_OCTET_STRING : Z := 6.
Definition BACNET_APPLICATION_TAG_DATE : Z := 10.
Definition BACNET_APPLICATION_TAG_TIME : Z := 11.

(** The property identifiers that [lc.c] names, and any other one. *)
Inductive BACNET_PROPERTY_ID :=
  | PROP_OBJECT_IDENTIFIER
  | PROP_OBJECT_NAME
  | PROP_OBJECT_TYPE
  | PROP_PRESENT_VALUE
  | PROP_STATUS_FLAGS
  | PROP_EVENT_STATE
  | PROP_REQUESTED_SHED_LEVEL
  | PROP_START_TIME
  | PROP_SHED_DURATION
  | PROP_DUTY_WINDOW
  | PROP_ENABLE
  | PROP_EXPECTED_SHED_LEVEL
  | PROP_ACTUAL_SHED_LEVEL
  | PROP_SHED_LEVELS
  | PROP_SHED_LEVEL_DESCRIPTIONS
  | PROP_DESCRIPTION
  | PROP_FULL_DUTY_BASELINE
  | PROP_OTHER (id : Z).

(** [BACNET_TAG] *)
Record BACNET_TAG := mkTag {
  number : Z;             (* uint8_t *)
  application : bool;
  context : bool;
  opening : bool;
  closing : bool;
  len_value_type : Z      (* uint32_t *)
}.

(** [BACNET_TAG tag = { 0 };] *)
Definition tag_zero : BACNET_TAG := mkTag 0 false false false false 0.

(** Modelled from the spec: [bacnet_tag_decode] of [bacdcode.c] is not part
    of the sources at hand.  Section 4.1: "The leading octet packs
    (tag_number[4], class[1], length_value_type[3]).  If tag_number == 0xF
    the next octet holds the extended tag number.  If length_value_type ==
    5 the length continues in one further octet; a value of 254 there
    escalates to a 16-bit length; 255 escalates to 32-bit.  The values 6
    and 7 in that 3-bit field denote opening and closing brackets."  The
    decoder "refuses input shorter than the implied header": it then
    returns 0.  Exactly one of opening, closing, application, context is
    set on success (section 3). *)
Definition bacnet_tag_decode (apdu : list Z) (apdu_size : Z)
    : Z * BACNET_TAG :=
  if apdu_size <? 1 then (0, tag_zero)
  else
    let b0 := octet_at apdu 0 in
    let class := negb (Z.land b0 (BIT 3) =? 0) in
    let lvt := Z.land b0 0x07 in
    let extended := Z.shiftr b0 4 =? 0xF in
    if extended && (apdu_size <? 2) then (0, tag_zero)
    else
      let pos := if extended then 2 else 1 in
      let num := if extended then octet_at apdu 1 else Z.shiftr b0 4 in
      if lvt =? 6 then (pos, mkTag num false false true false 0)
      else if lvt =? 7 then (pos, mkTag num false false false true 0)
      else if lvt =? 5 then
        if apdu_size <? pos + 1 then (0, tag_zero)
        else
          let l := octet_at apdu pos in
          if l =? 255 then
            if apdu_size <? pos + 5 then (0, tag_zero)
            else (pos + 5,
                  mkTag num (negb class) class false false
                    (Ieee.be_value (take 4 (drop (Z.to_nat (pos + 1)) apdu))))
          else if l =? 254 then
            if apdu_size <? pos + 3 then (0, tag_zero)
            else (pos + 3,
                  mkTag num (negb class) class false false
                    (Ieee.be_value (take 2 (drop (Z.to_nat (pos + 1)) apdu))))
          else (pos + 1, mkTag num (negb class) class false false l)
      else (pos, mkTag num (negb class) class false false lvt).

(** The union [type] of [BACNET_APPLICATION_DATA_VALUE]: the member last
    stored.  [V_Indeterminate] is storage nothing has been stored into. *)
Inductive value_type :=
  | V_Indeterminate
  | V_Boolean (b : bool)
  | V_Unsigned_Int (n : Z)      (* BACNET_UNSIGNED_INTEGER, 64 bits *)
  | V_Real (f : spec_float)
  | V_Double (f : spec_float)
  | V_Date (d : BACNET_DATE)
  | V_Time (t : BACNET_TIME).

(** [BACNET_APPLICATION_DATA_VALUE] (the [next] link is always reset to
    NULL by the decoders and never followed by [lc.c]). *)
Record BACNET_APPLICATION_DATA_VALUE := mkValue {
  context_specific : bool;
  context_tag : Z;       (* uint8_t *)
  tag : Z;               (* uint8_t *)
  type : value_type
}.

(** Reading the members of the union.  Reading a member other than the
    one last stored reinterprets the storage in C; these projections give
    a fixed value there, and no result below depends on it. *)
Definition Boolean (v : value_type) : bool :=
  match v with V_Boolean b => b | _ => false end.
Definition Unsigned_Int (v : value_type) : Z :=
  match v with V_Unsigned_Int n => n | _ => 0 end.
Definition Real (v : value_type) : spec_float :=
  match v with V_Real f => f | _ => S754_zero false end.
Definition Double (v : value_type) : spec_float :=
  match v with V_Double f => f | _ => S754_zero false end.
Definition Date (v : value_type) : BACNET_DATE :=
  match v with V_Date d => d | _ => mkDate 0 0 0 0 end.
Definition Time (v : value_type) : BACNET_TIME :=
  match v with V_Time t => t | _ => mkTime 0 0 0 0 end.

Definition set_tag (value : BACNET_APPLICATION_DATA_VALUE) (t : Z)
    : BACNET_APPLICATION_DATA_VALUE :=
  mkValue (context_specific value) (context_tag value) t (type value).

Definition set_type (value : BACNET_APPLICATION_DATA_VALUE) (v : value_type)
    : BACNET_APPLICATION_DATA_VALUE :=
  mkValue (context_specific value) (context_tag value) (tag value) v.

(** Modelled from the spec: the primitive decoders of [bacdcode.c] are not
    part of the sources at hand.  Section 4.1: unsigned integers are
    "big-endian ... 1..8 octets", reals "IEEE-754 single, big-endian,
    exactly 4 octets", doubles 8 octets, dates "{year-1900, month, day,
    weekday} four octets", times "{hour, minute, second, hundredths} four
    octets"; a boolean's length field "encodes the value itself".  Each
    returns the octets consumed, 0 when the payload does not fit. *)
Definition primitive_decode (apdu : list Z) (apdu_size : Z)
    (tag_data_type len_value_type : Z) : Z * option value_type :=
  let payload := take (Z.to_nat len_value_type) apdu in
  let fits (n : Z) := (len_value_type =? n) && (n <=? apdu_size) in
  if tag_data_type =? BACNET_APPLICATION_TAG_BOOLEAN then
    (0, Some (V_Boolean (negb (len_value_type =? 0))))
  else if tag_data_type =? BACNET_APPLICATION_TAG_UNSIGNED_INT then
    if (1 <=? len_value_type) && (len_value_type <=? 8) &&
       (len_value_type <=? apdu_size)
    then (len_value_type, Some (V_Unsigned_Int (Ieee.be_value payload)))
    else (0, None)
  else if tag_data_type =? BACNET_APPLICATION_TAG_REAL then
    if fits 4
    then (4, Some (V_Real (Ieee.of_bits 23 8 (Ieee.be_value payload))))
    else (0, None)
  else if tag_data_type =? BACNET_APPLICATION_TAG_DOUBLE then
    if fits 8
    then (8, Some (V_Double (Ieee.of_bits 52 11 (Ieee.be_value payload))))
    else (0, None)
  else if tag_data_type =? BACNET_APPLICATION_TAG_DATE then
    if fits 4
    then (4, Some (V_Date (mkDate (octet_at apdu 0 + 1900) (octet_at apdu 1)
                                  (octet_at apdu 2) (octet_at apdu 3))))
    else (0, None)
  else if tag_data_type =? BACNET_APPLICATION_TAG_TIME then
    if fits 4
    then (4, Some (V_Time (mkTime (octet_at apdu 0) (octet_at apdu 1)
                                  (octet_at apdu 2) (octet_at apdu 3))))
    else (0, None)
  else (0, None).

Section Codec.

(** The end marker of the application tag enumeration in [bacenum.h],
    which the decoders store in [value->tag] to signal failure. *)
Variable MAX_BACNET_APPLICATION_TAG : Z.

(** The tag of the empty list, one of the values [bacenum.h] numbers after
    the end marker. *)
Variable BACNET_APPLICATION_TAG_EMPTYLIST : Z.

Context {clock : DateTimeOps}.

(** [bacapp_data_decode], for a non-NULL [value]. *)
Definition bacapp_data_decode (apdu : list Z) (apdu_size : Z)
    (tag_data_type len_value_type : Z)
    (value : BACNET_APPLICATION_DATA_VALUE)
    : Z * BACNET_APPLICATION_DATA_VALUE :=
  let '(len, stored) :=
    primitive_decode apdu apdu_size tag_data_type len_value_type in
  let value :=
    match stored with
    | Some v => set_type value v
    | None => value
    end in
  if (len =? 0) &&
     negb (tag_data_type =? BACNET_APPLICATION_TAG_NULL) &&
     negb (tag_data_type =? BACNET_APPLICATION_TAG_BOOLEAN) &&
     negb (tag_data_type =? BACNET_APPLICATION_TAG_OCTET_STRING)
  then
    (* indicate that we were not able to decode the value *)
    (len, set_tag value MAX_BACNET_APPLICATION_TAG)
  else (len, value).

(** [bacapp_decode_application_data], for a non-NULL [apdu] and [value]. *)
Definition bacapp_decode_application_data (apdu : list Z) (apdu_size : Z)
    (value : BACNET_APPLICATION_DATA_VALUE)
    : Z * BACNET_APPLICATION_DATA_VALUE :=
  let '(len, tag) := bacnet_tag_decode apdu apdu_size in
  if (0 <? len) && application tag then
    let value := mkValue false (context_tag value) (number tag) (type value) in
    let apdu_len := len in
    let '(len, value) :=
      bacapp_data_decode (drop (Z.to_nat apdu_len) apdu)
        (apdu_size - apdu_len) (number tag) (len_value_type tag) value in
    if (0 <=? len) && negb (Bacapp.tag value =? MAX_BACNET_APPLICATION_TAG)
    then (apdu_len + len, value)
    else (BACNET_STATUS_ERROR, value)
  else if 0 <? apdu_size then (BACNET_STATUS_ERROR, value)
  else (0, value).

(** [bacapp_context_tag_type]: "returns the fixed tag type for certain
    context tagged properties".  Of its rows, the one for the three shed
    level properties is the only one that concerns the identifiers named
    in [BACNET_PROPERTY_ID] here. *)
Definition bacapp_context_tag_type (property : BACNET_PROPERTY_ID)
    (tag_number : Z) : Z :=
  match property with
  | PROP_ACTUAL_SHED_LEVEL
  | PROP_REQUESTED_SHED_LEVEL
  | PROP_EXPECTED_SHED_LEVEL =>
      if (tag_number =? 0) || (tag_number =? 1)
      then BACNET_APPLICATION_TAG_UNSIGNED_INT
      else if tag_number =? 2 then BACNET_APPLICATION_TAG_REAL
      else MAX_BACNET_APPLICATION_TAG
  | _ => MAX_BACNET_APPLICATION_TAG
  end.

(** [bacapp_decode_context_data], for a non-NULL [value]. *)
Definition bacapp_decode_context_data (apdu : list Z) (apdu_size : Z)
    (value : BACNET_APPLICATION_DATA_VALUE) (property : BACNET_PROPERTY_ID)
    : Z * BACNET_APPLICATION_DATA_VALUE :=
  let '(len, tag) := bacnet_tag_decode apdu apdu_size in
  if 0 <? len then
    if closing tag then
      (* Empty construct: don't advance over that closing tag. *)
      (0, value)
    else if context tag then
      let apdu_len := len in
      let value :=
        mkValue true (number tag)
          (bacapp_context_tag_type property (number tag)) (type value) in
      if negb (Bacapp.tag value =? MAX_BACNET_APPLICATION_TAG) then
        let '(len, value) :=
          bacapp_data_decode (drop (Z.to_nat apdu_len) apdu)
            (apdu_size - apdu_len) (Bacapp.tag value) (len_value_type tag)
            value in
        if (0 <=? len) && negb (Bacapp.tag value =? MAX_BACNET_APPLICATION_TAG)
        then (apdu_len + len, value)
        else (BACNET_STATUS_ERROR, value)
      else if negb (len_value_type tag =? 0) then
        (* Unknown value : non null size (elementary type) *)
        (apdu_len + len_value_type tag, value)
      else (BACNET_STATUS_ERROR, value)
    else (0, value)
  else (0, value).

(** The comparison arms of the tags whose members of the union this model
    does not hold (signed, enumerated, object identifier, the strings and
    the constructed types, each under its own feature macro), with the
    [default:] arm behind them: what they answer for two values is left
    open. *)
Variable same_in_other_arms :
  BACNET_APPLICATION_DATA_VALUE -> BACNET_APPLICATION_DATA_VALUE -> bool.

(** [bacapp_same_value], for non-NULL arguments: "returns true if matching
    or same, false if different". *)
Definition bacapp_same_value (value test_value : BACNET_APPLICATION_DATA_VALUE)
    : bool :=
  if tag test_value =? tag value then
    let t := tag test_value in
    if t =? BACNET_APPLICATION_TAG_NULL then true
    else if t =? BACNET_APPLICATION_TAG_BOOLEAN then
      Bool.eqb (Boolean (type test_value)) (Boolean (type value))
    else if t =? BACNET_APPLICATION_TAG_UNSIGNED_INT then
      Unsigned_Int (type test_value) =? Unsigned_Int (type value)
    else if t =? BACNET_APPLICATION_TAG_REAL then
      negb (Ieee.islessgreater (Real (type test_value)) (Real (type value)))
    else if t =? BACNET_APPLICATION_TAG_DOUBLE then
      negb (Ieee.islessgreater (Double (type test_value))
                               (Double (type value)))
    else if t =? BACNET_APPLICATION_TAG_DATE then
      datetime_compare_date (Date (type test_value)) (Date (type value)) =? 0
    else if t =? BACNET_APPLICATION_TAG_TIME then
      datetime_compare_time (Time (type test_value)) (Time (type value)) =? 0
    else if t =? BACNET_APPLICATION_TAG_EMPTYLIST then true
    else same_in_other_arms value test_value
  else false.

End Codec.

(** An application-tagged Real and an application-tagged Double. *)
Definition real_value (f : spec_float) : BACNET_APPLICATION_DATA_VALUE :=
  mkValue false 0 BACNET_APPLICATION_TAG_REAL (V_Real f).

Definition double_value (f : spec_float) : BACNET_APPLICATION_DATA_VALUE :=
  mkValue false 0 BACNET_APPLICATION_TAG_DOUBLE (V_Double f).

(** *** Lengths, copies, lists and text helpers of [bacapp.c] *)

(** Modelled from the spec: further application tag numbers of
    [bacenum.h], in the same BACnet numbering (section 8 shows the object
    identifier, 12, as [C4]). *)
Definition BACNET_APPLICATION_TAG_SIGNED_INT : Z := 3.
Definition BACNET_APPLICATION_TAG_CHARACTER_STRING : Z := 7.
Definition BACNET_APPLICATION_TAG_BIT_STRING : Z := 8.
Definition BACNET_APPLICATION_TAG_ENUMERATED : Z := 9.
Definition BACNET_APPLICATION_TAG_OBJECT_ID : Z := 12.

(** [bacapp_decode_data_len]: "decode the data to determine the data
    length".  [~0U >> 1] is taken in a 32-bit [unsigned]. *)
Definition bacapp_decode_data_len (tag_data_type len_value_type : Z) : Z :=
  if (tag_data_type =? BACNET_APPLICATION_TAG_NULL) ||
     (tag_data_type =? BACNET_APPLICATION_TAG_BOOLEAN)
  then 0
  else if (tag_data_type =? BACNET_APPLICATION_TAG_UNSIGNED_INT) ||
          (tag_data_type =? BACNET_APPLICATION_TAG_SIGNED_INT) ||
          (tag_data_type =? BACNET_APPLICATION_TAG_REAL) ||
          (tag_data_type =? BACNET_APPLICATION_TAG_DOUBLE) ||
          (tag_data_type =? BACNET_APPLICATION_TAG_OCTET_STRING) ||
          (tag_data_type =? BACNET_APPLICATION_TAG_CHARACTER_STRING) ||
          (tag_data_type =? BACNET_APPLICATION_TAG_BIT_STRING) ||
          (tag_data_type =? BACNET_APPLICATION_TAG_ENUMERATED) ||
          (tag_data_type =? BACNET_APPLICATION_TAG_DATE) ||
          (tag_data_type =? BACNET_APPLICATION_TAG_TIME) ||
          (tag_data_type =? BACNET_APPLICATION_TAG_OBJECT_ID)
  then
    let len := Z.shiftr (Z.lnot 0 `mod` 2 ^ 32) 1 in
    if len_value_type <? len then len_value_type else len
  else 0.

Section Copy.

(** The arms of the tags whose members of the union this model does not
    hold copy that member (signed, enumerated, object identifier, the
    strings, each under its own feature macro), and the [default:] arm
    behind them copies the whole union: what the destination holds
    afterwards, given what it and the source held, is left open. *)
Variable copied_in_other_arms : value_type -> value_type -> value_type.

(** [bacapp_copy].  [datetime_copy_date] and [datetime_copy_time] store
    the source date and time in the destination. *)
Definition bacapp_copy
    (dest_value src_value : option BACNET_APPLICATION_DATA_VALUE)
    : bool * option BACNET_APPLICATION_DATA_VALUE :=
  match dest_value, src_value with
  | Some dest, Some src =>
      let dest := set_tag dest (tag src) in
      let t := tag src in
      let dest :=
        if t =? BACNET_APPLICATION_TAG_NULL then dest
        else if t =? BACNET_APPLICATION_TAG_BOOLEAN then
          set_type dest (V_Boolean (Boolean (type src)))
        else if t =? BACNET_APPLICATION_TAG_UNSIGNED_INT then
          set_type dest (V_Unsigned_Int (Unsigned_Int (type src)))
        else if t =? BACNET_APPLICATION_TAG_REAL then
          set_type dest (V_Real (Real (type src)))
        else if t =? BACNET_APPLICATION_TAG_DOUBLE then
          set_type dest (V_Double (Double (type src)))
        else if t =? BACNET_APPLICATION_TAG_DATE then
          set_type dest (V_Date (Date (type src)))
        else if t =? BACNET_APPLICATION_TAG_TIME then
          set_type dest (V_Time (Time (type src)))
        else set_type dest (copied_in_other_arms (type dest) (type src)) in
      (true, Some dest)
  | _, _ => (false, dest_value)
  end.

End Copy.

(** The text helpers work on NUL-terminated strings: a string is the list
    of its characters before the terminator. *)
Section Trim.

Variable trimmedchars : list Ascii.ascii.

(** [strchr(trimmedchars, c) != NULL]: the terminator of [trimmedchars]
    counts as one of its characters (C99 7.21.5.2). *)
Definition strchr (c : Ascii.ascii) : bool :=
  Ascii.eqb c Ascii.zero || existsb (Ascii.eqb c) trimmedchars.

(** [while (strchr(trimmedchars, *str)) { str++; }].  At the end of the
    string [*str] is the terminator; when [strchr] finds it the scan
    leaves the string, and there is no result. *)
Fixpoint ltrim_scan (str : list Ascii.ascii) : option (list Ascii.ascii) :=
  match str with
  | [] => if strchr Ascii.zero then None else Some str
  | c :: rest => if strchr c then ltrim_scan rest else Some str
  end.

(** [ltrim]. *)
Definition ltrim (str : list Ascii.ascii) : option (list Ascii.ascii) :=
  match str with
  | [] => Some str
  | _ => ltrim_scan str
  end.

(** [while (strchr(trimmedchars, *end)) { *end = 0; if (end == str) break;
    end--; }], with [end] the offset of [*end] in [str]. *)
Fixpoint rtrim_scan (str : list Ascii.ascii) (end_ : nat) : list Ascii.ascii :=
  if strchr (nth end_ str Ascii.zero) then
    let str := take end_ str in
    match end_ with
    | O => str
    | S end_ => rtrim_scan str end_
    end
  else str.

(** [rtrim]. *)
Definition rtrim (str : list Ascii.ascii) : list Ascii.ascii :=
  match str with
  | [] => str
  | _ => rtrim_scan str (length str - 1)
  end.

(** [trim]. *)
Definition trim (str : list Ascii.ascii) : option (list Ascii.ascii) :=
  ltrim (rtrim str).

End Trim.

(** An element of an array of [BACNET_APPLICATION_DATA_VALUE] with its
    [next] link: NULL, or the index of an element of the same array. *)
Record value_element := mkElement {
  element : BACNET_APPLICATION_DATA_VALUE;
  element_next : option nat
}.

(** [bacapp_value_list_init], for a non-NULL [value]; [a] is the array
    that starts at [value], of at least [count] elements. *)
Definition bacapp_value_list_init (a : list value_element) (count : nat)
    : list value_element :=
  foldl (fun a i =>
           match a !! i with
           | Some e =>
               <[i := mkElement
                        (mkValue false 0 BACNET_APPLICATION_TAG_NULL
                           (type (element e)))
                        (if (i + 1 <? count)%nat then Some (i + 1)%nat
                         else None)]> a
           | None => a
           end)
        a (seq 0 count).

(** [BACNET_PROPERTY_VALUE]; [value] is the first application value, with
    its own link. *)
Record BACNET_PROPERTY_VALUE := mkPropertyValue {
  propertyIdentifier : Z;
  propertyArrayIndex : Z;
  value : value_element;
  priority : Z;
  next : option nat
}.

(** Modelled from the spec: section 6 gives the constant. *)
Definition BACNET_NO_PRIORITY : Z := 0.

Section PropertyValues.

(** The end marker of the property enumeration in [bacenum.h]. *)
Variable MAX_BACNET_PROPERTY_ID : Z.

(** [bacapp_property_value_list_init], for a non-NULL [value]; [a] is the
    array that starts at [value], of at least [count] elements. *)
Definition bacapp_property_value_list_init
    (a : list BACNET_PROPERTY_VALUE) (count : nat)
    : list BACNET_PROPERTY_VALUE :=
  foldl (fun a i =>
           match a !! i with
           | Some v =>
               <[i := mkPropertyValue MAX_BACNET_PROPERTY_ID BACNET_ARRAY_ALL
                        (* bacapp_value_list_init(&value->value, 1); *)
                        (default (value v)
                           (head (bacapp_value_list_init [value v] 1)))
                        BACNET_NO_PRIORITY
                        (if (i + 1 <? count)%nat then Some (i + 1)%nat
                         else None)]> a
           | None => a
           end)
        a (seq 0 count).

End PropertyValues.

(** [value_list->next = n;] on element [i]. *)
Definition set_next (a : list BACNET_PROPERTY_VALUE) (i : nat)
    (n : option nat) : list BACNET_PROPERTY_VALUE :=
  match a !! i with
  | Some v =>
      <[i := mkPropertyValue (propertyIdentifier v) (propertyArrayIndex v)
               (value v) (priority v) n]> a
  | None => a
  end.

(** [bacapp_property_value_list_link], for a non-NULL [value_list] that is
    element [value_list] of [a]: [while (count) { ... count--; }]. *)
Fixpoint bacapp_property_value_list_link
    (a : list BACNET_PROPERTY_VALUE) (value_list count : nat)
    : list BACNET_PROPERTY_VALUE :=
  match count with
  | O => a
  | S count' =>
      if (1 <? count)%nat then
        let current_value_list := value_list in
        let value_list := S value_list in
        bacapp_property_value_list_link
          (set_next a current_value_list (Some value_list)) value_list count'
      else
        bacapp_property_value_list_link (set_next a value_list None)
          value_list count'
  end.

(** The elements reached from element [i] by following [next], at most
    [fuel] of them. *)
Fixpoint chain (a : list BACNET_PROPERTY_VALUE) (fuel : nat) (i : option nat)
    : list nat :=
  match fuel, i with
  | S fuel, Some i =>
      match a !! i with
      | Some v => i :: chain a fuel (next v)
      | None => []
      end
  | _, _ => []
  end.

End Bacapp.

(** ** The Load Control object ([lc.c]) *)

Module LoadControl.

Import Datetime.

Definition MAX_LOAD_CONTROLS : nat := 4.
Definition MAX_SHED_LEVELS : nat := 3.

Inductive BACNET_SHED_STATE :=
  | BACNET_SHED_INACTIVE
  | BACNET_SHED_REQUEST_PENDING
  | BACNET_SHED_COMPLIANT
  | BACNET_SHED_NON_COMPLIANT.

Inductive BACNET_SHED_LEVEL_TYPE :=
  | BACNET_SHED_TYPE_PERCENT
  | BACNET_SHED_TYPE_LEVEL
  | BACNET_SHED_TYPE_AMOUNT.

(** [BACNET_SHED_LEVEL]: the [type] field and the union member it selects.
    Every store in [lc.c] sets the two together, so the struct is the
    tagged value. *)
Inductive BACNET_SHED_LEVEL :=
  | Percent (percent : Z)          (* unsigned *)
  | Level (level : Z)              (* unsigned *)
  | Amount (amount : spec_float).  (* float *)

Definition shed_type (l : BACNET_SHED_LEVEL) : BACNET_SHED_LEVEL_TYPE :=
  match l with
  | Percent _ => BACNET_SHED_TYPE_PERCENT
  | Level _ => BACNET_SHED_TYPE_LEVEL
  | Amount _ => BACNET_SHED_TYPE_AMOUNT
  end.

Definition DEFAULT_VALUE_PERCENT : Z := 100.
Definition DEFAULT_VALUE_LEVEL : Z := 0.
Definition DEFAULT_VALUE_AMOUNT : spec_float := S754_zero false.

Inductive LOAD_CONTROL_STATE :=
  | SHED_INACTIVE
  | SHED_REQUEST_PENDING
  | SHED_NON_COMPLIANT
  | SHED_COMPLIANT.

(** The file-scope arrays of [lc.c], one entry per object instance. *)
Record lc_state := mkLc {
  Present_Value : list BACNET_SHED_STATE;
  Requested_Shed_Level : list BACNET_SHED_LEVEL;
  Expected_Shed_Level : list BACNET_SHED_LEVEL;
  Actual_Shed_Level : list BACNET_SHED_LEVEL;
  Start_Time : list BACNET_DATE_TIME;
  End_Time : list BACNET_DATE_TIME;
  Current_Time : BACNET_DATE_TIME;
  Shed_Duration : list Z;                        (* uint32_t *)
  Duty_Window : list Z;                          (* uint32_t *)
  Load_Control_Enable : list bool;
  Load_Control_Request_Written : list bool;
  Start_Time_Property_Written : list bool;
  Full_Duty_Baseline : list spec_float;
  Shed_Levels : list (list Z);                   (* [..][MAX_SHED_LEVELS] *)
  Load_Control_State : list LOAD_CONTROL_STATE;
  Load_Control_State_Previously : list LOAD_CONTROL_STATE;
  initialized : bool          (* the static flag of the handler *)
}.

#[global] Instance shed_level_inhabited : Inhabited BACNET_SHED_LEVEL :=
  populate (Level 0).
#[global] Instance datetime_inhabited : Inhabited BACNET_DATE_TIME :=
  populate datetime_wildcard_set.
#[global] Instance float_inhabited : Inhabited spec_float :=
  populate (S754_zero false).
#[global] Instance state_inhabited : Inhabited LOAD_CONTROL_STATE :=
  populate SHED_INACTIVE.

(** [static float Shed_Level_Values[MAX_SHED_LEVELS] = { 90.0, 80.0, 70.0 }] *)
Definition Shed_Level_Values : list spec_float :=
  [Ieee.of_Z32 90; Ieee.of_Z32 80; Ieee.of_Z32 70].

(** Stores into one of the arrays. *)
Definition set_Load_Control_State (s : lc_state) v : lc_state :=
  mkLc (Present_Value s) (Requested_Shed_Level s) (Expected_Shed_Level s)
    (Actual_Shed_Level s) (Start_Time s) (End_Time s) (Current_Time s)
    (Shed_Duration s) (Duty_Window s) (Load_Control_Enable s)
    (Load_Control_Request_Written s) (Start_Time_Property_Written s)
    (Full_Duty_Baseline s) (Shed_Levels s) v
    (Load_Control_State_Previously s) (initialized s).

Definition set_Requested_Shed_Level (s : lc_state) v : lc_state :=
  mkLc (Present_Value s) v (Expected_Shed_Level s)
    (Actual_Shed_Level s) (Start_Time s) (End_Time s) (Current_Time s)
    (Shed_Duration s) (Duty_Window s) (Load_Control_Enable s)
    (Load_Control_Request_Written s) (Start_Time_Property_Written s)
    (Full_Duty_Baseline s) (Shed_Levels s) (Load_Control_State s)
    (Load_Control_State_Previously s) (initialized s).

Definition set_Expected_Shed_Level (s : lc_state) v : lc_state :=
  mkLc (Present_Value s) (Requested_Shed_Level s) v
    (Actual_Shed_Level s) (Start_Time s) (End_Time s) (Current_Time s)
    (Shed_Duration s) (Duty_Window s) (Load_Control_Enable s)
    (Load_Control_Request_Written s) (Start_Time_Property_Written s)
    (Full_Duty_Baseline s) (Shed_Levels s) (Load_Control_State s)
    (Load_Control_State_Previously s) (initialized s).

Definition set_Actual_Shed_Level (s : lc_state) v : lc_state :=
  mkLc (Present_Value s) (Requested_Shed_Level s) (Expected_Shed_Level s)
    v (Start_Time s) (End_Time s) (Current_Time s)
    (Shed_Duration s) (Duty_Window s) (Load_Control_Enable s)
    (Load_Control_Request_Written s) (Start_Time_Property_Written s)
    (Full_Duty_Baseline s) (Shed_Levels s) (Load_Control_State s)
    (Load_Control_State_Previously s) (initialized s).

Definition set_Start_Time (s : lc_state) v : lc_state :=
  mkLc (Present_Value s) (Requested_Shed_Level s) (Expected_Shed_Level s)
    (Actual_Shed_Level s) v (End_Time s) (Current_Time s)
    (Shed_Duration s) (Duty_Window s) (Load_Control_Enable s)
    (Load_Control_Request_Written s) (Start_Time_Property_Written s)
    (Full_Duty_Baseline s) (Shed_Levels s) (Load_Control_State s)
    (Load_Control_State_Previously s) (initialized s).

Definition set_End_Time (s : lc_state) v : lc_state :=
  mkLc (Present_Value s) (Requested_Shed_Level s) (Expected_Shed_Level s)
    (Actual_Shed_Level s) (Start_Time s) v (Current_Time s)
    (Shed_Duration s) (Duty_Window s) (Load_Control_Enable s)
    (Load_Control_Request_Written s) (Start_Time_Property_Written s)
    (Full_Duty_Baseline s) (Shed_Levels s) (Load_Control_State s)
    (Load_Control_State_Previously s) (initialized s).

Definition set_Current_Time (s : lc_state) v : lc_state :=
  mkLc (Present_Value s) (Requested_Shed_Level s) (Expected_Shed_Level s)
    (Actual_Shed_Level s) (Start_Time s) (End_Time s) v
    (Shed_Duration s) (Duty_Window s) (Load_Control_Enable s)
    (Load_Control_Request_Written s) (Start_Time_Property_Written s)
    (Full_Duty_Baseline s) (Shed_Levels s) (Load_Control_State s)
    (Load_Control_State_Previously s) (initialized s).

Definition set_Shed_Duration (s : lc_state) v : lc_state :=
  mkLc (Present_Value s) (Requested_Shed_Level s) (Expected_Shed_Level s)
    (Actual_Shed_Level s) (Start_Time s) (End_Time s) (Current_Time s)
    v (Duty_Window s) (Load_Control_Enable s)
    (Load_Control_Request_Written s) (Start_Time_Property_Written s)
    (Full_Duty_Baseline s) (Shed_Levels s) (Load_Control_State s)
    (Load_Control_State_Previously s) (initialized s).

Definition set_Duty_Window (s : lc_state) v : lc_state :=
  mkLc (Present_Value s) (Requested_Shed_Level s) (Expected_Shed_Level s)
    (Actual_Shed_Level s) (Start_Time s) (End_Time s) (Current_Time s)
    (Shed_Duration s) v (Load_Control_Enable s)
    (Load_Control_Request_Written s) (Start_Time_Property_Written s)
    (Full_Duty_Baseline s) (Shed_Levels s) (Load_Control_State s)
    (Load_Control_State_Previously s) (initialized s).

Definition set_Load_Control_Enable (s : lc_state) v : lc_state :=
  mkLc (Present_Value s) (Requested_Shed_Level s) (Expected_Shed_Level s)
    (Actual_Shed_Level s) (Start_Time s) (End_Time s) (Current_Time s)
    (Shed_Duration s) (Duty_Window s) v
    (Load_Control_Request_Written s) (Start_Time_Property_Written s)
    (Full_Duty_Baseline s) (Shed_Levels s) (Load_Control_State s)
    (Load_Control_State_Previously s) (initialized s).

Definition set_Load_Control_Request_Written (s : lc_state) v : lc_state :=
  mkLc (Present_Value s) (Requested_Shed_Level s) (Expected_Shed_Level s)
    (Actual_Shed_Level s) (Start_Time s) (End_Time s) (Current_Time s)
    (Shed_Duration s) (Duty_Window s) (Load_Control_Enable s)
    v (Start_Time_Property_Written s)
    (Full_Duty_Baseline s) (Shed_Levels s) (Load_Control_State s)
    (Load_Control_State_Previously s) (initialized s).

Definition set_Start_Time_Property_Written (s : lc_state) v : lc_state :=
  mkLc (Present_Value s) (Requested_Shed_Level s) (Expected_Shed_Level s)
    (Actual_Shed_Level s) (Start_Time s) (End_Time s) (Current_Time s)
    (Shed_Duration s) (Duty_Window s) (Load_Control_Enable s)
    (Load_Control_Request_Written s) v
    (Full_Duty_Baseline s) (Shed_Levels s) (Load_Control_State s)
    (Load_Control_State_Previously s) (initialized s).

Definition set_Shed_Levels (s : lc_state) v : lc_state :=
  mkLc (Present_Value s) (Requested_Shed_Level s) (Expected_Shed_Level s)
    (Actual_Shed_Level s) (Start_Time s) (End_Time s) (Current_Time s)
    (Shed_Duration s) (Duty_Window s) (Load_Control_Enable s)
    (Load_Control_Request_Written s) (Start_Time_Property_Written s)
    (Full_Duty_Baseline s) v (Load_Control_State s)
    (Load_Control_State_Previously s) (initialized s).

Definition set_State_Previously (s : lc_state) v b : lc_state :=
  mkLc (Present_Value s) (Requested_Shed_Level s) (Expected_Shed_Level s)
    (Actual_Shed_Level s) (Start_Time s) (End_Time s) (Current_Time s)
    (Shed_Duration s) (Duty_Window s) (Load_Control_Enable s)
    (Load_Control_Request_Written s) (Start_Time_Property_Written s)
    (Full_Duty_Baseline s) (Shed_Levels s) (Load_Control_State s)
    v b.

(** [Load_Control_Init]. *)
Definition Load_Control_Init : lc_state :=
  mkLc (replicate MAX_LOAD_CONTROLS BACNET_SHED_INACTIVE)
    (replicate MAX_LOAD_CONTROLS (Level 0))
    (replicate MAX_LOAD_CONTROLS (Level 0))
    (replicate MAX_LOAD_CONTROLS (Level 0))
    (replicate MAX_LOAD_CONTROLS datetime_wildcard_set)
    (replicate MAX_LOAD_CONTROLS datetime_wildcard_set)
    datetime_wildcard_set
    (replicate MAX_LOAD_CONTROLS 0)
    (replicate MAX_LOAD_CONTROLS 0)
    (replicate MAX_LOAD_CONTROLS true)
    (replicate MAX_LOAD_CONTROLS false)
    (replicate MAX_LOAD_CONTROLS false)
    (* 1.500 kilowatts *)
    (replicate MAX_LOAD_CONTROLS (S754_finite false 12582912 (-23)))
    (replicate MAX_LOAD_CONTROLS [1; 2; 3])
    (replicate MAX_LOAD_CONTROLS SHED_INACTIVE)
    (replicate MAX_LOAD_CONTROLS SHED_INACTIVE)
    false.

(** The instance arrays all have [MAX_LOAD_CONTROLS] entries. *)
Definition lc_wf (s : lc_state) : Prop :=
  length (Requested_Shed_Level s) = MAX_LOAD_CONTROLS /\
  length (Expected_Shed_Level s) = MAX_LOAD_CONTROLS /\
  length (Actual_Shed_Level s) = MAX_LOAD_CONTROLS /\
  length (Start_Time s) = MAX_LOAD_CONTROLS /\
  length (End_Time s) = MAX_LOAD_CONTROLS /\
  length (Load_Control_Enable s) = MAX_LOAD_CONTROLS /\
  length (Load_Control_Request_Written s) = MAX_LOAD_CONTROLS /\
  length (Start_Time_Property_Written s) = MAX_LOAD_CONTROLS /\
  length (Load_Control_State s) = MAX_LOAD_CONTROLS.

(** [Load_Control_Instance_To_Index]. *)
Definition Load_Control_Instance_To_Index (object_instance : Z) : nat :=
  if object_instance <? Z.of_nat MAX_LOAD_CONTROLS
  then Z.to_nat object_instance
  else MAX_LOAD_CONTROLS.

(** [Load_Control_Valid_Instance]. *)
Definition Load_Control_Valid_Instance (object_instance : Z) : bool :=
  object_instance <? Z.of_nat MAX_LOAD_CONTROLS.

Section Machine.

Context {clock : DateTimeOps} {AO : Type} {ao_ops : AnalogOutput AO}.

(** [Requested_Shed_Level_Value]: "convert the shed level request into an
    Analog Output Present_Value".  In the AMOUNT case the C code multiplies
    by the [double] constant [100.0] and stores into a [float]; the product
    of a binary32 value and 100 is exact in binary64, so the stored result
    is the binary32 product. *)
Definition Requested_Shed_Level_Value (s : lc_state) (object_index : nat)
    : spec_float :=
  match Requested_Shed_Level s !!! object_index with
  | Percent percent => Ieee.of_Z32 percent
  | Amount amount =>
      let requested_level :=
        Ieee.sub32 (Full_Duty_Baseline s !!! object_index) amount in
      let requested_level :=
        Ieee.div32 requested_level (Full_Duty_Baseline s !!! object_index) in
      Ieee.mul32 requested_level (Ieee.of_Z32 100)
  | Level level =>
      let shed_level_index :=
        foldl (fun idx i =>
                 if (Shed_Levels s !!! object_index) !!! i <=? level
                 then i else idx)
              0%nat (seq 0 MAX_SHED_LEVELS) in
      Shed_Level_Values !!! shed_level_index
  end.

(** [Shed_Level_Default_Set]. *)
Definition Shed_Level_Default_Set (type : BACNET_SHED_LEVEL_TYPE)
    : BACNET_SHED_LEVEL :=
  match type with
  | BACNET_SHED_TYPE_PERCENT => Percent 100
  | BACNET_SHED_TYPE_AMOUNT => Amount (S754_zero false)
  | BACNET_SHED_TYPE_LEVEL => Level 0
  end.

(** [Able_To_Meet_Shed_Request]. *)
Definition Able_To_Meet_Shed_Request (s : lc_state) (ao : AO)
    (object_index : nat) : bool :=
  let object_instance := Z.of_nat object_index in
  let priority := Analog_Output_Present_Value_Priority ao object_instance in
  if 4 <=? priority then
    let requested_level := Requested_Shed_Level_Value s object_index in
    let level := Analog_Output_Present_Value ao object_instance in
    SFleb requested_level level
  else false.

(** [Load_Control_State[object_index] = v;] *)
Definition enter (s : lc_state) (object_index : nat) (v : LOAD_CONTROL_STATE)
    : lc_state :=
  set_Load_Control_State s (<[object_index := v]> (Load_Control_State s)).

(** [datetime_copy(&End_Time[k], &Start_Time[k]);
     datetime_add_minutes(&End_Time[k], Shed_Duration[k]);] *)
Definition update_End_Time (s : lc_state) (object_index : nat) : lc_state :=
  set_End_Time s
    (<[object_index :=
         datetime_add_minutes (Start_Time s !!! object_index)
                              (Shed_Duration s !!! object_index)]>
       (End_Time s)).

(** [Shed_Level_Copy(&Expected_Shed_Level[k], &Requested_Shed_Level[k]);] *)
Definition expect_requested (s : lc_state) (object_index : nat) : lc_state :=
  set_Expected_Shed_Level s
    (<[object_index := Requested_Shed_Level s !!! object_index]>
       (Expected_Shed_Level s)).

(** [Shed_Level_Copy(&Actual_Shed_Level[k], &Requested_Shed_Level[k]);] *)
Definition actual_requested (s : lc_state) (object_index : nat) : lc_state :=
  set_Actual_Shed_Level s
    (<[object_index := Requested_Shed_Level s !!! object_index]>
       (Actual_Shed_Level s)).

(** [Shed_Level_Default_Set(&Expected_Shed_Level[k],
                            Requested_Shed_Level[k].type);] *)
Definition expect_default (s : lc_state) (object_index : nat) : lc_state :=
  set_Expected_Shed_Level s
    (<[object_index :=
         Shed_Level_Default_Set
           (shed_type (Requested_Shed_Level s !!! object_index))]>
       (Expected_Shed_Level s)).

(** [Shed_Level_Default_Set(&Actual_Shed_Level[k],
                            Requested_Shed_Level[k].type);] *)
Definition actual_default (s : lc_state) (object_index : nat) : lc_state :=
  set_Actual_Shed_Level s
    (<[object_index :=
         Shed_Level_Default_Set
           (shed_type (Requested_Shed_Level s !!! object_index))]>
       (Actual_Shed_Level s)).

(** The statements under "AbleToMeetShed" and "CanNowComplyWithShed". *)
Definition comply (s : lc_state) (ao : AO) (object_index : nat)
    : lc_state * AO :=
  let s := expect_requested s object_index in
  let ao :=
    Analog_Output_Present_Value_Set ao (Z.of_nat object_index)
      (Requested_Shed_Level_Value s object_index) 4 in
  let s := actual_requested s object_index in
  (enter s object_index SHED_COMPLIANT, ao).

(** The statements under "CannotMeetShed" and "CanNoLongerComplyWithShed". *)
Definition cannot_comply (s : lc_state) (object_index : nat) : lc_state :=
  let s := expect_default s object_index in
  let s := actual_default s object_index in
  enter s object_index SHED_NON_COMPLIANT.

(** [case SHED_REQUEST_PENDING:] *)
Definition request_pending (s : lc_state) (ao : AO) (object_index : nat)
    : lc_state * AO :=
  let s1 :=
    if (Load_Control_Request_Written s !!! object_index : bool) then
      let s :=
        set_Load_Control_Request_Written s
          (<[object_index := false]> (Load_Control_Request_Written s)) in
      (* request to cancel using default values? *)
      match Requested_Shed_Level s !!! object_index with
      | Percent percent =>
          if percent =? DEFAULT_VALUE_PERCENT
          then enter s object_index SHED_INACTIVE else s
      | Amount amount =>
          if SFleb amount DEFAULT_VALUE_AMOUNT
          then enter s object_index SHED_INACTIVE else s
      | Level level =>
          if level =? DEFAULT_VALUE_LEVEL
          then enter s object_index SHED_INACTIVE else s
      end
    else s in
  if (Load_Control_Request_Written s !!! object_index : bool) &&
     match Load_Control_State s1 !!! object_index with
     | SHED_INACTIVE => true
     | _ => false
     end
  then (s1, ao)
  else
    (* clear the flag for Start time if it is written *)
    let written : bool := Start_Time_Property_Written s1 !!! object_index in
    let s2 :=
      if written
      then set_Start_Time_Property_Written s1
             (<[object_index := false]> (Start_Time_Property_Written s1))
      else s1 in
    if written && datetime_wildcard (Start_Time s2 !!! object_index)
    then (enter s2 object_index SHED_INACTIVE, ao)
    else
      (* cancel because current time is after start time + duration? *)
      let s3 := update_End_Time s2 object_index in
      let diff :=
        datetime_compare (End_Time s3 !!! object_index) (Current_Time s3) in
      if diff <? 0 then (enter s3 object_index SHED_INACTIVE, ao)
      else
        let diff :=
          datetime_compare (Current_Time s3) (Start_Time s3 !!! object_index) in
        if diff <? 0 then
          (* current time prior to start time: ReconfigurePending *)
          (actual_default (expect_requested s3 object_index) object_index, ao)
        else if 0 <? diff then
          (* current time after to start time *)
          if Able_To_Meet_Shed_Request s3 ao object_index
          then comply s3 ao object_index
          else (cannot_comply s3 object_index, ao)
        else (s3, ao).

(** [case SHED_NON_COMPLIANT:] *)
Definition non_compliant (s : lc_state) (ao : AO) (object_index : nat)
    : lc_state * AO :=
  let s := update_End_Time s object_index in
  let diff :=
    datetime_compare (End_Time s !!! object_index) (Current_Time s) in
  if diff <? 0 then
    (* FinishedUnsuccessfulShed *)
    (enter s object_index SHED_INACTIVE, ao)
  else if (Load_Control_Request_Written s !!! object_index) ||
          (Start_Time_Property_Written s !!! object_index) then
    (* UnsuccessfulShedReconfigured *)
    (enter s object_index SHED_REQUEST_PENDING, ao)
  else if Able_To_Meet_Shed_Request s ao object_index then
    (* CanNowComplyWithShed *)
    comply s ao object_index
  else (s, ao).

(** [case SHED_COMPLIANT:].  [i] is the function's loop counter
    [unsigned i = 0;], which nothing advances. *)
Definition compliant (i : nat) (s : lc_state) (ao : AO) (object_index : nat)
    : lc_state * AO :=
  let s := update_End_Time s object_index in
  let diff :=
    datetime_compare (End_Time s !!! object_index) (Current_Time s) in
  if diff <? 0 then
    (* FinishedSuccessfulShed *)
    let s := set_Start_Time s (<[i := datetime_wildcard_set]> (Start_Time s)) in
    let ao :=
      Analog_Output_Present_Value_Relinquish ao (Z.of_nat object_index) 4 in
    (enter s object_index SHED_INACTIVE, ao)
  else if (Load_Control_Request_Written s !!! object_index) ||
          (Start_Time_Property_Written s !!! object_index) then
    (* UnsuccessfulShedReconfigured *)
    (enter s object_index SHED_REQUEST_PENDING, ao)
  else if negb (Able_To_Meet_Shed_Request s ao object_index) then
    (* CanNoLongerComplyWithShed *)
    (cannot_comply s object_index, ao)
  else (s, ao).

(** [case SHED_INACTIVE: default:] *)
Definition inactive (s : lc_state) (ao : AO) (object_index : nat)
    : lc_state * AO :=
  if (Start_Time_Property_Written s !!! object_index : bool) then
    let s := expect_requested s object_index in
    let s := actual_default s object_index in
    (enter s object_index SHED_REQUEST_PENDING, ao)
  else (s, ao).

(** [Load_Control_State_Machine].  [object_index] is a valid index: the
    handler passes [0 .. MAX_LOAD_CONTROLS-1]. *)
Definition Load_Control_State_Machine (s : lc_state) (ao : AO)
    (object_index : nat) : lc_state * AO :=
  let i := 0%nat in (* loop counter *)
  (* is the state machine enabled? *)
  if negb (Load_Control_Enable s !!! object_index) then
    (enter s object_index SHED_INACTIVE, ao)
  else
    match Load_Control_State s !!! object_index with
    | SHED_REQUEST_PENDING => request_pending s ao object_index
    | SHED_NON_COMPLIANT => non_compliant s ao object_index
    | SHED_COMPLIANT => compliant i s ao object_index
    | SHED_INACTIVE => inactive s ao object_index
    end.

(** [Load_Control_State_Machine_Handler]: "call every second or so".
    [now] is what [datetime_local] reports. *)
Definition Load_Control_State_Machine_Handler (now : BACNET_DATE_TIME)
    (s : lc_state) (ao : AO) : lc_state * AO :=
  let s :=
    if negb (initialized s) then
      set_State_Previously
        (set_Load_Control_State s (replicate MAX_LOAD_CONTROLS SHED_INACTIVE))
        (replicate MAX_LOAD_CONTROLS SHED_INACTIVE) true
    else s in
  let s := set_Current_Time s now in
  foldl (fun (acc : lc_state * AO) (i : nat) =>
           let '(s, ao) := Load_Control_State_Machine acc.1 acc.2 i in
           (set_State_Previously s
              (<[i := Load_Control_State s !!! i]>
                 (Load_Control_State_Previously s))
              (initialized s), ao))
        (s, ao) (seq 0 MAX_LOAD_CONTROLS).

(** *** Vocabulary for the properties of the state machine *)

(** Steps 1 and 2 of the pending state (section 4.4): a written flag that
    withdraws the request in this tick. *)
Definition cancels_request (s : lc_state) (k : nat) : bool :=
  (Load_Control_Request_Written s !!! k) &&
  match Requested_Shed_Level s !!! k with
  | Percent percent => percent =? DEFAULT_VALUE_PERCENT
  | Amount amount => SFleb amount DEFAULT_VALUE_AMOUNT
  | Level level => level =? DEFAULT_VALUE_LEVEL
  end.

Definition cancels_start (s : lc_state) (k : nat) : bool :=
  (Start_Time_Property_Written s !!! k) &&
  datetime_wildcard (Start_Time s !!! k).

(** Everything but the state array is as before. *)
Definition only_state_changed (s s' : lc_state) : Prop :=
  Present_Value s' = Present_Value s /\
  Requested_Shed_Level s' = Requested_Shed_Level s /\
  Expected_Shed_Level s' = Expected_Shed_Level s /\
  Actual_Shed_Level s' = Actual_Shed_Level s /\
  Start_Time s' = Start_Time s /\
  End_Time s' = End_Time s /\
  Current_Time s' = Current_Time s /\
  Shed_Duration s' = Shed_Duration s /\
  Duty_Window s' = Duty_Window s /\
  Load_Control_Enable s' = Load_Control_Enable s /\
  Load_Control_Request_Written s' = Load_Control_Request_Written s /\
  Start_Time_Property_Written s' = Start_Time_Property_Written s /\
  Full_Duty_Baseline s' = Full_Duty_Baseline s /\
  Shed_Levels s' = Shed_Levels s /\
  Load_Control_State_Previously s' = Load_Control_State_Previously s /\
  initialized s' = initialized s.

End Machine.

(** *** Property writes *)

Import Bacapp.

Inductive BACNET_ERROR_CLASS :=
  | ERROR_CLASS_PROPERTY
  | ERROR_CLASS_OTHER (c : Z).

Inductive BACNET_ERROR_CODE :=
  | ERROR_CODE_OTHER
  | ERROR_CODE_INVALID_DATA_TYPE
  | ERROR_CODE_PROPERTY_IS_NOT_AN_ARRAY
  | ERROR_CODE_VALUE_OUT_OF_RANGE
  | ERROR_CODE_WRITE_ACCESS_DENIED
  | ERROR_CODE_UNSET (c : Z).

(** [BACNET_WRITE_PROPERTY_DATA] ([wp.h]), without the [priority] field,
    which [lc.c] does not read. *)
Record BACNET_WRITE_PROPERTY_DATA := mkWp {
  object_instance : Z;              (* uint32_t *)
  object_property : BACNET_PROPERTY_ID;
  array_index : Z;                  (* uint32_t *)
  application_data : list Z;        (* uint8_t [MAX_APDU] *)
  application_data_len : Z;         (* int *)
  error_class : BACNET_ERROR_CLASS;
  error_code : BACNET_ERROR_CODE
}.

(** [wp_data->error_class = c; wp_data->error_code = e;] *)
Definition set_error (wp_data : BACNET_WRITE_PROPERTY_DATA)
    (c : BACNET_ERROR_CLASS) (e : BACNET_ERROR_CODE)
    : BACNET_WRITE_PROPERTY_DATA :=
  mkWp (object_instance wp_data) (object_property wp_data)
       (array_index wp_data) (application_data wp_data)
       (application_data_len wp_data) c e.

(** Modelled from the spec: [write_property_type_valid] of [wp.c] is not
    part of the sources at hand.  Section 4.5: a write "validates the
    expected application tag" and otherwise returns [INVALID_DATA_TYPE]. *)
Definition write_property_type_valid (wp_data : BACNET_WRITE_PROPERTY_DATA)
    (value : BACNET_APPLICATION_DATA_VALUE) (expected_tag : Z)
    : bool * BACNET_WRITE_PROPERTY_DATA :=
  if tag value =? expected_tag then (true, wp_data)
  else (false, set_error wp_data ERROR_CLASS_PROPERTY
                 ERROR_CODE_INVALID_DATA_TYPE).

(** A store into an [unsigned] or [uint32_t] object. *)
Definition to_uint32 (n : Z) : Z := n `mod` 2 ^ 32.

Record write_result := mkWritten {
  wr_status : bool;                                (* the [bool] returned *)
  wr_data : option BACNET_WRITE_PROPERTY_DATA;     (* *wp_data afterwards *)
  wr_state : lc_state                              (* the object afterwards *)
}.

Section Write.

Variable MAX_BACNET_APPLICATION_TAG : Z.

(** The body of the [switch (wp_data->object_property)].  [value] is what
    the first decode left in the local; [len] what it returned.
    [object_index] is [MAX_LOAD_CONTROLS] for an instance outside
    [0 .. MAX_LOAD_CONTROLS-1], and nothing in the function checks it: a
    C store at that index lands past the end of the array, which C leaves
    undefined.  The list update stores nothing there, so for such an
    instance the arms that store are outside what this definition
    describes; the theorems below about an arm that stores carry a valid
    instance, or an index inside the arrays, as a hypothesis. *)
Definition write_dispatch (wp_data : BACNET_WRITE_PROPERTY_DATA)
    (value : BACNET_APPLICATION_DATA_VALUE) (len : Z) (s : lc_state)
    : write_result :=
  let object_index :=
    Load_Control_Instance_To_Index (object_instance wp_data) in
  let request_written (s : lc_state) :=
    set_Load_Control_Request_Written s
      (<[object_index := true]> (Load_Control_Request_Written s)) in
  match object_property wp_data with
  | PROP_REQUESTED_SHED_LEVEL =>
      let '(len, value) :=
        bacapp_decode_context_data MAX_BACNET_APPLICATION_TAG
          (application_data wp_data) (application_data_len wp_data) value
          PROP_REQUESTED_SHED_LEVEL in
      let stored (l : BACNET_SHED_LEVEL) :=
        mkWritten true (Some wp_data)
          (request_written
             (set_Requested_Shed_Level s
                (<[object_index := l]> (Requested_Shed_Level s)))) in
      if len =? BACNET_STATUS_ERROR then
        mkWritten false
          (Some (set_error wp_data ERROR_CLASS_PROPERTY
                   ERROR_CODE_INVALID_DATA_TYPE)) s
      else if context_tag value =? 0 then
        (* percent - Unsigned *)
        stored (Percent (to_uint32 (Unsigned_Int (type value))))
      else if context_tag value =? 1 then
        (* level - Unsigned *)
        stored (Level (to_uint32 (Unsigned_Int (type value))))
      else if context_tag value =? 2 then
        (* amount - REAL *)
        stored (Amount (Real (type value)))
      else
        mkWritten false
          (Some (set_error wp_data ERROR_CLASS_PROPERTY
                   ERROR_CODE_INVALID_DATA_TYPE)) s
  | PROP_START_TIME =>
      let '(status, wp_data) :=
        write_property_type_valid wp_data value BACNET_APPLICATION_TAG_DATE in
      if negb status then
        (* don't continue if we don't have a valid date *)
        mkWritten false (Some wp_data) s
      else
        (* Hold the date until we are sure the time is also there *)
        let start_date := Date (type value) in
        let '(len, value) :=
          bacapp_decode_application_data MAX_BACNET_APPLICATION_TAG
            (drop (Z.to_nat len) (application_data wp_data))
            (application_data_len wp_data - len) value in
        if negb (len =? 0) then
          let '(status, wp_data) :=
            write_property_type_valid wp_data value
              BACNET_APPLICATION_TAG_TIME in
          if status then
            (* Write time and date and set written flag *)
            let s :=
              set_Start_Time s
                (<[object_index :=
                     mkDateTime start_date (Time (type value))]>
                   (Start_Time s)) in
            let s :=
              set_Start_Time_Property_Written s
                (<[object_index := true]> (Start_Time_Property_Written s)) in
            mkWritten true (Some wp_data) s
          else mkWritten false (Some wp_data) s
        else
          mkWritten false
            (Some (set_error wp_data ERROR_CLASS_PROPERTY
                     ERROR_CODE_VALUE_OUT_OF_RANGE)) s
  | PROP_SHED_DURATION =>
      let '(status, wp_data) :=
        write_property_type_valid wp_data value
          BACNET_APPLICATION_TAG_UNSIGNED_INT in
      if status then
        mkWritten true (Some wp_data)
          (request_written
             (set_Shed_Duration s
                (<[object_index := to_uint32 (Unsigned_Int (type value))]>
                   (Shed_Duration s))))
      else mkWritten false (Some wp_data) s
  | PROP_DUTY_WINDOW =>
      let '(status, wp_data) :=
        write_property_type_valid wp_data value
          BACNET_APPLICATION_TAG_UNSIGNED_INT in
      if status then
        mkWritten true (Some wp_data)
          (request_written
             (set_Duty_Window s
                (<[object_index := to_uint32 (Unsigned_Int (type value))]>
                   (Duty_Window s))))
      else mkWritten false (Some wp_data) s
  | PROP_SHED_LEVELS =>
      let '(status, wp_data) :=
        write_property_type_valid wp_data value
          BACNET_APPLICATION_TAG_UNSIGNED_INT in
      if status then
        (* re-write the size of the array? *)
        if array_index wp_data =? 0 then
          mkWritten false
            (Some (set_error wp_data ERROR_CLASS_PROPERTY
                     ERROR_CODE_WRITE_ACCESS_DENIED)) s
        else if array_index wp_data =? BACNET_ARRAY_ALL then
          (* FIXME: write entire array *)
          mkWritten true (Some wp_data) s
        else if array_index wp_data <=? Z.of_nat MAX_SHED_LEVELS then
          mkWritten true (Some wp_data)
            (set_Shed_Levels s
               (<[object_index :=
                    <[Z.to_nat (array_index wp_data - 1) :=
                        to_uint32 (Unsigned_Int (type value))]>
                      (Shed_Levels s !!! object_index)]>
                  (Shed_Levels s)))
        else
          mkWritten false
            (Some (set_error wp_data ERROR_CLASS_PROPERTY ERROR_CODE_OTHER)) s
      else mkWritten false (Some wp_data) s
  | PROP_ENABLE =>
      let '(status, wp_data) :=
        write_property_type_valid wp_data value
          BACNET_APPLICATION_TAG_BOOLEAN in
      if status then
        mkWritten true (Some wp_data)
          (set_Load_Control_Enable s
             (<[object_index := Boolean (type value)]>
                (Load_Control_Enable s)))
      else mkWritten false (Some wp_data) s
  | _ =>
      mkWritten false
        (Some (set_error wp_data ERROR_CLASS_PROPERTY
                 ERROR_CODE_WRITE_ACCESS_DENIED)) s
  end.

(** [Load_Control_Write_Property]: "returns true if successful".
    [value] is the content of the uninitialised local of that name when the
    function is entered.  The instance is not checked here either: see
    [write_dispatch] for an instance outside [0 .. MAX_LOAD_CONTROLS-1]. *)
Definition Load_Control_Write_Property
    (wp_data : option BACNET_WRITE_PROPERTY_DATA)
    (value : BACNET_APPLICATION_DATA_VALUE) (s : lc_state) : write_result :=
  match wp_data with
  | None => mkWritten false None s
  | Some wp_data =>
      if application_data_len wp_data <? 0 then
        (* error while decoding - a smaller larger than we can handle *)
        mkWritten false
          (Some (set_error wp_data ERROR_CLASS_PROPERTY
                   ERROR_CODE_VALUE_OUT_OF_RANGE)) s
      else
        (* decode the some of the request *)
        let '(len, value) :=
          bacapp_decode_application_data MAX_BACNET_APPLICATION_TAG
            (application_data wp_data) (application_data_len wp_data) value in
        if len <? 0 then
          (* error while decoding - a value larger than we can handle *)
          mkWritten false
            (Some (set_error wp_data ERROR_CLASS_PROPERTY
                     ERROR_CODE_VALUE_OUT_OF_RANGE)) s
        else if
          (* only array properties can have array options *)
          match object_property wp_data with
          | PROP_SHED_LEVELS => false
          | _ => negb (array_index wp_data =? BACNET_ARRAY_ALL)
          end
        then
          mkWritten false
            (Some (set_error wp_data ERROR_CLASS_PROPERTY
                     ERROR_CODE_PROPERTY_IS_NOT_AN_ARRAY)) s
        else write_dispatch wp_data value len s
  end.

End Write.

(** *** The other entry points of [lc.c] *)

#[global] Instance shed_state_inhabited : Inhabited BACNET_SHED_STATE :=
  populate BACNET_SHED_INACTIVE.
#[global] Instance text_inhabited : Inhabited String.string :=
  populate String.EmptyString.

(** "These three arrays are used by the ReadPropertyMultiple handler";
    each C array ends with -1. *)
Definition Load_Control_Properties_Required : list BACNET_PROPERTY_ID :=
  [PROP_OBJECT_IDENTIFIER; PROP_OBJECT_NAME; PROP_OBJECT_TYPE;
   PROP_PRESENT_VALUE; PROP_STATUS_FLAGS; PROP_EVENT_STATE;
   PROP_REQUESTED_SHED_LEVEL; PROP_START_TIME; PROP_SHED_DURATION;
   PROP_DUTY_WINDOW; PROP_ENABLE; PROP_EXPECTED_SHED_LEVEL;
   PROP_ACTUAL_SHED_LEVEL; PROP_SHED_LEVELS; PROP_SHED_LEVEL_DESCRIPTIONS].

Definition Load_Control_Properties_Optional : list BACNET_PROPERTY_ID :=
  [PROP_DESCRIPTION; PROP_FULL_DUTY_BASELINE].

Definition Load_Control_Properties_Proprietary : list BACNET_PROPERTY_ID := [].

(** [Load_Control_Property_Lists], for three non-NULL arguments. *)
Definition Load_Control_Property_Lists
    : list BACNET_PROPERTY_ID * list BACNET_PROPERTY_ID *
      list BACNET_PROPERTY_ID :=
  (Load_Control_Properties_Required, Load_Control_Properties_Optional,
   Load_Control_Properties_Proprietary).

(** [Load_Control_Count]. *)
Definition Load_Control_Count : nat := MAX_LOAD_CONTROLS.

(** [Load_Control_Index_To_Instance]. *)
Definition Load_Control_Index_To_Instance (index : nat) : Z :=
  if (index <? MAX_LOAD_CONTROLS)%nat
  then Z.of_nat index
  else Z.of_nat MAX_LOAD_CONTROLS.

(** [Load_Control_Present_Value]. *)
Definition Load_Control_Present_Value (s : lc_state) (object_instance : Z)
    : BACNET_SHED_STATE :=
  let index := Load_Control_Instance_To_Index object_instance in
  if (index <? MAX_LOAD_CONTROLS)%nat
  then Present_Value s !!! index
  else BACNET_SHED_INACTIVE.

Section Text.

Import Stdlib.Strings.String.

(** [static char *Shed_Level_Descriptions[MAX_SHED_LEVELS]] *)
Definition Shed_Level_Descriptions : list string :=
  ["dim lights 10%"; "dim lights 20%"; "dim lights 30%"]%string.

(** [snprintf(text, sizeof(text), "LOAD CONTROL %lu", object_instance)]:
    [text] has 32 octets, so at most 31 characters are kept. *)
Definition snprintf_name (object_instance : Z) : string :=
  substring 0 31
    (append "LOAD CONTROL "
       (DecimalString.NilZero.string_of_uint
          (N.to_uint (Z.to_N object_instance)))).

End Text.

(** The value encoders of [bacdcode.c] and the string helpers of [bacstr.c]
    that the object calls are not part of the sources at hand.  They are
    an interface here: every result below holds for all implementations of
    it.  An encoder gives the octets it stores from the position it is
    handed; the [int] it returns is their number. *)
Class Encoders := {
  BACNET_CHARACTER_STRING : Type;
  BACNET_BIT_STRING : Type;
  characterstring_init_ansi :
    BACNET_CHARACTER_STRING -> String.string -> bool * BACNET_CHARACTER_STRING;
  bitstring_init : BACNET_BIT_STRING -> BACNET_BIT_STRING;
  bitstring_set_bit : BACNET_BIT_STRING -> Z -> bool -> BACNET_BIT_STRING;
  encode_application_object_id : Z -> Z -> list Z;
  encode_application_character_string : BACNET_CHARACTER_STRING -> list Z;
  encode_application_enumerated : Z -> list Z;
  encode_application_bitstring : BACNET_BIT_STRING -> list Z;
  encode_application_unsigned : Z -> list Z;
  encode_application_boolean : bool -> list Z;
  encode_application_real : spec_float -> list Z;
  encode_application_date : BACNET_DATE -> list Z;
  encode_application_time : BACNET_TIME -> list Z;
  encode_context_unsigned : Z -> Z -> list Z;
  encode_context_real : Z -> spec_float -> list Z
}.

(** The constants of [bacenum.h], [bacdef.h] and [config.h] that
    [Load_Control_Read_Property] names, and the numbering of
    [BACNET_SHED_STATE]; none of them is part of the sources at hand. *)
Class Enumerations := {
  OBJECT_LOAD_CONTROL : Z;
  EVENT_STATE_NORMAL : Z;
  STATUS_FLAG_IN_ALARM : Z;
  STATUS_FLAG_FAULT : Z;
  STATUS_FLAG_OVERRIDDEN : Z;
  STATUS_FLAG_OUT_OF_SERVICE : Z;
  shed_state_number : BACNET_SHED_STATE -> Z;
  MAX_APDU : Z;
  BACNET_STATUS_ABORT : Z
}.

(** [BACNET_READ_PROPERTY_DATA] ([rp.h]), as far as [lc.c] touches it. *)
Module Rp.

Inductive BACNET_ERROR_CODE :=
  | ERROR_CODE_UNKNOWN_PROPERTY
  | ERROR_CODE_INVALID_ARRAY_INDEX
  | ERROR_CODE_PROPERTY_IS_NOT_AN_ARRAY
  | ERROR_CODE_ABORT_SEGMENTATION_NOT_SUPPORTED
  | ERROR_CODE_UNSET (c : Z).

Record BACNET_READ_PROPERTY_DATA := mkRp {
  object_instance : Z;                    (* uint32_t *)
  object_property : BACNET_PROPERTY_ID;
  array_index : Z;                        (* uint32_t *)
  application_data : option (list Z);     (* uint8_t *, NULL or a buffer *)
  application_data_len : Z;               (* int *)
  error_class : BACNET_ERROR_CLASS;
  error_code : BACNET_ERROR_CODE
}.

(** [rpdata->error_class = c;] *)
Definition set_error_class (rpdata : BACNET_READ_PROPERTY_DATA)
    (c : BACNET_ERROR_CLASS) : BACNET_READ_PROPERTY_DATA :=
  mkRp (object_instance rpdata) (object_property rpdata) (array_index rpdata)
       (application_data rpdata) (application_data_len rpdata)
       c (error_code rpdata).

(** [rpdata->error_code = e;] *)
Definition set_error_code (rpdata : BACNET_READ_PROPERTY_DATA)
    (e : BACNET_ERROR_CODE) : BACNET_READ_PROPERTY_DATA :=
  mkRp (object_instance rpdata) (object_property rpdata) (array_index rpdata)
       (application_data rpdata) (application_data_len rpdata)
       (error_class rpdata) e.

End Rp.

Record read_result := mkRead {
  rd_len : Z;                                     (* the [int] returned *)
  rd_apdu : list Z;                               (* the octets stored *)
  rd_data : option Rp.BACNET_READ_PROPERTY_DATA   (* *rpdata afterwards *)
}.

Section Read.

Context {encoders : Encoders} {enums : Enumerations}.

(** [Load_Control_Object_Name]: "the object name must be unique within
    this device". *)
Definition Load_Control_Object_Name (object_instance : Z) (object_name : BACNET_CHARACTER_STRING)
    : bool * BACNET_CHARACTER_STRING :=
  if object_instance <? Z.of_nat MAX_LOAD_CONTROLS then
    let text := snprintf_name object_instance in
    characterstring_init_ansi object_name text
  else (false, object_name).

(** The loop that encodes a whole array:
    [for (i = 0; i < MAX_SHED_LEVELS; i++) {
       len = encode(&apdu[apdu_len], element i);
       if ((apdu_len + len) < MAX_APDU) { apdu_len += len; }
       else { rpdata->error_code = ...; apdu_len = BACNET_STATUS_ABORT;
              break; } }].
    The element is stored before the room is checked.  [st] is the local
    the element encoder works in. *)
Fixpoint encode_elements {A : Type} (element : A -> nat -> A * list Z)
    (indices : list nat) (st : A) (apdu_len : Z) (apdu : list Z)
    (rpdata : Rp.BACNET_READ_PROPERTY_DATA)
    : Z * list Z * Rp.BACNET_READ_PROPERTY_DATA :=
  match indices with
  | [] => (apdu_len, apdu, rpdata)
  | i :: rest =>
      let '(st, octets) := element st i in
      let len := Z.of_nat (length octets) in
      let apdu := take (Z.to_nat apdu_len) apdu ++ octets in
      (* add it if we have room *)
      if apdu_len + len <? MAX_APDU
      then encode_elements element rest st (apdu_len + len) apdu rpdata
      else (BACNET_STATUS_ABORT, apdu,
            Rp.set_error_code rpdata
              Rp.ERROR_CODE_ABORT_SEGMENTATION_NOT_SUPPORTED)
  end.

(** [Load_Control_Read_Property]: "return apdu len, or BACNET_STATUS_ERROR
    on error".  [char_string] and [bit_string] are the contents of the
    uninitialised locals of those names when the function is entered.
    Nothing in the function checks the instance: for one outside
    [0 .. MAX_LOAD_CONTROLS-1] [object_index] is [MAX_LOAD_CONTROLS] and
    the C reads at that index go past the end of the arrays, which C
    leaves undefined.  The list lookup gives a default there, so for such
    an instance the values encoded are outside what this definition
    describes; the theorem below about the values read carries a valid
    instance as a hypothesis. *)
Definition Load_Control_Read_Property
    (rpdata : option Rp.BACNET_READ_PROPERTY_DATA)
    (char_string : BACNET_CHARACTER_STRING) (bit_string : BACNET_BIT_STRING)
    (s : lc_state) : read_result :=
  match rpdata with
  | None => mkRead 0 [] None
  | Some rp =>
      match Rp.application_data rp with
      | None => mkRead 0 [] rpdata
      | Some _ =>
          if Rp.application_data_len rp =? 0 then mkRead 0 [] rpdata
          else
            let object_index :=
              Load_Control_Instance_To_Index (Rp.object_instance rp) in
            let stored (octets : list Z) :=
              (Z.of_nat (length octets), octets, rp) in
            let '(apdu_len, apdu, rp') :=
              match Rp.object_property rp with
              | PROP_OBJECT_IDENTIFIER =>
                  stored (encode_application_object_id OBJECT_LOAD_CONTROL
                            (Rp.object_instance rp))
              | PROP_OBJECT_NAME
              | PROP_DESCRIPTION =>
                  let '(_, char_string) :=
                    Load_Control_Object_Name (Rp.object_instance rp)
                      char_string in
                  stored (encode_application_character_string char_string)
              | PROP_OBJECT_TYPE =>
                  stored (encode_application_enumerated OBJECT_LOAD_CONTROL)
              | PROP_PRESENT_VALUE =>
                  let enumeration :=
                    shed_state_number
                      (Load_Control_Present_Value s (Rp.object_instance rp)) in
                  stored (encode_application_enumerated enumeration)
              | PROP_STATUS_FLAGS =>
                  let bit_string := bitstring_init bit_string in
                  let bit_string :=
                    bitstring_set_bit bit_string STATUS_FLAG_IN_ALARM false in
                  let bit_string :=
                    bitstring_set_bit bit_string STATUS_FLAG_FAULT false in
                  let bit_string :=
                    bitstring_set_bit bit_string STATUS_FLAG_OVERRIDDEN false in
                  let bit_string :=
                    bitstring_set_bit bit_string STATUS_FLAG_OUT_OF_SERVICE
                      false in
                  stored (encode_application_bitstring bit_string)
              | PROP_EVENT_STATE =>
                  stored (encode_application_enumerated EVENT_STATE_NORMAL)
              | PROP_REQUESTED_SHED_LEVEL =>
                  match Requested_Shed_Level s !!! object_index with
                  | Percent percent =>
                      stored (encode_context_unsigned 0 percent)
                  | Amount amount => stored (encode_context_real 2 amount)
                  | Level level => stored (encode_context_unsigned 1 level)
                  end
              | PROP_START_TIME =>
                  let date_octets :=
                    encode_application_date
                      (date (Start_Time s !!! object_index)) in
                  let time_octets :=
                    encode_application_time
                      (time (Start_Time s !!! object_index)) in
                  stored (date_octets ++ time_octets)
              | PROP_SHED_DURATION =>
                  stored (encode_application_unsigned
                            (Shed_Duration s !!! object_index))
              | PROP_DUTY_WINDOW =>
                  stored (encode_application_unsigned
                            (Duty_Window s !!! object_index))
              | PROP_ENABLE =>
                  let state : bool := Load_Control_Enable s !!! object_index in
                  stored (encode_application_boolean state)
              | PROP_FULL_DUTY_BASELINE =>
                  stored (encode_application_real
                            (Full_Duty_Baseline s !!! object_index))
              | PROP_EXPECTED_SHED_LEVEL =>
                  match Expected_Shed_Level s !!! object_index with
                  | Percent percent =>
                      stored (encode_context_unsigned 0 percent)
                  | Amount amount => stored (encode_context_real 2 amount)
                  | Level level => stored (encode_context_unsigned 1 level)
                  end
              | PROP_ACTUAL_SHED_LEVEL =>
                  match Actual_Shed_Level s !!! object_index with
                  | Percent percent =>
                      stored (encode_context_unsigned 0 percent)
                  | Amount amount => stored (encode_context_real 2 amount)
                  | Level level => stored (encode_context_unsigned 1 level)
                  end
              | PROP_SHED_LEVELS =>
                  (* Array element zero is the number of elements *)
                  if Rp.array_index rp =? 0 then
                    stored (encode_application_unsigned
                              (Z.of_nat MAX_SHED_LEVELS))
                  else if Rp.array_index rp =? BACNET_ARRAY_ALL then
                    encode_elements
                      (fun (st : unit) i =>
                         (st, encode_application_unsigned
                                ((Shed_Levels s !!! object_index) !!! i)))
                      (seq 0 MAX_SHED_LEVELS) tt 0 [] rp
                  else if Rp.array_index rp <=? Z.of_nat MAX_SHED_LEVELS then
                    stored (encode_application_unsigned
                              ((Shed_Levels s !!! object_index)
                                 !!! Z.to_nat (Rp.array_index rp - 1)))
                  else
                    (BACNET_STATUS_ERROR, [],
                     Rp.set_error_code
                       (Rp.set_error_class rp ERROR_CLASS_PROPERTY)
                       Rp.ERROR_CODE_INVALID_ARRAY_INDEX)
              | PROP_SHED_LEVEL_DESCRIPTIONS =>
                  (* Array element zero is the number of elements *)
                  if Rp.array_index rp =? 0 then
                    stored (encode_application_unsigned
                              (Z.of_nat MAX_SHED_LEVELS))
                  else if Rp.array_index rp =? BACNET_ARRAY_ALL then
                    encode_elements
                      (fun (char_string : BACNET_CHARACTER_STRING) i =>
                         let '(_, char_string) :=
                           characterstring_init_ansi char_string
                             (Shed_Level_Descriptions !!! i) in
                         (char_string,
                          encode_application_character_string char_string))
                      (seq 0 MAX_SHED_LEVELS) char_string 0 [] rp
                  else if Rp.array_index rp <=? Z.of_nat MAX_SHED_LEVELS then
                    let '(_, char_string) :=
                      characterstring_init_ansi char_string
                        (Shed_Level_Descriptions
                           !!! Z.to_nat (Rp.array_index rp - 1)) in
                    stored (encode_application_character_string char_string)
                  else
                    (BACNET_STATUS_ERROR, [],
                     Rp.set_error_code
                       (Rp.set_error_class rp ERROR_CLASS_PROPERTY)
                       Rp.ERROR_CODE_INVALID_ARRAY_INDEX)
              | PROP_OTHER _ =>
                  (BACNET_STATUS_ERROR, [],
                   Rp.set_error_code
                     (Rp.set_error_class rp ERROR_CLASS_PROPERTY)
                     Rp.ERROR_CODE_UNKNOWN_PROPERTY)
              end in
            (* only array properties can have array options *)
            if (0 <=? apdu_len) &&
               match Rp.object_property rp with
               | PROP_SHED_LEVEL_DESCRIPTIONS | PROP_SHED_LEVELS => false
               | _ => true
               end &&
               negb (Rp.array_index rp =? BACNET_ARRAY_ALL)
            then
              mkRead BACNET_STATUS_ERROR apdu
                (Some (Rp.set_error_code
                         (Rp.set_error_class rp' ERROR_CLASS_PROPERTY)
                         Rp.ERROR_CODE_PROPERTY_IS_NOT_AN_ARRAY))
            else mkRead apdu_len apdu (Some rp')
      end
  end.

End Read.

(** *** Vocabulary for the properties of the other entry points *)

(** The shed levels of the instance at index [k] are inside the array:
    [Shed_Levels] has a row for [k], of [MAX_SHED_LEVELS] levels. *)
Definition levels_in_object (s : lc_state) (k : nat) : Prop :=
  (k < length (Shed_Levels s))%nat /\
  length (Shed_Levels s !!! k) = MAX_SHED_LEVELS.

(** What a tick for instance [k] may change: in the arrays the state
    machine writes, cell [k] only - except for the start times, where the
    cell that may change is cell 0 - and nothing in the arrays that hold
    the configuration of the object. *)
Definition touches_only (k : nat) (s s' : lc_state) : Prop :=
  (forall j, j <> k ->
     Load_Control_State s' !!! j = Load_Control_State s !!! j /\
     Expected_Shed_Level s' !!! j = Expected_Shed_Level s !!! j /\
     Actual_Shed_Level s' !!! j = Actual_Shed_Level s !!! j /\
     End_Time s' !!! j = End_Time s !!! j /\
     (Load_Control_Request_Written s' !!! j : bool)
       = Load_Control_Request_Written s !!! j /\
     (Start_Time_Property_Written s' !!! j : bool)
       = Start_Time_Property_Written s !!! j) /\
  (forall j, j <> 0%nat -> Start_Time s' !!! j = Start_Time s !!! j) /\
  Present_Value s' = Present_Value s /\
  Requested_Shed_Level s' = Requested_Shed_Level s /\
  Current_Time s' = Current_Time s /\
  Shed_Duration s' = Shed_Duration s /\
  Duty_Window s' = Duty_Window s /\
  Load_Control_Enable s' = Load_Control_Enable s /\
  Full_Duty_Baseline s' = Full_Duty_Baseline s /\
  Shed_Levels s' = Shed_Levels s /\
  Load_Control_State_Previously s' = Load_Control_State_Previously s /\
  initialized s' = initialized s.

(** The requests, the levels, the times, the flags and the configuration
    are those of [s]: [s'] differs from [s] at most in the states, the
    clock reading and the bookkeeping of the handler. *)
Definition same_requests (s s' : lc_state) : Prop :=
  Present_Value s' = Present_Value s /\
  Requested_Shed_Level s' = Requested_Shed_Level s /\
  Expected_Shed_Level s' = Expected_Shed_Level s /\
  Actual_Shed_Level s' = Actual_Shed_Level s /\
  Start_Time s' = Start_Time s /\
  End_Time s' = End_Time s /\
  Shed_Duration s' = Shed_Duration s /\
  Duty_Window s' = Duty_Window s /\
  Load_Control_Enable s' = Load_Control_Enable s /\
  Load_Control_Request_Written s' = Load_Control_Request_Written s /\
  Start_Time_Property_Written s' = Start_Time_Property_Written s /\
  Full_Duty_Baseline s' = Full_Duty_Baseline s /\
  Shed_Levels s' = Shed_Levels s.

(** No instance has a shed under way or a start time waiting. *)
Definition idle (s : lc_state) : Prop :=
  forall k, (k < MAX_LOAD_CONTROLS)%nat ->
    Load_Control_State s !!! k = SHED_INACTIVE /\
    (Start_Time_Property_Written s !!! k : bool) = false.

(** The handler called once for every reading of the clock in [nows]. *)
Definition ticks {clock : DateTimeOps} {AO : Type} {ao_ops : AnalogOutput AO}
    (nows : list BACNET_DATE_TIME) (s : lc_state) (ao : AO) : lc_state * AO :=
  foldl (fun (acc : lc_state * AO) now =>
           Load_Control_State_Machine_Handler now acc.1 acc.2)
        (s, ao) nows.

End LoadControl.

(** ** Concrete collaborators and inputs

    A small clock and a priority-array output behind the two interfaces,
    and the inputs on which the results below are run. *)

Module Examples.

Import Datetime.

(** The order of two field lists, first difference first. *)
Fixpoint lex_compare (l1 l2 : list Z) : Z :=
  match l1, l2 with
  | x :: l1', y :: l2' =>
      if x <? y then -1 else if y <? x then 1 else lex_compare l1' l2'
  | _, _ => 0
  end.

Definition date_fields (d : BACNET_DATE) : list Z := [year d; month d; day d].

Definition time_fields (t : BACNET_TIME) : list Z :=
  [hour t; Datetime.min t; sec t; hundredths t].

(** A clock for the examples: dates and times compare field by field;
    adding minutes carries into the hour and the day of the month (the
    examples stay within one month). *)
#[export] Instance sample_clock : DateTimeOps := {|
  datetime_compare a b :=
    lex_compare (date_fields (date a) ++ time_fields (time a))
                (date_fields (date b) ++ time_fields (time b));
  datetime_compare_date a b := lex_compare (date_fields a) (date_fields b);
  datetime_compare_time a b := lex_compare (time_fields a) (time_fields b);
  datetime_add_minutes a m :=
    let total := hour (time a) * 60 + Datetime.min (time a) + m in
    mkDateTime
      (mkDate (year (date a)) (month (date a))
              (day (date a) + total `div` 1440) (wday (date a)))
      (mkTime ((total `div` 60) `mod` 24) (total `mod` 60)
              (sec (time a)) (hundredths (time a)));
  datetime_wildcard a :=
    lex_compare
      (date_fields (date a) ++ [wday (date a)] ++ time_fields (time a))
      [2155; 255; 255; 255; 255; 255; 255; 255] =? 0
|}.

(** Modelled from the spec: the Analog Output object ([ao.c]) is not part
    of the sources at hand.  Glossary: "Priority array - a 16-slot
    commandable-output register; the lowest-numbered non-null slot wins;
    'relinquish' writes null"; section 6: [BACNET_NO_PRIORITY = 0]. *)
Definition ao_objects : Type := list (list (option spec_float)).

Fixpoint active (slots : list (option spec_float)) (p : Z)
    : option (Z * spec_float) :=
  match slots with
  | [] => None
  | Some v :: _ => Some (p, v)
  | None :: rest => active rest (p + 1)
  end.

Definition command (ao : ao_objects) (i p : Z) (c : option spec_float)
    : ao_objects :=
  if (1 <=? p) && (p <=? 16)
  then <[Z.to_nat i := <[Z.to_nat (p - 1) := c]> (ao !!! Z.to_nat i)]> ao
  else ao.

#[export] Instance priority_arrays : AnalogOutput ao_objects := {|
  Analog_Output_Present_Value ao i :=
    match active (ao !!! Z.to_nat i) 1 with
    | Some (_, v) => v
    | None => S754_zero false
    end;
  Analog_Output_Present_Value_Priority ao i :=
    match active (ao !!! Z.to_nat i) 1 with
    | Some (p, _) => p
    | None => 0
    end;
  Analog_Output_Present_Value_Set ao i v p := command ao i p (Some v);
  Analog_Output_Present_Value_Relinquish ao i p := command ao i p None
|}.

(** Four outputs commanded to 100 at priority 8. *)
Definition ao_idle : ao_objects :=
  replicate 4 (replicate 7 None ++ [Some (Ieee.of_Z32 100)] ++
               replicate 8 None).

(** The same, with output 1 also commanded to 80 at priority 4. *)
Definition ao_shed : ao_objects :=
  command ao_idle 1 4 (Some (Ieee.of_Z32 80)).

(** Wednesday 24 January 2024, at [h]:[m]. *)
Definition morning (h m : Z) : BACNET_DATE_TIME :=
  mkDateTime (mkDate 2024 1 24 3) (mkTime h m 0 0).

Import LoadControl.

(** The object after [Load_Control_Init], with instance 1 in [state],
    asked to shed to level 2 for 30 minutes from 10:00, instance 0 holding
    a start time of 9:00, and the clock reading [now]. *)
Definition shedding (state : LOAD_CONTROL_STATE) (now : BACNET_DATE_TIME)
    : lc_state :=
  let s := Load_Control_Init in
  let s :=
    set_Load_Control_State s (<[1%nat := state]> (Load_Control_State s)) in
  let s :=
    set_Start_Time s
      (<[0%nat := morning 9 0]> (<[1%nat := morning 10 0]> (Start_Time s))) in
  let s := set_Shed_Duration s (<[1%nat := 30]> (Shed_Duration s)) in
  let s :=
    set_Requested_Shed_Level s
      (<[1%nat := Level 2]> (Requested_Shed_Level s)) in
  set_Current_Time s now.

(** The same with instance 1 disabled. *)
Definition disabled (state : LOAD_CONTROL_STATE) (now : BACNET_DATE_TIME)
    : lc_state :=
  let s := shedding state now in
  set_Load_Control_Enable s (<[1%nat := false]> (Load_Control_Enable s)).

Import Bacapp.

(** WriteProperty(RequestedShedLevel) carrying the context-tagged percent
    [09 64]: context tag 0, length 1, value 0x64. *)
Definition shed_request_percent_100 : BACNET_WRITE_PROPERTY_DATA :=
  mkWp 0 PROP_REQUESTED_SHED_LEVEL BACNET_ARRAY_ALL [0x09; 0x64] 2
       (ERROR_CLASS_OTHER 0) (ERROR_CODE_UNSET 0).

(** WriteProperty(ShedDuration[1]) carrying the same octets. *)
Definition indexed_duration_write : BACNET_WRITE_PROPERTY_DATA :=
  mkWp 0 PROP_SHED_DURATION 1 [0x09; 0x64] 2
       (ERROR_CLASS_OTHER 0) (ERROR_CODE_UNSET 0).

(** WriteProperty(ShedDuration[1]) carrying the unsigned 30, [21 1E]. *)
Definition indexed_duration_30 : BACNET_WRITE_PROPERTY_DATA :=
  mkWp 0 PROP_SHED_DURATION 1 [0x21; 0x1E] 2
       (ERROR_CLASS_OTHER 0) (ERROR_CODE_UNSET 0).

Definition blank_value : BACNET_APPLICATION_DATA_VALUE :=
  mkValue false 0 0 V_Indeterminate.

Import Npdu.

(** The values of the two header constants in the examples. *)
Definition mac7 : nat := 7.
Definition invalid_type : Z := 0x100.

Definition zero_address : BACNET_ADDRESS := mkAddress 0 0 (replicate 7 0).

(** A network layer message with a vendor identifier, routed to net 1
    from net 2. *)
Definition routed_header : BACNET_NPDU_DATA :=
  mkNpduData 1 true true 3 0x81 0x1234 254.

Definition to_net_1 : BACNET_ADDRESS := mkAddress 1 1 [5; 0; 0; 0; 0; 0; 0].

Definition from_net_2 : BACNET_ADDRESS :=
  mkAddress 2 2 [0x7A; 0x7B; 0; 0; 0; 0; 0].

(** Addresses that announce more octets than [adr] holds. *)
Definition overlong_dest : BACNET_ADDRESS :=
  mkAddress 1 9 [5; 1; 2; 3; 4; 5; 6].

Definition overlong_src : BACNET_ADDRESS :=
  mkAddress 2 200 [7; 1; 2; 3; 4; 5; 6].

(** The same length with no network number. *)
Definition overlong_local : BACNET_ADDRESS :=
  mkAddress 0 200 [5; 1; 2; 3; 4; 5; 6].


(** [PDU_TYPE_CONFIRMED_SERVICE_REQUEST] of [bacenum.h] in the examples. *)
Definition confirmed_request : Z := 0.

(** Instance 1 in [state] as in [shedding], with a start time written
    since the last tick. *)
Definition rescheduled (state : LOAD_CONTROL_STATE) (now : BACNET_DATE_TIME)
    : lc_state :=
  let s := shedding state now in
  set_Start_Time_Property_Written s
    (<[1%nat := true]> (Start_Time_Property_Written s)).

(** Instance 1 pending as in [rescheduled], with the default level written
    as its request since the last tick. *)
Definition withdrawn (now : BACNET_DATE_TIME) : lc_state :=
  let s := rescheduled SHED_REQUEST_PENDING now in
  let s :=
    set_Requested_Shed_Level s
      (<[1%nat := Level DEFAULT_VALUE_LEVEL]> (Requested_Shed_Level s)) in
  set_Load_Control_Request_Written s
    (<[1%nat := true]> (Load_Control_Request_Written s)).

(** WriteProperty(StatusFlags) of instance 1 carrying the unsigned 30. *)
Definition status_flags_write : BACNET_WRITE_PROPERTY_DATA :=
  mkWp 1 PROP_STATUS_FLAGS BACNET_ARRAY_ALL [0x21; 0x1E] 2
       (ERROR_CLASS_OTHER 0) (ERROR_CODE_UNSET 0).

(** WriteProperty(ShedLevels[2]) of instance 1 carrying the unsigned 5,
    [21 05]. *)
Definition shed_level_2_write : BACNET_WRITE_PROPERTY_DATA :=
  mkWp 1 PROP_SHED_LEVELS 2 [0x21; 0x05] 2
       (ERROR_CLASS_OTHER 0) (ERROR_CODE_UNSET 0).

(** WriteProperty(Enable) of instance 1 carrying the boolean FALSE, [10]. *)
Definition disable_write : BACNET_WRITE_PROPERTY_DATA :=
  mkWp 1 PROP_ENABLE BACNET_ARRAY_ALL [0x10] 1
       (ERROR_CLASS_OTHER 0) (ERROR_CODE_UNSET 0).

(** WriteProperty(StartTime) of instance 1 carrying the date Wednesday
    24 January 2024, [A4 7C 01 18 03], and the time 10:00:00.00,
    [B4 0A 00 00 00]. *)
Definition start_time_write : BACNET_WRITE_PROPERTY_DATA :=
  mkWp 1 PROP_START_TIME BACNET_ARRAY_ALL
       [0xA4; 0x7C; 0x01; 0x18; 0x03; 0xB4; 0x0A; 0x00; 0x00; 0x00] 10
       (ERROR_CLASS_OTHER 0) (ERROR_CODE_UNSET 0).

(** Encoders for the examples: the tag octet of the value, followed by
    the low octet of an integer or the length of a string. *)
#[export] Instance sample_encoders : Encoders := {|
  BACNET_CHARACTER_STRING := String.string;
  BACNET_BIT_STRING := list bool;
  characterstring_init_ansi _ text := (true, text);
  bitstring_init _ := [];
  bitstring_set_bit bits n v :=
    <[Z.to_nat n := v]>
      (bits ++ replicate (Z.to_nat n + 1 - length bits) false);
  encode_application_object_id t i := [0xC4; t `mod` 256; i `mod` 256];
  encode_application_character_string text :=
    [0x75; Z.of_nat (String.length text)];
  encode_application_enumerated v := [0x91; v `mod` 256];
  encode_application_bitstring bits := [0x82; Z.of_nat (length bits)];
  encode_application_unsigned v := [0x21; v `mod` 256];
  encode_application_boolean b := [if b then 0x11 else 0x10];
  encode_application_real _ := [0x44];
  encode_application_date _ := [0xA4];
  encode_application_time _ := [0xB4];
  encode_context_unsigned t v := [t * 16 + 9; v `mod` 256];
  encode_context_real t _ := [t * 16 + 12]
|}.

(** The constants of the headers in the examples. *)
#[export] Instance sample_enumerations : Enumerations := {|
  OBJECT_LOAD_CONTROL := 28;
  EVENT_STATE_NORMAL := 0;
  STATUS_FLAG_IN_ALARM := 0;
  STATUS_FLAG_FAULT := 1;
  STATUS_FLAG_OVERRIDDEN := 2;
  STATUS_FLAG_OUT_OF_SERVICE := 3;
  shed_state_number st :=
    match st with
    | BACNET_SHED_INACTIVE => 0
    | BACNET_SHED_REQUEST_PENDING => 1
    | BACNET_SHED_COMPLIANT => 2
    | BACNET_SHED_NON_COMPLIANT => 3
    end;
  MAX_APDU := 480;
  BACNET_STATUS_ABORT := -2
|}.

(** ReadProperty of instance 1 into an empty buffer of [MAX_APDU]
    octets. *)
Definition read_request (property : BACNET_PROPERTY_ID) (index : Z)
    : Rp.BACNET_READ_PROPERTY_DATA :=
  Rp.mkRp 1 property index (Some []) 480
          (ERROR_CLASS_OTHER 0) (Rp.ERROR_CODE_UNSET 0).

(** The real 100 as an application value. *)
Definition real_100 : BACNET_APPLICATION_DATA_VALUE :=
  mkValue false 0 BACNET_APPLICATION_TAG_REAL (V_Real (Ieee.of_Z32 100)).

(** [BACNET_APPLICATION_TAG_EMPTYLIST] and [MAX_BACNET_PROPERTY_ID] of
    [bacenum.h] in the examples. *)
Definition empty_list_tag : Z := 13.
Definition property_id_limit : Z := 4194303.

(** Three property values as a caller declares them, not yet linked. *)
Definition three_property_values : list BACNET_PROPERTY_VALUE :=
  [mkPropertyValue 85 BACNET_ARRAY_ALL (mkElement real_100 (Some 7%nat)) 8
     (Some 2%nat);
   mkPropertyValue 81 BACNET_ARRAY_ALL (mkElement blank_value None) 0 None;
   mkPropertyValue 28 3 (mkElement blank_value None) 0 (Some 0%nat)].

End Examples.

(** * Properties *)

(** ** Octet buffers and C loops *)

Lemma octet_at_app_r (pre l : list Z) (k : Z) :
  0 <= k -> octet_at (pre ++ l) (Z.of_nat (length pre) + k) = octet_at l k.
Proof.
  intros Hk. unfold octet_at.
  replace (Z.to_nat (Z.of_nat (length pre) + k))
    with (length pre + Z.to_nat k)%nat by lia.
  rewrite lookup_total_app_r by lia. f_equal. lia.
Qed.

Lemma octet_at_app_r0 (pre l : list Z) :
  octet_at (pre ++ l) (Z.of_nat (length pre)) = octet_at l 0.
Proof.
  rewrite <- (Z.add_0_r (Z.of_nat (length pre))). apply octet_at_app_r. lia.
Qed.

Lemma octet_at_eq (buf pre post : list Z) (b pos : Z) :
  buf = pre ++ b :: post -> pos = Z.of_nat (length pre) ->
  octet_at buf pos = b.
Proof. intros -> ->. apply octet_at_app_r0. Qed.

Lemma octet_at_nonneg (buf : list Z) (pos : Z) :
  Forall is_octet buf -> 0 <= octet_at buf pos.
Proof.
  intros H. unfold octet_at.
  destruct (buf !! Z.to_nat pos) as [b |] eqn:E.
  - rewrite (list_lookup_total_correct _ _ _ E).
    rewrite Forall_lookup in H. destruct (H _ _ E). lia.
  - rewrite list_lookup_total_alt, E. simpl. lia.
Qed.

(** The two octets of a 16-bit value, joined again. *)
Lemma unsigned16_join (v : Z) :
  0 <= v < 65536 ->
  Z.lor (Z.shiftl (Z.land (Z.shiftr v 8) 255) 8) (Z.land v 255) = v.
Proof.
  intros Hv. apply Z.bits_inj'. intros n Hn.
  rewrite Z.lor_spec, !Z.land_spec. change 255 with (Z.ones 8).
  destruct (Z.ltb_spec n 8) as [Hlt | Hge].
  - rewrite Z.shiftl_spec_low by lia. rewrite Z.ones_spec_low by lia.
    simpl. apply andb_true_r.
  - rewrite Z.shiftl_spec by lia. rewrite Z.land_spec.
    rewrite Z.shiftr_spec by lia. replace (n - 8 + 8) with n by lia.
    rewrite (Z.ones_spec_high 8 n) by lia. rewrite andb_false_r, orb_false_r.
    destruct (Z.ltb_spec (n - 8) 8) as [Hlt' | Hge'].
    + rewrite Z.ones_spec_low by lia. apply andb_true_r.
    + rewrite Z.ones_spec_high by lia. rewrite andb_false_r. symmetry.
      destruct (Z.eq_dec v 0) as [-> | Hnz]; [apply Z.bits_0 |].
      apply Z.bits_above_log2; [lia |].
      assert (Z.log2 v < 16) by (apply Z.log2_lt_pow2; lia). lia.
Qed.

Lemma decode_unsigned16_eq (buf pre post : list Z) (v pos : Z) :
  buf = pre ++ encode_unsigned16 v ++ post -> pos = Z.of_nat (length pre) ->
  0 <= v < 65536 ->
  decode_unsigned16 buf pos = v.
Proof.
  intros -> -> Hv. unfold decode_unsigned16.
  rewrite octet_at_app_r0, octet_at_app_r by lia.
  unfold encode_unsigned16, octet_at. simpl. apply unsigned16_join. exact Hv.
Qed.

(** A store loop inside the array rewrites exactly the cells it visits. *)
Lemma store_loop_spec (f : nat -> Z) (n k : nat) (a : list Z) :
  (k + n <= length a)%nat ->
  store_loop f k n a = take k a ++ (f <$> seq k n) ++ drop (k + n) a.
Proof.
  revert k a. induction n as [| n IH]; intros k a Hlen; simpl.
  - rewrite Nat.add_0_r. symmetry. apply take_drop.
  - rewrite IH by (rewrite length_insert; lia).
    rewrite drop_insert_lt by lia.
    rewrite (insert_take_drop a k) by lia.
    assert (Ht : take (S k) (take k a ++ f k :: drop (S k) a)
                 = take k a ++ [f k]).
    { rewrite (cons_middle (f k)), app_assoc.
      apply take_app_length'. rewrite length_app, length_take_le by lia.
      simpl. lia. }
    rewrite Ht, <- app_assoc. simpl. do 4 f_equal. lia.
Qed.

Lemma load_loop_take (a : list Z) (n : nat) :
  (n <= length a)%nat -> load_loop a n = take n a.
Proof.
  revert a. unfold load_loop. induction n as [| n IH]; intros a Hn.
  - reflexivity.
  - destruct a as [| x a]; [simpl in Hn; lia |].
    simpl. f_equal. rewrite <- IH by (simpl in Hn; lia).
    rewrite <- fmap_S_seq, <- list_fmap_compose. reflexivity.
Qed.

Lemma length_load_loop (a : list Z) (n : nat) : length (load_loop a n) = n.
Proof. unfold load_loop. rewrite length_fmap. apply length_seq. Qed.

Lemma fmap_seq_ext (f g : nat -> Z) (n : nat) :
  (forall i, (i < n)%nat -> f i = g i) -> f <$> seq 0 n = g <$> seq 0 n.
Proof.
  intros H. apply list_eq. intros i. rewrite !list_lookup_fmap.
  destruct (decide (i < n)%nat) as [Hi | Hi].
  - rewrite lookup_seq_lt by lia. simpl. f_equal. apply H. exact Hi.
  - rewrite lookup_seq_ge by lia. reflexivity.
Qed.

Ltac buffer_shape := rewrite <- ?app_assoc; reflexivity.
Ltac buffer_pos := rewrite ?length_app; simpl; lia.

(** ** The NPDU codec *)

Module NpduTheorems.

Import Npdu.

Section Facts.

Variable MAX_MAC_LEN : nat.
Variable NETWORK_MESSAGE_INVALID : Z.

Local Abbreviation wf_address := (Npdu.wf_address MAX_MAC_LEN).
Local Abbreviation wf_address_opt := (Npdu.wf_address_opt MAX_MAC_LEN).
Local Abbreviation decoded_header := (Npdu.decoded_header NETWORK_MESSAGE_INVALID).
Local Abbreviation decoded_dest := (Npdu.decoded_dest MAX_MAC_LEN).
Local Abbreviation decoded_src := (Npdu.decoded_src MAX_MAC_LEN).
Local Abbreviation clamped := (Npdu.clamped MAX_MAC_LEN).
Local Abbreviation mac_refused := (Npdu.mac_refused MAX_MAC_LEN).
Local Abbreviation refused := (Npdu.refused MAX_MAC_LEN).

Lemma octet_at_0 (b : Z) (l : list Z) : octet_at (b :: l) 0 = b.
Proof. reflexivity. Qed.

Lemma octet_at_mac (pre mac post : list Z) (k : Z) (i : nat) :
  k = Z.of_nat (length pre) ->
  (i < length mac)%nat ->
  octet_at (pre ++ mac ++ post) (k + Z.of_nat i) = mac !!! i.
Proof.
  intros -> Hi. rewrite octet_at_app_r by lia. unfold octet_at.
  rewrite Nat2Z.id. apply lookup_total_app_l. exact Hi.
Qed.

Lemma address_octets_length (a : BACNET_ADDRESS) :
  0 <= len a ->
  Z.of_nat (length (address_octets a)) = 3 + len a.
Proof.
  intros H. unfold address_octets, encode_unsigned16.
  rewrite !length_app, length_load_loop. simpl. lia.
Qed.

Lemma mac_read (pre post : list Z) (a : BACNET_ADDRESS) (i : nat) :
  (i < Z.to_nat (len a))%nat ->
  octet_at (pre ++ address_octets a ++ post)
           (Z.of_nat (length pre) + 2 + 1 + Z.of_nat i) = adr a !!! i.
Proof.
  intros Hi. unfold address_octets.
  replace (pre ++ (encode_unsigned16 (net a) ++ [len a] ++
                   load_loop (adr a) (Z.to_nat (len a))) ++ post)
    with ((pre ++ encode_unsigned16 (net a) ++ [len a]) ++
          load_loop (adr a) (Z.to_nat (len a)) ++ post)
    by (rewrite <- !app_assoc; reflexivity).
  rewrite octet_at_mac.
  - unfold load_loop. apply list_lookup_total_correct.
    rewrite list_lookup_fmap, lookup_seq_lt by lia. reflexivity.
  - rewrite !length_app. simpl. lia.
  - rewrite length_load_loop. exact Hi.
Qed.

Lemma decode_address_block_encoded
    (pre post : list Z) (a : BACNET_ADDRESS) (x : option BACNET_ADDRESS) :
  0 <= net a < 65536 ->
  0 <= len a <= Z.of_nat MAX_MAC_LEN ->
  length (adr a) = MAX_MAC_LEN ->
  (forall x0, x = Some x0 -> length (adr x0) = MAX_MAC_LEN) ->
  decode_address_block MAX_MAC_LEN (pre ++ address_octets a ++ post)
    (Z.of_nat (length (pre ++ address_octets a ++ post)))
    (Z.of_nat (length pre)) x
  = BlockDone (Z.of_nat (length pre) + 3 + len a) (net a) (received a <$> x).
Proof.
  intros Hnet Hlen Hadr Hx.
  pose proof (address_octets_length a (proj1 Hlen)) as Hao.
  unfold decode_address_block.
  assert (Hfit : (Z.of_nat (length pre) + 3 <=?
                 Z.of_nat (length (pre ++ address_octets a ++ post))) = true).
  { apply Z.leb_le. rewrite !length_app. lia. }
  rewrite Hfit.
  assert (Hnet' : decode_unsigned16 (pre ++ address_octets a ++ post)
                    (Z.of_nat (length pre)) = net a).
  { unfold decode_unsigned16.
    rewrite ?octet_at_app_r0, ?octet_at_app_r by lia. unfold address_octets, encode_unsigned16.
    simpl. unfold octet_at. simpl. apply unsigned16_join. exact Hnet. }
  assert (Hlen' : octet_at (pre ++ address_octets a ++ post)
                    (Z.of_nat (length pre) + 2) = len a).
  { rewrite octet_at_app_r by lia. reflexivity. }
  rewrite Hnet', Hlen'.
  destruct (Z.eqb_spec (len a) 0) as [H0 | Hn0]; cbn [negb].
  - f_equal; [lia |]. destruct x as [x0 |]; [| reflexivity]. simpl. f_equal.
    unfold received. rewrite H0. simpl. rewrite drop_0. reflexivity.
  - assert (Hok : (Z.of_nat MAX_MAC_LEN <? len a)
                  || (Z.of_nat (length (pre ++ address_octets a ++ post)) <?
                      Z.of_nat (length pre) + 2 + 1 + len a) = false).
    { apply orb_false_intro; apply Z.ltb_ge; [lia |].
      rewrite !length_app. lia. }
    rewrite Hok. f_equal; [lia |].
    destruct x as [x0 |]; [| reflexivity]. simpl. f_equal.
    unfold received. f_equal.
    rewrite store_loop_spec by (rewrite (Hx x0 eq_refl); simpl; lia).
    rewrite take_0, app_nil_l, Nat.add_0_l. f_equal.
    rewrite <- load_loop_take by lia.
    apply fmap_seq_ext. intros i Hi. apply mac_read. exact Hi.
Qed.

Lemma decode_address_block_at
    (buf pre post : list Z) (pos : Z) (a : BACNET_ADDRESS)
    (x : option BACNET_ADDRESS) :
  buf = pre ++ address_octets a ++ post ->
  pos = Z.of_nat (length pre) ->
  0 <= net a < 65536 ->
  0 <= len a <= Z.of_nat MAX_MAC_LEN ->
  length (adr a) = MAX_MAC_LEN ->
  (forall x0, x = Some x0 -> length (adr x0) = MAX_MAC_LEN) ->
  decode_address_block MAX_MAC_LEN buf (Z.of_nat (length buf)) pos x
  = BlockDone (pos + 3 + len a) (net a) (received a <$> x).
Proof. intros -> ->. apply decode_address_block_encoded. Qed.

Lemma decode_tail_encoded
    (buf pre : list Z) (pos dest_net : Z) (dg : bool)
    (d d1 : BACNET_NPDU_DATA) :
  buf = pre ++ (if dg then [hop_count d] else []) ++
        (if network_layer_message d
         then [network_message_type d `mod` 256] ++
              (if 0x80 <=? network_message_type d
               then encode_unsigned16 (vendor_id d) else [])
         else []) ->
  pos = Z.of_nat (length pre) ->
  negb (dest_net =? 0) = dg ->
  network_layer_message d1 = network_layer_message d ->
  (network_layer_message d = true -> is_octet (network_message_type d)) ->
  0 <= vendor_id d < 65536 ->
  decode_tail NETWORK_MESSAGE_INVALID buf (Z.of_nat (length buf)) pos
    dest_net d1
  = (Z.of_nat (length buf),
     mkNpduData (protocol_version d1) (data_expecting_reply d1)
       (network_layer_message d1) (priority d1)
       (if network_layer_message d then network_message_type d
        else NETWORK_MESSAGE_INVALID)
       (if network_layer_message d && (0x80 <=? network_message_type d)
        then vendor_id d else vendor_id d1)
       (if dg then hop_count d else 0)).
Proof.
  intros Hbuf -> Hdg Hnlm Hmt Hv. unfold decode_tail. rewrite Hdg, Hnlm.
  destruct (network_layer_message d) eqn:En.
  2:{ (* an APDU follows: at most the hop count is left *)
      destruct dg.
      - assert (H1 : (Z.of_nat (length pre) <? Z.of_nat (length buf)) = true)
          by (apply Z.ltb_lt; subst buf; buffer_pos).
        rewrite H1, (octet_at_eq buf pre [] (hop_count d)) by (subst buf; first [buffer_shape | buffer_pos]).
        do 2 f_equal. subst buf. buffer_pos.
      - do 2 f_equal. subst buf. buffer_pos. }
  specialize (Hmt eq_refl). unfold is_octet in Hmt.
  rewrite (Z.mod_small _ 256) in Hbuf by lia.
  set (mt := network_message_type d) in *.
  set (tl := if 128 <=? mt then encode_unsigned16 (vendor_id d) else [])
    in *.
  set (hop := if dg then [hop_count d] else []) in *.
  destruct dg; subst hop.
  - assert (H1 : (Z.of_nat (length pre) <? Z.of_nat (length buf)) = true)
      by (apply Z.ltb_lt; subst buf; buffer_pos).
    rewrite H1.
    assert (H2 : (Z.of_nat (length pre) + 1 <? Z.of_nat (length buf)) = true)
      by (apply Z.ltb_lt; subst buf; buffer_pos).
    rewrite H2.
    rewrite (octet_at_eq buf (pre ++ [hop_count d]) tl mt (Z.of_nat (length pre) + 1))
      by (subst buf; first [buffer_shape | buffer_pos]).
    rewrite (octet_at_eq buf pre ([mt] ++ tl) (hop_count d))
      by (subst buf; first [buffer_shape | buffer_pos]).
    subst tl. destruct (128 <=? mt) eqn:E80.
    + assert (H3 : (Z.of_nat (length pre) + 1 + 1 + 2 <=?
                    Z.of_nat (length buf)) = true)
        by (apply Z.leb_le; subst buf; buffer_pos).
      rewrite H3.
      rewrite (decode_unsigned16_eq buf (pre ++ [hop_count d] ++ [mt]) [] (vendor_id d))
        by (subst buf; first [exact Hv | buffer_shape | buffer_pos]).
      do 2 f_equal. subst buf. buffer_pos.
    + do 2 f_equal. subst buf. buffer_pos.
  - assert (H1 : (Z.of_nat (length pre) <? Z.of_nat (length buf)) = true)
      by (apply Z.ltb_lt; subst buf; buffer_pos).
    rewrite H1.
    rewrite (octet_at_eq buf pre tl mt (Z.of_nat (length pre)))
      by (subst buf; first [buffer_shape | buffer_pos]).
    subst tl. destruct (128 <=? mt) eqn:E80.
    + assert (H3 : (Z.of_nat (length pre) + 1 + 2 <=?
                    Z.of_nat (length buf)) = true)
        by (apply Z.leb_le; subst buf; buffer_pos).
      rewrite H3.
      rewrite (decode_unsigned16_eq buf (pre ++ [mt]) [] (vendor_id d))
        by (subst buf; first [exact Hv | buffer_shape | buffer_pos]).
      do 2 f_equal. subst buf. buffer_pos.
    + do 2 f_equal. subst buf. buffer_pos.
Qed.

Lemma control_octet_decode
    (dest src : option BACNET_ADDRESS) (d : BACNET_NPDU_DATA) :
  0 <= priority d <= 3 ->
  let c := control_octet dest src d in
  negb (Z.land c (BIT 7) =? 0) = network_layer_message d /\
  negb (Z.land c (BIT 5) =? 0) = dest_given dest /\
  negb (Z.land c (BIT 3) =? 0) = src_given src /\
  negb (Z.land c (BIT 2) =? 0) = data_expecting_reply d /\
  Z.land c 3 = priority d.
Proof.
  intros Hp. unfold control_octet.
  assert (Hc : priority d = 0 \/ priority d = 1 \/ priority d = 2 \/
               priority d = 3) by lia.
  destruct (network_layer_message d), (dest_given dest), (src_given src),
    (data_expecting_reply d);
    destruct Hc as [-> | [-> | [-> | ->]]]; vm_compute; repeat split.
Qed.

Lemma clamp_len_id (a : BACNET_ADDRESS) :
  len a <= Z.of_nat MAX_MAC_LEN -> clamp_len MAX_MAC_LEN a = a.
Proof.
  intros H. unfold clamp_len.
  destruct (Z.ltb_spec (Z.of_nat MAX_MAC_LEN) (len a)); [lia | reflexivity].
Qed.

Lemma encode_wf (dest src : option BACNET_ADDRESS) (d : BACNET_NPDU_DATA) :
  wf_address_opt dest -> wf_address_opt src ->
  npdu_encode_pdu MAX_MAC_LEN dest src (Some d)
  = let npdu :=
      [protocol_version d; control_octet dest src d] ++
      address_part (dest_given dest) dest ++
      address_part (src_given src) src ++
      (if dest_given dest then [hop_count d] else []) ++
      (if network_layer_message d
       then [network_message_type d `mod` 256] ++
            (if 0x80 <=? network_message_type d
             then encode_unsigned16 (vendor_id d) else [])
       else []) in
    mkEncoded (Z.of_nat (length npdu)) npdu dest src.
Proof.
  intros Hd Hs. unfold npdu_encode_pdu.
  assert (Hcd : (if dest_given dest then clamp_len MAX_MAC_LEN <$> dest
                 else dest) = dest).
  { destruct (dest_given dest); [| reflexivity].
    destruct dest as [a |]; [| reflexivity]. simpl.
    rewrite clamp_len_id; [reflexivity |]. destruct (Hd a eq_refl). lia. }
  assert (Hcs : (if src_given src then clamp_len MAX_MAC_LEN <$> src
                 else src) = src).
  { destruct (src_given src); [| reflexivity].
    destruct src as [a |]; [| reflexivity]. simpl.
    rewrite clamp_len_id; [reflexivity |]. destruct (Hs a eq_refl). lia. }
  rewrite Hcd, Hcs. reflexivity.
Qed.

Lemma decode_encoded_address
    (given : bool) (o : option BACNET_ADDRESS)
    (buf pre post : list Z) (pos : Z) (x0 : BACNET_ADDRESS)
    (cleared : BACNET_ADDRESS -> BACNET_ADDRESS) :
  buf = pre ++ address_part given o ++ post ->
  pos = Z.of_nat (length pre) ->
  wf_address_opt o ->
  (given = true -> exists a, o = Some a /\ net a <> 0) ->
  length (adr x0) = MAX_MAC_LEN ->
  (if given
   then decode_address_block MAX_MAC_LEN buf (Z.of_nat (length buf)) pos
          (Some x0)
   else BlockDone pos 0 (cleared <$> Some x0))
  = BlockDone (Z.of_nat (length (pre ++ address_part given o)))
      (match o with Some a => if given then net a else 0 | None => 0 end)
      (Some (match o with
             | Some a => if given then received a x0 else cleared x0
             | None => cleared x0
             end)).
Proof.
  intros Hbuf Hpos Hwf Hgiven Hx. destruct given.
  - destruct (Hgiven eq_refl) as (a & -> & Hnz). simpl in *.
    destruct (Hwf a eq_refl) as (Hn & Hl & Ha).
    rewrite (decode_address_block_at buf pre post pos a (Some x0));
      try assumption.
    + simpl. f_equal. subst pos. rewrite length_app.
      pose proof (address_octets_length a (proj1 Hl)). lia.
    + intros ? [= <-]. exact Hx.
  - simpl. destruct o; simpl; rewrite ?app_nil_r; subst pos; reflexivity.
Qed.

Lemma dest_given_inv (dest : option BACNET_ADDRESS) :
  dest_given dest = true -> exists a, dest = Some a /\ net a <> 0.
Proof.
  destruct dest as [a |]; simpl; [| discriminate].
  destruct (Z.eqb_spec (net a) 0); [discriminate |]. eauto.
Qed.

Lemma src_given_inv (src : option BACNET_ADDRESS) :
  src_given src = true -> exists a, src = Some a /\ net a <> 0.
Proof.
  destruct src as [a |]; simpl; [| discriminate].
  destruct (Z.eqb_spec (net a) 0); [discriminate |]. eauto.
Qed.

(** C1 (amended).  For every header and optional destination and source
    (mac lengths at most [MAX_MAC_LEN]; an address is on the wire when the
    encoder's test holds: non-zero net, and for the source also non-zero
    length), the encoder leaves its arguments as they are and returns the
    number of octets it produced; decoding those octets consumes exactly
    that number and returns every field that is on the wire unchanged:
    version, priority, the two flags, the message type of a network layer
    message, the vendor identifier of a message type of 0x80 or more, the
    hop count and the net, length and mac octets of a destination that is
    present, and those of a source that is present.  The fields that are
    not on the wire come back as the decoder sets them, not as they were:
    hop count 0, message type [NETWORK_MESSAGE_INVALID], a vendor
    identifier that is not written, and a cleared address. *)
Theorem C1_decode_of_encode
    (d : BACNET_NPDU_DATA) (dest src : option BACNET_ADDRESS)
    (dest0 src0 : BACNET_ADDRESS) (d0 : BACNET_NPDU_DATA) :
  wf_header d -> wf_address_opt dest -> wf_address_opt src ->
  length (adr dest0) = MAX_MAC_LEN -> length (adr src0) = MAX_MAC_LEN ->
  let e := npdu_encode_pdu MAX_MAC_LEN dest src (Some d) in
  enc_dest e = dest /\ enc_src e = src /\
  enc_len e = Z.of_nat (length (enc_npdu e)) /\
  bacnet_npdu_decode MAX_MAC_LEN NETWORK_MESSAGE_INVALID
    (Some (enc_npdu e)) (enc_len e) (Some dest0) (Some src0) (Some d0)
  = mkDecoded (enc_len e)
      (Some (decoded_dest dest dest0)) (Some (decoded_src src src0))
      (Some (decoded_header (dest_given dest) d d0)).
Proof.
  intros (Hp & Hmt & Hv) Hd Hs Hd0 Hs0.
  rewrite encode_wf by assumption. cbn zeta.
  cbn [enc_dest enc_src enc_len enc_npdu].
  repeat split.
  set (D := address_part (dest_given dest) dest).
  set (S := address_part (src_given src) src).
  set (T := (if dest_given dest then [hop_count d] else []) ++ _).
  set (hd := [protocol_version d; control_octet dest src d]).
  set (buf := hd ++ D ++ S ++ T).
  unfold bacnet_npdu_decode.
  assert (H2 : (2 <=? Z.of_nat (length buf)) = true).
  { apply Z.leb_le. subst buf hd. rewrite length_app. simpl. lia. }
  rewrite H2.
  change (octet_at buf 1) with (control_octet dest src d).
  change (octet_at buf 0) with (protocol_version d).
  destruct (control_octet_decode dest src d Hp) as (B7 & B5 & B3 & B2 & B0).
  rewrite B7, B5, B3, B2, B0.
  rewrite (decode_encoded_address (dest_given dest) dest buf hd (S ++ T) 2
             dest0 (clear_dest MAX_MAC_LEN));
    [| reflexivity | reflexivity | assumption | apply dest_given_inv
     | assumption].
  fold D.
  rewrite (decode_encoded_address (src_given src) src buf (hd ++ D) T _
             src0 (clear_src MAX_MAC_LEN));
    [| subst buf; rewrite <- app_assoc; reflexivity | reflexivity
     | assumption | apply src_given_inv | assumption].
  fold S.
  erewrite (decode_tail_encoded buf ((hd ++ D) ++ S) _ _ (dest_given dest) d);
    [| subst buf T; rewrite <- !app_assoc; reflexivity | reflexivity
     | | reflexivity | assumption | assumption].
  - reflexivity.
  - destruct dest as [a |]; [| reflexivity].
    destruct (dest_given (Some a)) eqn:E; [| reflexivity]. exact E.
Qed.

Lemma decode_address_block_refused
    (buf : list Z) (pdu_len pos : Z) (x : option BACNET_ADDRESS) :
  mac_refused buf pdu_len pos = true ->
  exists x', decode_address_block MAX_MAC_LEN buf pdu_len pos x = BlockReject x'.
Proof.
  unfold mac_refused, decode_address_block. intros H.
  apply andb_prop in H as [H H3]. apply andb_prop in H as [H1 H2].
  rewrite H1, H2.
  replace (pos + 2 + 1 + octet_at buf (pos + 2))
    with (pos + 3 + octet_at buf (pos + 2)) by lia.
  rewrite H3. eauto.
Qed.

Lemma decode_address_block_accepted
    (buf : list Z) (pdu_len pos : Z) (x : option BACNET_ADDRESS) :
  mac_refused buf pdu_len pos = false ->
  exists anet x',
    decode_address_block MAX_MAC_LEN buf pdu_len pos x
    = BlockDone (if pos + 3 <=? pdu_len
                 then pos + 3 + octet_at buf (pos + 2) else pos) anet x'.
Proof.
  unfold mac_refused, decode_address_block. intros H.
  destruct (pos + 3 <=? pdu_len); [| eauto].
  destruct (Z.eqb_spec (octet_at buf (pos + 2)) 0) as [E | E]; simpl in *.
  - rewrite E. replace (pos + 2 + 1) with (pos + 3 + 0) by lia. eauto.
  - replace (pos + 2 + 1 + octet_at buf (pos + 2))
      with (pos + 3 + octet_at buf (pos + 2)) in * by lia.
    rewrite H. eauto.
Qed.

Lemma decode_tail_advances
    (buf : list Z) (pdu_len pos dest_net : Z) (d : BACNET_NPDU_DATA) :
  pos <= fst (decode_tail NETWORK_MESSAGE_INVALID buf pdu_len pos dest_net d).
Proof.
  unfold decode_tail.
  repeat match goal with
         | |- context [if ?c then _ else _] => destruct c
         end; simpl; lia.
Qed.


Lemma zero_adr_replicate (l : list Z) :
  length l = MAX_MAC_LEN -> zero_adr MAX_MAC_LEN l = replicate MAX_MAC_LEN 0.
Proof.
  intros H. unfold zero_adr. rewrite store_loop_spec by (simpl; lia).
  rewrite take_0, Nat.add_0_l, drop_ge, app_nil_r by lia. simpl.
  clear H. generalize 0%nat. induction MAX_MAC_LEN as [| n IH]; intros k.
  - reflexivity.
  - simpl. f_equal. apply IH.
Qed.

(** C9 (amended).  When the source-present bit of the control octet is
    clear and the decoder accepts the buffer (it returns a positive
    length), the caller's source address has length 0 and all
    [MAX_MAC_LEN] mac octets zero, and its net is 0 unless it was
    [BACNET_BROADCAST_NETWORK] before the call, which is kept.  When the
    decoder returns 0 or -1 with that bit clear, it has returned before
    that point and the caller's source address is as it was. *)
Theorem C9_source_cleared_when_accepted
    (buf : list Z) (pdu_len : Z) (dest : option BACNET_ADDRESS)
    (src0 : BACNET_ADDRESS) (d0 : BACNET_NPDU_DATA) :
  src_declared buf = false ->
  length (adr src0) = MAX_MAC_LEN ->
  let r := bacnet_npdu_decode MAX_MAC_LEN NETWORK_MESSAGE_INVALID
             (Some buf) pdu_len dest (Some src0) (Some d0) in
  (0 < dec_len r ->
   dec_src r =
   Some (mkAddress
           (if net src0 =? BACNET_BROADCAST_NETWORK
            then BACNET_BROADCAST_NETWORK else 0)
           0 (replicate MAX_MAC_LEN 0))) /\
  (Forall is_octet buf -> dec_len r <= 0 -> dec_src r = Some src0).
Proof.
  intros Hs Hl. cbn zeta. unfold bacnet_npdu_decode.
  unfold src_declared in Hs. rewrite Hs.
  destruct (Z.leb_spec 2 pdu_len) as [H2 | H2]; [| simpl; split; [lia | auto]].
  fold (dest_declared buf).
  assert (Hclr : clear_src MAX_MAC_LEN src0 =
                 mkAddress (if net src0 =? BACNET_BROADCAST_NETWORK
                            then BACNET_BROADCAST_NETWORK else 0)
                   0 (replicate MAX_MAC_LEN 0)).
  { unfold clear_src. rewrite zero_adr_replicate by exact Hl.
    destruct (Z.eqb_spec (net src0) BACNET_BROADCAST_NETWORK) as [-> | ];
      reflexivity. }
  destruct (dest_declared buf) eqn:Ed.
  - destruct (mac_refused buf pdu_len 2) eqn:Rd.
    + destruct (decode_address_block_refused buf pdu_len 2 dest Rd)
        as (x' & ->).
      simpl. split; [lia | auto].
    + destruct (decode_address_block_accepted buf pdu_len 2 dest Rd)
        as (anet & x' & ->).
      cbn [fmap option_fmap option_map].
      match goal with
      | |- context [decode_tail ?i ?b ?l ?p ?n ?d] =>
          pose proof (decode_tail_advances b l p n d) as Hadv;
          destruct (decode_tail i b l p n d) as [p' d']
      end.
      simpl in *. rewrite Hclr. split; [reflexivity |].
      intros Hoct Hneg. exfalso.
      pose proof (octet_at_nonneg buf (2 + 2) Hoct).
      destruct (2 + 3 <=? pdu_len); lia.
  - cbn [fmap option_fmap option_map].
    match goal with
    | |- context [decode_tail ?i ?b ?l ?p ?n ?d] =>
        pose proof (decode_tail_advances b l p n d) as Hadv;
        destruct (decode_tail i b l p n d) as [p' d']
    end.
    simpl in *. rewrite Hclr. split; [reflexivity |]. intros _ Hneg. lia.
Qed.

Lemma clamp_len_over (a : BACNET_ADDRESS) :
  Z.of_nat MAX_MAC_LEN < len a -> clamp_len MAX_MAC_LEN a = clamped a.
Proof.
  intros H. unfold clamp_len.
  destruct (Z.ltb_spec (Z.of_nat MAX_MAC_LEN) (len a)); [reflexivity | lia].
Qed.

Lemma address_octets_clamped (a : BACNET_ADDRESS) :
  address_octets (clamped a)
  = encode_unsigned16 (net a) ++ [Z.of_nat MAX_MAC_LEN] ++
    load_loop (adr a) MAX_MAC_LEN.
Proof. unfold address_octets, clamped. simpl. rewrite Nat2Z.id. reflexivity. Qed.

Lemma emitted_address_eq (given : bool) (o : option BACNET_ADDRESS) :
  match (if given then clamp_len MAX_MAC_LEN <$> o else o) with
  | Some a => if given then address_octets a else []
  | None => []
  end = emitted_address MAX_MAC_LEN given o.
Proof. destruct o, given; reflexivity. Qed.

(** C8 (amended).  [npdu_encode_pdu] never returns an error for an
    over-long mac address: it returns the number of octets it stored, at
    least 2.  For every destination whose net is non-zero, and every
    source whose net is non-zero, with a [len] above [MAX_MAC_LEN], it
    stores [MAX_MAC_LEN] into that caller-owned [len] field, and the
    octets it stores are exactly: the two leading octets, for that address
    the net, the length octet [MAX_MAC_LEN] and the first [MAX_MAC_LEN]
    octets of [adr], in its place among the octets of the other address,
    and the trailer.  An address whose net is 0 is skipped: it comes back
    as it was and the octets stored hold nothing for it. *)
Theorem C8_encoder_clamps_overlong_mac
    (dest src : option BACNET_ADDRESS) (d : BACNET_NPDU_DATA) :
  let e := npdu_encode_pdu MAX_MAC_LEN dest src (Some d) in
  let head := [protocol_version d; control_octet dest src d] in
  let emitted := emitted_address MAX_MAC_LEN in
  2 <= enc_len e /\ enc_len e = Z.of_nat (length (enc_npdu e)) /\
  (forall a, dest = Some a -> net a <> 0 -> Z.of_nat MAX_MAC_LEN < len a ->
     enc_dest e = Some (clamped a) /\
     length (load_loop (adr a) MAX_MAC_LEN) = MAX_MAC_LEN /\
     enc_npdu e =
       head ++
       (encode_unsigned16 (net a) ++ [Z.of_nat MAX_MAC_LEN] ++
        load_loop (adr a) MAX_MAC_LEN) ++
       emitted (src_given src) src ++ trailer_octets true d) /\
  (forall a, src = Some a -> net a <> 0 -> Z.of_nat MAX_MAC_LEN < len a ->
     enc_src e = Some (clamped a) /\
     length (load_loop (adr a) MAX_MAC_LEN) = MAX_MAC_LEN /\
     enc_npdu e =
       head ++
       emitted (dest_given dest) dest ++
       (encode_unsigned16 (net a) ++ [Z.of_nat MAX_MAC_LEN] ++
        load_loop (adr a) MAX_MAC_LEN) ++
       trailer_octets (dest_given dest) d) /\
  (forall a, dest = Some a -> net a = 0 ->
     enc_dest e = Some a /\
     enc_npdu e =
       head ++ emitted (src_given src) src ++ trailer_octets false d) /\
  (forall a, src = Some a -> net a = 0 ->
     enc_src e = Some a /\
     enc_npdu e =
       head ++ emitted (dest_given dest) dest ++
       trailer_octets (dest_given dest) d).
Proof.
  cbn zeta. unfold npdu_encode_pdu, trailer_octets.
  cbn [enc_len enc_npdu enc_dest enc_src].
  rewrite !emitted_address_eq.
  split; [rewrite length_app; simpl; lia |].
  split; [reflexivity |].
  split; [| split; [| split]].
  - intros a -> Hn Hl.
    assert (Hg : dest_given (Some a) = true).
    { simpl. destruct (Z.eqb_spec (net a) 0); [contradiction | reflexivity]. }
    rewrite Hg. cbn [fmap option_fmap option_map].
    rewrite clamp_len_over by exact Hl.
    split; [reflexivity |]. split; [apply length_load_loop |].
    unfold emitted_address at 1. cbn [fmap option_fmap option_map address_part].
    rewrite clamp_len_over by exact Hl.
    rewrite address_octets_clamped. reflexivity.
  - intros a -> Hn Hl.
    assert (Hg : src_given (Some a) = true).
    { simpl. destruct (Z.eqb_spec (net a) 0); [contradiction |].
      destruct (Z.eqb_spec (len a) 0); [lia | reflexivity]. }
    rewrite Hg. cbn [fmap option_fmap option_map].
    rewrite clamp_len_over by exact Hl.
    split; [reflexivity |]. split; [apply length_load_loop |].
    unfold emitted_address at 2. cbn [fmap option_fmap option_map address_part].
    rewrite clamp_len_over by exact Hl.
    rewrite address_octets_clamped. reflexivity.
  - intros a -> Hn.
    assert (Hg : dest_given (Some a) = false).
    { simpl. rewrite Hn. reflexivity. }
    rewrite Hg. split; reflexivity.
  - intros a -> Hn.
    assert (Hg : src_given (Some a) = false).
    { simpl. rewrite Hn. reflexivity. }
    rewrite Hg. split; reflexivity.
Qed.


End Facts.

Import Examples.

Lemma C1_decode_of_encode_witness :
  let e := npdu_encode_pdu mac7 (Some to_net_1) (Some from_net_2)
             (Some routed_header) in
  enc_npdu e =
    [1; 0xAF; 0; 1; 1; 5; 0; 2; 2; 0x7A; 0x7B; 254; 0x81; 0x12; 0x34] /\
  bacnet_npdu_decode mac7 invalid_type (Some (enc_npdu e)) (enc_len e)
    (Some zero_address) (Some zero_address)
    (Some (npdu_encode_npdu_data invalid_type false 0))
  = mkDecoded 15 (Some to_net_1) (Some from_net_2) (Some routed_header).
Proof.
  split; [reflexivity |].
  refine (proj2 (proj2 (proj2
    (C1_decode_of_encode mac7 invalid_type routed_header
       (Some to_net_1) (Some from_net_2) zero_address zero_address
       (npdu_encode_npdu_data invalid_type false 0) _ _ _ _ _)))).
  - unfold wf_header, is_octet. simpl.
    split; [lia | split; [intros _; lia | lia]].
  - intros a [= <-]. unfold wf_address, mac7. simpl.
    split; [lia | split; [lia | reflexivity]].
  - intros a [= <-]. unfold wf_address, mac7. simpl.
    split; [lia | split; [lia | reflexivity]].
  - reflexivity.
  - reflexivity.
Defined.

(** C1, as stated, fails on the header [npdu_encode_npdu_data] builds for
    an APDU: it is encoded as [01 00], all of which the decoder consumes,
    and its hop count 255 comes back as 0. *)
Lemma C1_default_header_not_restored :
  let d := npdu_encode_npdu_data invalid_type false 0 in
  let e := npdu_encode_pdu mac7 None None (Some d) in
  let r := bacnet_npdu_decode mac7 invalid_type (Some (enc_npdu e))
             (enc_len e) (Some zero_address) (Some zero_address) (Some d) in
  enc_npdu e = [1; 0] /\ dec_len r = enc_len e /\
  hop_count d = 255 /\ hop_count <$> dec_data r = Some 0 /\
  dec_data r <> Some d.
Proof. vm_compute. repeat split; try reflexivity; discriminate. Qed.



Lemma C8_encoder_clamps_overlong_mac_witness :
  let e := npdu_encode_pdu mac7 (Some overlong_dest) (Some overlong_src)
             (Some routed_header) in
  (net overlong_dest <> 0 /\ Z.of_nat mac7 < len overlong_dest) /\
  (net overlong_src <> 0 /\ Z.of_nat mac7 < len overlong_src) /\
  enc_dest e = Some (mkAddress 1 7 [5; 1; 2; 3; 4; 5; 6]) /\
  enc_src e = Some (mkAddress 2 7 [7; 1; 2; 3; 4; 5; 6]) /\
  2 <= enc_len e.
Proof.
  cbn zeta.
  pose proof (C8_encoder_clamps_overlong_mac mac7 (Some overlong_dest)
                (Some overlong_src) routed_header)
    as (Hlen & _ & Hd & Hs & _).
  assert (H1 : net overlong_dest <> 0 /\ Z.of_nat mac7 < len overlong_dest)
    by (unfold mac7; simpl; lia).
  assert (H2 : net overlong_src <> 0 /\ Z.of_nat mac7 < len overlong_src)
    by (unfold mac7; simpl; lia).
  split; [exact H1 |]. split; [exact H2 |].
  split; [exact (proj1 (Hd overlong_dest eq_refl (proj1 H1) (proj2 H1))) |].
  split; [exact (proj1 (Hs overlong_src eq_refl (proj1 H2) (proj2 H2))) |].
  exact Hlen.
Defined.

(** C8, as stated, fails on an address that carries no network number:
    the encoder skips it, so its over-long [len] is left as it is and no
    address octets are emitted. *)
Lemma C8_local_address_not_clamped :
  let e := npdu_encode_pdu mac7 (Some overlong_local) (Some overlong_local)
             (Some routed_header) in
  Z.of_nat mac7 < len overlong_local /\
  enc_dest e = Some overlong_local /\ enc_src e = Some overlong_local /\
  (len <$> enc_dest e) = Some 200 /\
  enc_npdu e = [1; 0x87; 0x81; 0x12; 0x34].
Proof. vm_compute. repeat split; reflexivity. Qed.

Lemma C9_source_cleared_when_accepted_witness :
  let src0 := mkAddress BACNET_BROADCAST_NETWORK 3 [1; 2; 3; 4; 5; 6; 7] in
  let r := bacnet_npdu_decode mac7 invalid_type (Some [1; 0]) 2
             (Some zero_address) (Some src0) (Some routed_header) in
  src_declared [1; 0] = false /\ 0 < dec_len r /\
  dec_src r = Some (mkAddress BACNET_BROADCAST_NETWORK 0 (replicate 7 0)).
Proof.
  cbn zeta.
  assert (H : 0 < dec_len
                (bacnet_npdu_decode mac7 invalid_type (Some [1; 0]) 2
                   (Some zero_address)
                   (Some (mkAddress BACNET_BROADCAST_NETWORK 3
                            [1; 2; 3; 4; 5; 6; 7]))
                   (Some routed_header))) by reflexivity.
  split; [reflexivity |]. split; [exact H |].
  exact (proj1
    (C9_source_cleared_when_accepted mac7 invalid_type [1; 0] 2
       (Some zero_address)
       (mkAddress BACNET_BROADCAST_NETWORK 3 [1; 2; 3; 4; 5; 6; 7])
       routed_header eq_refl eq_refl) H).
Defined.

(** C9, as stated, fails on [01 20 00 01 FF]: the source-present bit is
    clear, the destination mac length 255 is refused, and the decoder
    returns -1 with the caller's source address untouched. *)
Lemma C9_source_kept_when_destination_refused :
  let buf := [1; 0x20; 0; 1; 0xFF] in
  let src0 := mkAddress 5 1 [9; 0; 0; 0; 0; 0; 0] in
  let r := bacnet_npdu_decode mac7 invalid_type (Some buf) 5
             (Some zero_address) (Some src0) (Some routed_header) in
  src_declared buf = false /\ dec_len r = -1 /\
  dec_src r = Some src0 /\
  dec_src r <> Some (mkAddress 0 0 (replicate 7 0)).
Proof. vm_compute. repeat split; try reflexivity; discriminate. Qed.

End NpduTheorems.

(** ** Equality of application values *)

Module BacappTheorems.

Import Datetime Bacapp.

Lemma SFcompare_antisym (x y : spec_float) :
  SFcompare y x = option_map CompOpp (SFcompare x y).
Proof.
  destruct x as [sx | sx | | sx mx ex], y as [sy | sy | | sy my ey];
    try reflexivity; simpl;
    try (destruct sx; reflexivity); try (destruct sy; reflexivity);
    try (destruct sx, sy; reflexivity).
  destruct sx, sy; try reflexivity;
    rewrite (Z.compare_antisym ey ex); destruct (ey ?= ex); simpl;
    try reflexivity;
    rewrite (Pos.compare_cont_antisym mx my); simpl;
    destruct (Pos.compare_cont Eq mx my); reflexivity.
Qed.

Lemma islessgreater_spec (x y : spec_float) :
  Ieee.islessgreater x y = false <->
  SFcompare x y = Some Eq \/ SFcompare x y = None.
Proof.
  unfold Ieee.islessgreater, SFltb. rewrite (SFcompare_antisym x y).
  destruct (SFcompare x y) as [[| |] |]; simpl; split; intros H;
    try discriminate; try reflexivity; auto;
    destruct H as [H | H]; discriminate.
Qed.

Section SameValue.

Variable BACNET_APPLICATION_TAG_EMPTYLIST : Z.
Variable same_in_other_arms :
  BACNET_APPLICATION_DATA_VALUE -> BACNET_APPLICATION_DATA_VALUE -> bool.
Context {clock : DateTimeOps}.

Local Abbreviation bacapp_same_value :=
  (Bacapp.bacapp_same_value BACNET_APPLICATION_TAG_EMPTYLIST
     same_in_other_arms).

(** What the Real and the Double arm answer: true exactly when neither
    value is less than the other.  On ordered values that is equality, as
    the specification has it. *)
Lemma same_value_of_floats (a b : spec_float) :
  (bacapp_same_value (real_value a) (real_value b) = true <->
   SFcompare b a = Some Eq \/ SFcompare b a = None) /\
  (bacapp_same_value (double_value a) (double_value b) = true <->
   SFcompare b a = Some Eq \/ SFcompare b a = None).
Proof.
  assert (Hr : bacapp_same_value (real_value a) (real_value b)
               = negb (Ieee.islessgreater b a)) by reflexivity.
  assert (Hd : bacapp_same_value (double_value a) (double_value b)
               = negb (Ieee.islessgreater b a)) by reflexivity.
  rewrite Hr, Hd, !negb_true_iff, !islessgreater_spec. tauto.
Qed.

Lemma SFcompare_nan_r (b : spec_float) : SFcompare b S754_nan = None.
Proof. destruct b as [sb | sb | | sb mb eb]; reflexivity. Qed.

(** C5 (what the code does).  A NaN is unordered with every float, and
    [bacapp_same_value] reports a Real or a Double NaN the same as every
    value of its type, on either side: as NaN itself, and as 1.0, which is
    a different value.  The test is [!islessgreater], and [islessgreater]
    is false on unordered operands. *)
Theorem C5_nan_reported_same (b : spec_float) :
  let nan := S754_nan in
  let one := Ieee.of_Z32 1 in
  SFcompare nan b = None /\ SFcompare b nan = None /\
  bacapp_same_value (real_value nan) (real_value b) = true /\
  bacapp_same_value (real_value b) (real_value nan) = true /\
  bacapp_same_value (double_value nan) (double_value b) = true /\
  bacapp_same_value (double_value b) (double_value nan) = true /\
  bacapp_same_value (real_value nan) (real_value nan) = true /\
  bacapp_same_value (real_value nan) (real_value one) = true /\
  bacapp_same_value (real_value one) (real_value nan) = true /\
  SFcompare one one = Some Eq /\ SFcompare nan one <> Some Eq.
Proof.
  cbn zeta.
  assert (Hrl : forall x, bacapp_same_value (real_value S754_nan)
                            (real_value x) = true).
  { intros x. apply (proj1 (same_value_of_floats _ _)).
    right. apply SFcompare_nan_r. }
  assert (Hrr : forall x, bacapp_same_value (real_value x)
                            (real_value S754_nan) = true).
  { intros x. apply (proj1 (same_value_of_floats _ _)).
    right. reflexivity. }
  assert (Hdl : forall x, bacapp_same_value (double_value S754_nan)
                            (double_value x) = true).
  { intros x. apply (proj2 (same_value_of_floats _ _)).
    right. apply SFcompare_nan_r. }
  assert (Hdr : forall x, bacapp_same_value (double_value x)
                            (double_value S754_nan) = true).
  { intros x. apply (proj2 (same_value_of_floats _ _)).
    right. reflexivity. }
  split; [reflexivity |]. split; [apply SFcompare_nan_r |].
  split; [apply Hrl |]. split; [apply Hrr |].
  split; [apply Hdl |]. split; [apply Hdr |].
  split; [apply Hrl |]. split; [apply Hrl |]. split; [apply Hrr |].
  split; [vm_compute; reflexivity | vm_compute; discriminate].
Qed.

End SameValue.

End BacappTheorems.

(** ** The Load Control object *)

Module LoadControlTheorems.

Import Datetime Bacapp LoadControl.

Section MachineFacts.

Context {clock : DateTimeOps} {AO : Type} {ao_ops : AnalogOutput AO}.

(** C7.  For every instance whose enable flag is false, a tick forces
    the state of that instance to INACTIVE and does nothing else: the
    states of the other instances, the written flags, the requested,
    expected and actual shed levels, the start and end times and every
    other array are unchanged, and the Analog Output objects are not
    touched. *)
Theorem C7_disabled_tick_forces_inactive (s : lc_state) (ao : AO) (object_index : nat) :
  (object_index < length (Load_Control_State s))%nat ->
  Load_Control_Enable s !!! object_index = false ->
  forall s' ao',
    Load_Control_State_Machine s ao object_index = (s', ao') ->
    Load_Control_State s' !!! object_index = SHED_INACTIVE /\
    (forall j, j <> object_index ->
       Load_Control_State s' !! j = Load_Control_State s !! j) /\
    only_state_changed s s' /\
    ao' = ao.
Proof.
  intros Hk Hen s' ao'. unfold Load_Control_State_Machine. rewrite Hen.
  cbn [negb]. intros [= <- <-]. unfold enter. cbn.
  split; [apply list_lookup_total_insert_eq; exact Hk |].
  split; [intros j Hj; apply list_lookup_insert_ne; congruence |].
  split; [| reflexivity]. unfold only_state_changed. repeat split.
Qed.

Ltac lc_simpl :=
  unfold comply, cannot_comply, expect_requested, actual_requested,
    expect_default, actual_default, update_End_Time, enter,
    set_Load_Control_State, set_Expected_Shed_Level, set_Actual_Shed_Level,
    set_End_Time, set_Start_Time, set_Load_Control_Request_Written,
    set_Start_Time_Property_Written;
  cbn [Present_Value Requested_Shed_Level Expected_Shed_Level
       Actual_Shed_Level Start_Time End_Time Current_Time Shed_Duration
       Duty_Window Load_Control_Enable Load_Control_Request_Written
       Start_Time_Property_Written Full_Duty_Baseline Shed_Levels
       Load_Control_State Load_Control_State_Previously initialized].

Lemma able_frame (s t : lc_state) (ao : AO) (k : nat) :
  Requested_Shed_Level t = Requested_Shed_Level s ->
  Full_Duty_Baseline t = Full_Duty_Baseline s ->
  Shed_Levels t = Shed_Levels s ->
  Able_To_Meet_Shed_Request t ao k = Able_To_Meet_Shed_Request s ao k /\
  Requested_Shed_Level_Value t k = Requested_Shed_Level_Value s k.
Proof.
  intros H1 H2 H3.
  unfold Able_To_Meet_Shed_Request, Requested_Shed_Level_Value.
  rewrite H1, H2, H3. split; reflexivity.
Qed.

Lemma value_frame (s t : lc_state) (k : nat) :
  Requested_Shed_Level t = Requested_Shed_Level s ->
  Full_Duty_Baseline t = Full_Duty_Baseline s ->
  Shed_Levels t = Shed_Levels s ->
  Requested_Shed_Level_Value t k = Requested_Shed_Level_Value s k.
Proof.
  intros H1 H2 H3. unfold Requested_Shed_Level_Value.
  rewrite H1, H2, H3. reflexivity.
Qed.

(** C4 (amended).  In REQUEST_PENDING, when no written flag cancels the
    request and the end time is not before the current time: for every
    current time strictly after the start time the tick consults
    [Able_To_Meet_Shed_Request]; if it holds, expected and actual become
    the requested level, the Analog Output of the instance is commanded at
    priority 4 to the derived level and the state becomes COMPLIANT; if
    not, expected and actual are default-set and the state becomes
    NON_COMPLIANT.  When the current time equals the start time the tick
    consults nothing: the state stays REQUEST_PENDING, expected and actual
    are unchanged and no command is issued. *)
Theorem C4_pending_after_start (s : lc_state) (ao : AO) (k : nat) :
  lc_wf s -> (k < MAX_LOAD_CONTROLS)%nat ->
  Load_Control_Enable s !!! k = true ->
  Load_Control_State s !!! k = SHED_REQUEST_PENDING ->
  cancels_request s k = false ->
  cancels_start s k = false ->
  0 <= datetime_compare
         (datetime_add_minutes (Start_Time s !!! k) (Shed_Duration s !!! k))
         (Current_Time s) ->
  forall s' ao',
    Load_Control_State_Machine s ao k = (s', ao') ->
    let diff := datetime_compare (Current_Time s) (Start_Time s !!! k) in
    (0 < diff ->
     if Able_To_Meet_Shed_Request s ao k
     then Expected_Shed_Level s' !!! k = Requested_Shed_Level s !!! k /\
          Actual_Shed_Level s' !!! k = Requested_Shed_Level s !!! k /\
          Load_Control_State s' !!! k = SHED_COMPLIANT /\
          ao' = Analog_Output_Present_Value_Set ao (Z.of_nat k)
                  (Requested_Shed_Level_Value s k) 4
     else Expected_Shed_Level s' !!! k =
            Shed_Level_Default_Set (shed_type (Requested_Shed_Level s !!! k)) /\
          Actual_Shed_Level s' !!! k =
            Shed_Level_Default_Set (shed_type (Requested_Shed_Level s !!! k)) /\
          Load_Control_State s' !!! k = SHED_NON_COMPLIANT /\
          ao' = ao) /\
    (diff = 0 ->
     Load_Control_State s' !!! k = SHED_REQUEST_PENDING /\
     Expected_Shed_Level s' = Expected_Shed_Level s /\
     Actual_Shed_Level s' = Actual_Shed_Level s /\
     ao' = ao).
Proof.
  intros Hwf Hk Hen Hst Hcr Hcs Hend s' ao'.
  destruct Hwf as (L1 & L2 & L3 & L4 & L5 & L6 & L7 & L8 & L9).
  unfold Load_Control_State_Machine. rewrite Hen, Hst. cbn [negb].
  unfold request_pending, cancels_request, cancels_start in *.
  set (s1 := if (Load_Control_Request_Written s !!! k : bool) then _ else s).
  assert (H1 : Requested_Shed_Level s1 = Requested_Shed_Level s /\
               Full_Duty_Baseline s1 = Full_Duty_Baseline s /\
               Shed_Levels s1 = Shed_Levels s /\
               Start_Time s1 = Start_Time s /\
               Shed_Duration s1 = Shed_Duration s /\
               Current_Time s1 = Current_Time s /\
               Expected_Shed_Level s1 = Expected_Shed_Level s /\
               Actual_Shed_Level s1 = Actual_Shed_Level s /\
               Start_Time_Property_Written s1 = Start_Time_Property_Written s /\
               End_Time s1 = End_Time s /\
               Load_Control_State s1 = Load_Control_State s).
  { subst s1. destruct (Load_Control_Request_Written s !!! k);
      [| repeat split]. cbn [andb] in Hcr.
    destruct (Requested_Shed_Level s !!! k); rewrite Hcr; lc_simpl;
      repeat split. }
  destruct H1 as (R1 & R2 & R3 & R4 & R5 & R6 & R7 & R8 & R9 & R10 & R11).
  clearbody s1.
  rewrite R11, Hst, andb_false_r, R9.
  set (s2 := if (Start_Time_Property_Written s !!! k : bool) then _ else s1).
  assert (H2 : Requested_Shed_Level s2 = Requested_Shed_Level s /\
               Full_Duty_Baseline s2 = Full_Duty_Baseline s /\
               Shed_Levels s2 = Shed_Levels s /\
               Start_Time s2 = Start_Time s /\
               Shed_Duration s2 = Shed_Duration s /\
               Current_Time s2 = Current_Time s /\
               Expected_Shed_Level s2 = Expected_Shed_Level s /\
               Actual_Shed_Level s2 = Actual_Shed_Level s /\
               End_Time s2 = End_Time s /\
               Load_Control_State s2 = Load_Control_State s).
  { subst s2. destruct (Start_Time_Property_Written s !!! k);
      lc_simpl; repeat split; assumption. }
  destruct H2 as (T1 & T2 & T3 & T4 & T5 & T6 & T7 & T8 & T9 & T10).
  clearbody s2.
  rewrite T4, Hcs.
  set (s3 := update_End_Time s2 k).
  assert (H3 : Requested_Shed_Level s3 = Requested_Shed_Level s /\
               Full_Duty_Baseline s3 = Full_Duty_Baseline s /\
               Shed_Levels s3 = Shed_Levels s /\
               Start_Time s3 = Start_Time s /\
               Current_Time s3 = Current_Time s /\
               Expected_Shed_Level s3 = Expected_Shed_Level s /\
               Actual_Shed_Level s3 = Actual_Shed_Level s /\
               Load_Control_State s3 = Load_Control_State s /\
               End_Time s3 !!! k =
               datetime_add_minutes (Start_Time s !!! k)
                                    (Shed_Duration s !!! k)).
  { subst s3. lc_simpl. repeat split; try assumption.
    rewrite T4, T5. apply list_lookup_total_insert_eq. rewrite T9. lia. }
  destruct H3 as (U1 & U2 & U3 & U4 & U5 & U6 & U7 & U8 & U9).
  clearbody s3.
  rewrite U9, U5, U4.
  destruct (Z.ltb_spec
              (datetime_compare
                 (datetime_add_minutes (Start_Time s !!! k)
                    (Shed_Duration s !!! k)) (Current_Time s)) 0) as [? | _];
    [lia |].
  destruct (able_frame s s3 ao k U1 U2 U3) as (Hable & Hvalue).
  cbn zeta.
  destruct (Z.ltb_spec (datetime_compare (Current_Time s) (Start_Time s !!! k)) 0)
    as [Hlt | Hge].
  { intros _. split; intros; lia. }
  destruct (Z.ltb_spec 0 (datetime_compare (Current_Time s) (Start_Time s !!! k)))
    as [Hgt | Hle].
  - rewrite Hable.
    destruct (Able_To_Meet_Shed_Request s ao k).
    + intros [= <- <-]. split; [intros _ | intros; lia].
      lc_simpl. rewrite U1, U6, U7, U8.
      rewrite !list_lookup_total_insert_eq by lia.
      repeat split. f_equal.
      apply (value_frame s); cbn; first [reflexivity | assumption].
    + intros [= <- <-]. split; [intros _ | intros; lia].
      lc_simpl. rewrite U1, U6, U7, U8.
      rewrite !list_lookup_total_insert_eq by lia.
      repeat split.
  - intros [= <- <-]. split; [intros; lia | intros _].
    rewrite U8, Hst. repeat split; assumption.
Qed.


(** When a compliant shed runs out, the tick resets the start time at
    index 0, whatever the instance. *)
Lemma compliant_expiry (s : lc_state) (ao : AO) (k : nat) :
  lc_wf s -> (k < MAX_LOAD_CONTROLS)%nat ->
  Load_Control_Enable s !!! k = true ->
  Load_Control_State s !!! k = SHED_COMPLIANT ->
  datetime_compare
    (datetime_add_minutes (Start_Time s !!! k) (Shed_Duration s !!! k))
    (Current_Time s) < 0 ->
  forall s' ao',
    Load_Control_State_Machine s ao k = (s', ao') ->
    Start_Time s' = <[0%nat := datetime_wildcard_set]> (Start_Time s) /\
    Load_Control_State s' !!! k = SHED_INACTIVE /\
    ao' = Analog_Output_Present_Value_Relinquish ao (Z.of_nat k) 4.
Proof.
  intros Hwf Hk Hen Hst Hend s' ao'.
  destruct Hwf as (L1 & L2 & L3 & L4 & L5 & L6 & L7 & L8 & L9).
  unfold Load_Control_State_Machine. rewrite Hen, Hst. cbn [negb].
  unfold compliant. lc_simpl.
  rewrite list_lookup_total_insert_eq by lia.
  destruct (Z.ltb_spec
              (datetime_compare
                 (datetime_add_minutes (Start_Time s !!! k)
                    (Shed_Duration s !!! k)) (Current_Time s)) 0) as [_ | ?];
    [| lia].
  intros [= <- <-]. lc_simpl.
  rewrite list_lookup_total_insert_eq by lia. repeat split.
Qed.

End MachineFacts.

Section WriteFacts.

Variable MAX_BACNET_APPLICATION_TAG : Z.

Import Examples.

Lemma tag_decode_percent :
  bacnet_tag_decode [0x09; 0x64] 2 = (1, mkTag 0 false true false false 1).
Proof. vm_compute. reflexivity. Qed.

(** C2 (what the code does).  The write of RequestedShedLevel with the
    context-tagged payload [09 64] fails: the first decode,
    [bacapp_decode_application_data], refuses a context tag, so the
    function returns false with VALUE_OUT_OF_RANGE before the arm for the
    property runs, the requested shed level is not changed and the
    request-written flag is not set. *)
Theorem C2_context_tagged_request_rejected
    (value : BACNET_APPLICATION_DATA_VALUE) (s : lc_state) :
  let r := Load_Control_Write_Property MAX_BACNET_APPLICATION_TAG
             (Some shed_request_percent_100) value s in
  wr_status r = false /\ wr_state r = s /\
  error_code <$> wr_data r = Some ERROR_CODE_VALUE_OUT_OF_RANGE /\
  Requested_Shed_Level (wr_state r) = Requested_Shed_Level s /\
  Load_Control_Request_Written (wr_state r) = Load_Control_Request_Written s.
Proof.
  cbn zeta. unfold Load_Control_Write_Property, shed_request_percent_100.
  cbn [application_data_len application_data].
  change (2 <? 0) with false. cbv iota.
  unfold bacapp_decode_application_data. rewrite tag_decode_percent.
  cbn. repeat split.
Qed.

(** The arm for RequestedShedLevel, reached alone, stores Percent 100 for
    that payload and sets the flag, as the specification describes. *)
Lemma dispatch_stores_percent
    (value : BACNET_APPLICATION_DATA_VALUE) (len : Z) (s : lc_state) :
  MAX_BACNET_APPLICATION_TAG <> BACNET_APPLICATION_TAG_UNSIGNED_INT ->
  let r := write_dispatch MAX_BACNET_APPLICATION_TAG
             shed_request_percent_100 value len s in
  wr_status r = true /\
  Requested_Shed_Level (wr_state r) =
    <[0%nat := Percent 100]> (Requested_Shed_Level s) /\
  Load_Control_Request_Written (wr_state r) =
    <[0%nat := true]> (Load_Control_Request_Written s).
Proof.
  intros Hmax. cbn zeta. unfold write_dispatch, shed_request_percent_100.
  cbn [object_property application_data application_data_len object_instance].
  unfold bacapp_decode_context_data. rewrite tag_decode_percent.
  cbn [closing context number len_value_type Bacapp.tag].
  change (0 <? 1) with true. cbv iota.
  unfold bacapp_context_tag_type. change (0 =? 0) with true. cbn [orb].
  assert (Hne : (BACNET_APPLICATION_TAG_UNSIGNED_INT =?
                  MAX_BACNET_APPLICATION_TAG) = false)
    by (apply Z.eqb_neq; congruence).
  rewrite Hne. cbn [negb]. unfold bacapp_data_decode.
  change (primitive_decode (drop (Z.to_nat 1) [9; 100]) (2 - 1)
            BACNET_APPLICATION_TAG_UNSIGNED_INT 1)
    with (1, Some (V_Unsigned_Int 100)).
  cbv iota beta. change (1 =? 0) with false. cbn [andb].
  unfold set_type. cbn [Bacapp.tag context_specific context_tag type].
  rewrite Hne. change (0 <=? 1) with true. cbn [andb negb].
  cbv iota beta. change (1 + 1 =? BACNET_STATUS_ERROR) with false.
  cbv iota. cbn [context_tag]. change (0 =? 0) with true. cbv iota.
  cbn. repeat split.
Qed.

(** A tag the decoder reports as context class is not application
    class. *)
Lemma context_is_not_application (apdu : list Z) (apdu_size : Z) :
  let t := snd (bacnet_tag_decode apdu apdu_size) in
  context t = true -> application t = false.
Proof.
  cbn zeta. unfold bacnet_tag_decode.
  repeat match goal with
         | |- context [if ?c then _ else _] => destruct c
         end; cbn; intros H; try discriminate; rewrite H; reflexivity.
Qed.

(** No context-tagged payload is written, whatever the property: the
    first decode refuses it. *)
Lemma context_tagged_payload_rejected
    (wp_data : BACNET_WRITE_PROPERTY_DATA)
    (value : BACNET_APPLICATION_DATA_VALUE) (s : lc_state) :
  0 < application_data_len wp_data ->
  context (snd (bacnet_tag_decode (application_data wp_data)
                  (application_data_len wp_data))) = true ->
  let r := Load_Control_Write_Property MAX_BACNET_APPLICATION_TAG
             (Some wp_data) value s in
  wr_status r = false /\ wr_state r = s /\
  error_code <$> wr_data r = Some ERROR_CODE_VALUE_OUT_OF_RANGE.
Proof.
  intros Hlen Hctx. cbn zeta. unfold Load_Control_Write_Property.
  destruct (Z.ltb_spec (application_data_len wp_data) 0) as [? | _]; [lia |].
  unfold bacapp_decode_application_data.
  pose proof (context_is_not_application (application_data wp_data)
                (application_data_len wp_data)) as Hk.
  destruct (bacnet_tag_decode (application_data wp_data)
              (application_data_len wp_data)) as [len t].
  cbn [snd] in *. rewrite (Hk Hctx), andb_false_r.
  destruct (Z.ltb_spec 0 (application_data_len wp_data)) as [_ | ?]; [| lia].
  cbn. repeat split.
Qed.


End WriteFacts.

Import Examples.

Lemma C7_disabled_tick_forces_inactive_witness :
  let s := disabled SHED_COMPLIANT (morning 11 0) in
  let r := Load_Control_State_Machine s ao_shed 1 in
  Load_Control_Enable s !!! 1%nat = false /\
  Load_Control_State s !!! 1%nat = SHED_COMPLIANT /\
  Load_Control_State r.1 !!! 1%nat = SHED_INACTIVE /\
  only_state_changed s r.1 /\ r.2 = ao_shed.
Proof.
  cbn zeta.
  pose proof (C7_disabled_tick_forces_inactive
                (disabled SHED_COMPLIANT (morning 11 0)) ao_shed 1
                ltac:(simpl; lia) eq_refl _ _ eq_refl) as (H1 & _ & H3 & H4).
  split; [reflexivity |]. split; [reflexivity |].
  split; [exact H1 |]. split; [exact H3 | exact H4].
Defined.

Lemma C4_pending_after_start_witness :
  let s := shedding SHED_REQUEST_PENDING (morning 10 1) in
  let r := Load_Control_State_Machine s ao_idle 1 in
  0 < datetime_compare (Current_Time s) (Start_Time s !!! 1%nat) /\
  Able_To_Meet_Shed_Request s ao_idle 1 = true /\
  Expected_Shed_Level r.1 !!! 1%nat = Level 2 /\
  Actual_Shed_Level r.1 !!! 1%nat = Level 2 /\
  Load_Control_State r.1 !!! 1%nat = SHED_COMPLIANT /\
  r.2 = command ao_idle 1 4 (Some (Ieee.of_Z32 80)).
Proof.
  cbn zeta.
  assert (Hd : 0 < datetime_compare
                     (Current_Time (shedding SHED_REQUEST_PENDING (morning 10 1)))
                     (Start_Time (shedding SHED_REQUEST_PENDING (morning 10 1))
                        !!! 1%nat)) by reflexivity.
  pose proof (C4_pending_after_start
                (shedding SHED_REQUEST_PENDING (morning 10 1)) ao_idle 1
                ltac:(repeat split) ltac:(unfold MAX_LOAD_CONTROLS; lia) eq_refl eq_refl
                eq_refl eq_refl ltac:(vm_compute; discriminate)
                _ _ eq_refl) as (H & _).
  specialize (H Hd).
  split; [exact Hd |]. split; [reflexivity |]. exact H.
Defined.

(** C4, as stated, fails when the current time equals the start time:
    instance 1 is pending from 10:00, it is 10:00, nothing cancels the
    request, the output could meet it, and the instance stays in
    REQUEST_PENDING with no command issued. *)
Lemma C4_pending_at_start_time_waits :
  let s := shedding SHED_REQUEST_PENDING (morning 10 0) in
  let r := Load_Control_State_Machine s ao_idle 1 in
  Load_Control_State s !!! 1%nat = SHED_REQUEST_PENDING /\
  Current_Time s = Start_Time s !!! 1%nat /\
  datetime_compare (Current_Time s) (Start_Time s !!! 1%nat) = 0 /\
  cancels_request s 1 = false /\ cancels_start s 1 = false /\
  0 <= datetime_compare
         (datetime_add_minutes (Start_Time s !!! 1%nat)
                               (Shed_Duration s !!! 1%nat))
         (Current_Time s) /\
  Able_To_Meet_Shed_Request s ao_idle 1 = true /\
  Load_Control_State r.1 !!! 1%nat = SHED_REQUEST_PENDING /\
  Load_Control_State r.1 !!! 1%nat <> SHED_COMPLIANT /\
  r.2 = ao_idle.
Proof. vm_compute. repeat split; try reflexivity; discriminate. Qed.

(** C3 (what the code does).  Instance 1 is COMPLIANT, its shed started
    at 10:00 for 30 minutes and it is 11:00.  The tick returns it to
    INACTIVE and relinquishes its output at priority 4, but the start time
    it resets is that of instance 0 (9:00 before the tick): the start time
    of instance 1 is still 10:00. *)
Theorem C3_expiry_resets_start_time_of_instance_0 :
  let s := shedding SHED_COMPLIANT (morning 11 0) in
  let r := Load_Control_State_Machine s ao_shed 1 in
  Load_Control_State s !!! 1%nat = SHED_COMPLIANT /\
  datetime_compare (End_Time r.1 !!! 1%nat) (Current_Time s) < 0 /\
  Load_Control_State r.1 !!! 1%nat = SHED_INACTIVE /\
  r.2 = Analog_Output_Present_Value_Relinquish ao_shed 1 4 /\
  Start_Time r.1 !!! 1%nat = morning 10 0 /\
  Start_Time r.1 !!! 1%nat <> datetime_wildcard_set /\
  Start_Time s !!! 0%nat = morning 9 0 /\
  Start_Time r.1 !!! 0%nat = datetime_wildcard_set.
Proof. vm_compute. repeat split; try reflexivity; discriminate. Qed.



End LoadControlTheorems.

(** * The other entry points of [npdu.c] *)

Module NpduServiceTheorems.

Import Npdu NpduTheorems.

Section Facts.

Variable MAX_MAC_LEN : nat.
Variable NETWORK_MESSAGE_INVALID : Z.

Local Abbreviation wf_address_opt := (Npdu.wf_address_opt MAX_MAC_LEN).
Local Abbreviation decoded_header := (Npdu.decoded_header NETWORK_MESSAGE_INVALID).
Local Abbreviation decoded_dest := (Npdu.decoded_dest MAX_MAC_LEN).
Local Abbreviation decoded_src := (Npdu.decoded_src MAX_MAC_LEN).

Lemma clamp_len_idem (a : BACNET_ADDRESS) :
  clamp_len MAX_MAC_LEN (clamp_len MAX_MAC_LEN a) = clamp_len MAX_MAC_LEN a.
Proof.
  unfold clamp_len.
  destruct (Z.ltb_spec (Z.of_nat MAX_MAC_LEN) (len a)) as [H | H]; simpl.
  - rewrite Z.ltb_irrefl. reflexivity.
  - destruct (Z.ltb_spec (Z.of_nat MAX_MAC_LEN) (len a)); [lia | reflexivity].
Qed.

Lemma dest_given_clamp (dest : option BACNET_ADDRESS) :
  dest_given (clamp_len MAX_MAC_LEN <$> dest) = dest_given dest.
Proof.
  destruct dest as [a |]; [| reflexivity]. simpl. unfold clamp_len.
  destruct (Z.of_nat MAX_MAC_LEN <? len a); reflexivity.
Qed.

Lemma src_given_clamp (src : option BACNET_ADDRESS) :
  (0 < MAX_MAC_LEN)%nat ->
  src_given (clamp_len MAX_MAC_LEN <$> src) = src_given src.
Proof.
  intros Hm. destruct src as [a |]; [| reflexivity]. simpl. unfold clamp_len.
  destruct (Z.ltb_spec (Z.of_nat MAX_MAC_LEN) (len a)) as [H | H];
    [| reflexivity].
  simpl. f_equal.
  destruct (Z.eqb_spec (Z.of_nat MAX_MAC_LEN) 0); [lia |].
  destruct (Z.eqb_spec (len a) 0); [lia | reflexivity].
Qed.

(** Encoding again from the addresses the encoder left gives the same
    result. *)
Lemma npdu_encode_pdu_again
    (dest src : option BACNET_ADDRESS) (d : option BACNET_NPDU_DATA) :
  (0 < MAX_MAC_LEN)%nat ->
  let e := npdu_encode_pdu MAX_MAC_LEN dest src d in
  npdu_encode_pdu MAX_MAC_LEN (enc_dest e) (enc_src e) d = e.
Proof.
  intros Hm. destruct d as [d |]; [| reflexivity].
  cbn zeta. unfold npdu_encode_pdu. cbn [enc_dest enc_src].
  assert (Hd : dest_given (if dest_given dest
                           then clamp_len MAX_MAC_LEN <$> dest else dest)
               = dest_given dest).
  { destruct (dest_given dest) eqn:E; [| exact E].
    rewrite dest_given_clamp. exact E. }
  assert (Hs : src_given (if src_given src
                          then clamp_len MAX_MAC_LEN <$> src else src)
               = src_given src).
  { destruct (src_given src) eqn:E; [| exact E].
    rewrite src_given_clamp by exact Hm. exact E. }
  assert (Hc : control_octet
                 (if dest_given dest then clamp_len MAX_MAC_LEN <$> dest
                  else dest)
                 (if src_given src then clamp_len MAX_MAC_LEN <$> src
                  else src) d
               = control_octet dest src d).
  { unfold control_octet. rewrite Hd, Hs. reflexivity. }
  rewrite Hc, Hd, Hs.
  destruct (dest_given dest), (src_given src), dest as [a |], src as [b |];
    cbn [fmap option_fmap option_map]; rewrite ?clamp_len_idem; reflexivity.
Qed.

(** X1.  [bacnet_npdu_encode_pdu] always returns the length and leaves the
    addresses that [npdu_encode_pdu] gives for the same arguments; the
    octets are stored exactly when a buffer is given, its size is positive
    and the header fits, and nothing is stored otherwise. *)
Theorem bacnet_npdu_encode_pdu_sizes_then_stores
    (pdu : bool) (pdu_size : Z)
    (dest src : option BACNET_ADDRESS) (d : option BACNET_NPDU_DATA) :
  (0 < MAX_MAC_LEN)%nat ->
  let e := npdu_encode_pdu MAX_MAC_LEN dest src d in
  let r := bacnet_npdu_encode_pdu MAX_MAC_LEN pdu pdu_size dest src d in
  enc_len r = enc_len e /\
  enc_dest r = enc_dest e /\ enc_src r = enc_src e /\
  enc_npdu r =
    (if pdu && (0 <? pdu_size) && (enc_len e <=? pdu_size)
     then enc_npdu e else []).
Proof.
  intros Hm. cbn zeta. unfold bacnet_npdu_encode_pdu.
  destruct (pdu && (0 <? pdu_size) &&
            (enc_len (npdu_encode_pdu MAX_MAC_LEN dest src d) <=? pdu_size)).
  - rewrite npdu_encode_pdu_again by exact Hm. repeat split.
  - repeat split.
Qed.

Lemma clamped_octets_length (a : BACNET_ADDRESS) :
  (length (address_octets (clamp_len MAX_MAC_LEN a)) <= 3 + MAX_MAC_LEN)%nat.
Proof.
  unfold address_octets, encode_unsigned16, clamp_len.
  rewrite !length_app, length_load_loop. simpl.
  destruct (Z.ltb_spec (Z.of_nat MAX_MAC_LEN) (len a)); simpl; lia.
Qed.

(** The encoder stores at least the two fixed octets and never more than
    a header with two full addresses, a hop count, a message type and a
    vendor identifier. *)
(** X2.  For any addresses, however long they claim to be, the length
    [npdu_encode_pdu] returns is the number of octets it stores, at least 2
    and at most [2 * MAX_MAC_LEN + 12]. *)
Theorem npdu_encode_pdu_length_bounds
    (dest src : option BACNET_ADDRESS) (d : BACNET_NPDU_DATA) :
  let e := npdu_encode_pdu MAX_MAC_LEN dest src (Some d) in
  enc_len e = Z.of_nat (length (enc_npdu e)) /\
  2 <= enc_len e <= 2 * Z.of_nat MAX_MAC_LEN + 12.
Proof.
  cbn zeta. unfold npdu_encode_pdu. cbn [enc_len enc_npdu].
  split; [reflexivity |].
  rewrite !length_app.
  assert (Hd : (length (match (if dest_given dest
                                then clamp_len MAX_MAC_LEN <$> dest else dest)
                        with
                        | Some a => if dest_given dest then address_octets a
                                    else []
                        | None => []
                        end) <= 3 + MAX_MAC_LEN)%nat).
  { destruct (dest_given dest), dest as [a |]; simpl; try lia.
    apply clamped_octets_length. }
  assert (Hs : (length (match (if src_given src
                                then clamp_len MAX_MAC_LEN <$> src else src)
                        with
                        | Some a => if src_given src then address_octets a
                                    else []
                        | None => []
                        end) <= 3 + MAX_MAC_LEN)%nat).
  { destruct (src_given src), src as [a |]; simpl; try lia.
    apply clamped_octets_length. }
  destruct (dest_given dest), (network_layer_message d),
    (128 <=? network_message_type d); simpl length in *; lia.
Qed.

(** *** Decoding a header that is followed by its payload *)

Lemma decode_address_block_framed
    (buf pre post : list Z) (pdu_len pos : Z) (a : BACNET_ADDRESS)
    (x : option BACNET_ADDRESS) :
  buf = pre ++ address_octets a ++ post ->
  pos = Z.of_nat (length pre) ->
  pos + 3 + len a <= pdu_len ->
  0 <= net a < 65536 ->
  0 <= len a <= Z.of_nat MAX_MAC_LEN ->
  length (adr a) = MAX_MAC_LEN ->
  (forall x0, x = Some x0 -> length (adr x0) = MAX_MAC_LEN) ->
  decode_address_block MAX_MAC_LEN buf pdu_len pos x
  = BlockDone (pos + 3 + len a) (net a) (received a <$> x).
Proof.
  intros -> -> Hfit Hnet Hlen Hadr Hx.
  unfold decode_address_block.
  assert (H3 : (Z.of_nat (length pre) + 3 <=? pdu_len) = true)
    by (apply Z.leb_le; lia).
  rewrite H3.
  assert (Hnet' : decode_unsigned16 (pre ++ address_octets a ++ post)
                    (Z.of_nat (length pre)) = net a).
  { apply (decode_unsigned16_eq _ pre
             ([len a] ++ load_loop (adr a) (Z.to_nat (len a)) ++ post));
      [| reflexivity | exact Hnet].
    unfold address_octets. rewrite <- !app_assoc. reflexivity. }
  assert (Hlen' : octet_at (pre ++ address_octets a ++ post)
                    (Z.of_nat (length pre) + 2) = len a).
  { rewrite octet_at_app_r by lia. reflexivity. }
  rewrite Hnet', Hlen'.
  destruct (Z.eqb_spec (len a) 0) as [H0 | Hn0]; cbn [negb].
  - f_equal; [lia |]. destruct x as [x0 |]; [| reflexivity]. simpl. f_equal.
    unfold received. rewrite H0. simpl. rewrite drop_0. reflexivity.
  - assert (Hok : (Z.of_nat MAX_MAC_LEN <? len a)
                  || (pdu_len <? Z.of_nat (length pre) + 2 + 1 + len a)
                  = false).
    { apply orb_false_intro; apply Z.ltb_ge; lia. }
    rewrite Hok. f_equal; [lia |].
    destruct x as [x0 |]; [| reflexivity]. simpl. f_equal.
    unfold received. f_equal.
    rewrite store_loop_spec by (rewrite (Hx x0 eq_refl); simpl; lia).
    rewrite take_0, app_nil_l, Nat.add_0_l. f_equal.
    rewrite <- load_loop_take by lia.
    apply fmap_seq_ext. intros i Hi. apply mac_read. exact Hi.
Qed.

Lemma decode_tail_framed
    (buf pre post : list Z) (pdu_len pos dest_net : Z) (dg : bool)
    (d d1 : BACNET_NPDU_DATA) :
  let tail :=
    (if dg then [hop_count d] else []) ++
    (if network_layer_message d
     then [network_message_type d `mod` 256] ++
          (if 0x80 <=? network_message_type d
           then encode_unsigned16 (vendor_id d) else [])
     else []) in
  buf = pre ++ tail ++ post ->
  pos = Z.of_nat (length pre) ->
  Z.of_nat (length (pre ++ tail)) <= pdu_len ->
  negb (dest_net =? 0) = dg ->
  network_layer_message d1 = network_layer_message d ->
  (network_layer_message d = true -> is_octet (network_message_type d)) ->
  0 <= vendor_id d < 65536 ->
  decode_tail NETWORK_MESSAGE_INVALID buf pdu_len pos dest_net d1
  = (Z.of_nat (length (pre ++ tail)),
     mkNpduData (protocol_version d1) (data_expecting_reply d1)
       (network_layer_message d1) (priority d1)
       (if network_layer_message d then network_message_type d
        else NETWORK_MESSAGE_INVALID)
       (if network_layer_message d && (0x80 <=? network_message_type d)
        then vendor_id d else vendor_id d1)
       (if dg then hop_count d else 0)).
Proof.
  cbn zeta. intros Hbuf -> Hfit Hdg Hnlm Hmt Hv.
  unfold decode_tail. rewrite Hdg, Hnlm.
  destruct (network_layer_message d) eqn:En.
  2:{ destruct dg.
      - assert (H1 : (Z.of_nat (length pre) <? pdu_len) = true)
          by (apply Z.ltb_lt; revert Hfit; buffer_pos).
        rewrite H1.
        rewrite (octet_at_eq buf pre ([] ++ post) (hop_count d))
          by (subst buf; first [buffer_shape | buffer_pos]).
        do 2 f_equal. buffer_pos.
      - do 2 f_equal. buffer_pos. }
  specialize (Hmt eq_refl). unfold is_octet in Hmt.
  rewrite (Z.mod_small _ 256) in Hbuf, Hfit |- * by lia.
  set (mt := network_message_type d) in *.
  set (tl := if 128 <=? mt then encode_unsigned16 (vendor_id d) else [])
    in *.
  destruct dg.
  - assert (H1 : (Z.of_nat (length pre) <? pdu_len) = true)
      by (apply Z.ltb_lt; revert Hfit; buffer_pos).
    rewrite H1.
    assert (H2 : (Z.of_nat (length pre) + 1 <? pdu_len) = true)
      by (apply Z.ltb_lt; revert Hfit; buffer_pos).
    rewrite H2.
    rewrite (octet_at_eq buf (pre ++ [hop_count d]) (tl ++ post) mt
               (Z.of_nat (length pre) + 1))
      by (subst buf; first [buffer_shape | buffer_pos]).
    rewrite (octet_at_eq buf pre (([mt] ++ tl) ++ post) (hop_count d))
      by (subst buf; first [buffer_shape | buffer_pos]).
    subst tl. destruct (128 <=? mt) eqn:E80.
    + assert (H3 : (Z.of_nat (length pre) + 1 + 1 + 2 <=? pdu_len) = true)
        by (apply Z.leb_le; revert Hfit; buffer_pos).
      rewrite H3.
      rewrite (decode_unsigned16_eq buf (pre ++ [hop_count d] ++ [mt]) post
                 (vendor_id d))
        by (subst buf; first [exact Hv | buffer_shape | buffer_pos]).
      do 2 f_equal. buffer_pos.
    + do 2 f_equal. buffer_pos.
  - assert (H1 : (Z.of_nat (length pre) <? pdu_len) = true)
      by (apply Z.ltb_lt; revert Hfit; buffer_pos).
    rewrite H1.
    rewrite (octet_at_eq buf pre (tl ++ post) mt (Z.of_nat (length pre)))
      by (subst buf; first [buffer_shape | buffer_pos]).
    subst tl. destruct (128 <=? mt) eqn:E80.
    + assert (H3 : (Z.of_nat (length pre) + 1 + 2 <=? pdu_len) = true)
        by (apply Z.leb_le; revert Hfit; buffer_pos).
      rewrite H3.
      rewrite (decode_unsigned16_eq buf (pre ++ [mt]) post (vendor_id d))
        by (subst buf; first [exact Hv | buffer_shape | buffer_pos]).
      do 2 f_equal. buffer_pos.
    + do 2 f_equal. buffer_pos.
Qed.


Lemma decode_framed_address
    (given : bool) (o x : option BACNET_ADDRESS)
    (buf pre post : list Z) (pdu_len pos : Z)
    (cleared : BACNET_ADDRESS -> BACNET_ADDRESS) :
  buf = pre ++ address_part given o ++ post ->
  pos = Z.of_nat (length pre) ->
  Z.of_nat (length (pre ++ address_part given o)) <= pdu_len ->
  wf_address_opt o ->
  (given = true -> exists a, o = Some a /\ net a <> 0) ->
  (forall x0, x = Some x0 -> length (adr x0) = MAX_MAC_LEN) ->
  (if given
   then decode_address_block MAX_MAC_LEN buf pdu_len pos x
   else BlockDone pos 0 (cleared <$> x))
  = BlockDone (Z.of_nat (length (pre ++ address_part given o)))
      (match o with Some a => if given then net a else 0 | None => 0 end)
      ((fun x0 => match o with
                  | Some a => if given then received a x0 else cleared x0
                  | None => cleared x0
                  end) <$> x).
Proof.
  intros Hbuf Hpos Hfit Hwf Hgiven Hx. destruct given.
  - destruct (Hgiven eq_refl) as (a & -> & Hnz). simpl in *.
    destruct (Hwf a eq_refl) as (Hn & Hl & Ha).
    pose proof (address_octets_length a (proj1 Hl)) as Hao.
    rewrite (decode_address_block_framed buf pre post pdu_len pos a x);
      try assumption.
    + f_equal. subst pos. rewrite length_app. lia.
    + revert Hfit. subst pos. rewrite length_app. lia.
  - destruct o; simpl; rewrite ?app_nil_r; subst pos; reflexivity.
Qed.

(** The decoder on an encoded header with anything behind it, for every
    length that covers the header. *)
Lemma decode_framed
    (d : BACNET_NPDU_DATA) (dest src : option BACNET_ADDRESS)
    (payload : list Z) (pdu_len : Z)
    (x y : option BACNET_ADDRESS) (d0 : BACNET_NPDU_DATA) :
  wf_header d -> wf_address_opt dest -> wf_address_opt src ->
  (forall x0, x = Some x0 -> length (adr x0) = MAX_MAC_LEN) ->
  (forall y0, y = Some y0 -> length (adr y0) = MAX_MAC_LEN) ->
  let e := npdu_encode_pdu MAX_MAC_LEN dest src (Some d) in
  enc_len e <= pdu_len ->
  bacnet_npdu_decode MAX_MAC_LEN NETWORK_MESSAGE_INVALID
    (Some (enc_npdu e ++ payload)) pdu_len x y (Some d0)
  = mkDecoded (enc_len e)
      (decoded_dest dest <$> x) (decoded_src src <$> y)
      (Some (decoded_header (dest_given dest) d d0)).
Proof.
  intros (Hp & Hmt & Hv) Hd Hs Hx Hy.
  rewrite encode_wf by assumption. cbn zeta.
  cbn [enc_dest enc_src enc_len enc_npdu].
  set (D := address_part (dest_given dest) dest).
  set (S := address_part (src_given src) src).
  set (T := (if dest_given dest then [hop_count d] else []) ++ _).
  set (hd := [protocol_version d; control_octet dest src d]).
  intros Hfit.
  set (buf := (hd ++ D ++ S ++ T) ++ payload).
  assert (Hbuf : buf = hd ++ D ++ S ++ T ++ payload)
    by (subst buf; rewrite <- !app_assoc; reflexivity).
  assert (HL : Z.of_nat (length (hd ++ D ++ S ++ T))
               = 2 + Z.of_nat (length D) + Z.of_nat (length S)
                 + Z.of_nat (length T))
    by (rewrite !length_app; subst hd; simpl; lia).
  unfold bacnet_npdu_decode.
  assert (H2 : (2 <=? pdu_len) = true) by (apply Z.leb_le; lia).
  rewrite H2.
  change (octet_at buf 1) with (control_octet dest src d).
  change (octet_at buf 0) with (protocol_version d).
  destruct (control_octet_decode dest src d Hp) as (B7 & B5 & B3 & B2 & B0).
  rewrite B7, B5, B3, B2, B0.
  rewrite (decode_framed_address (dest_given dest) dest x buf hd
             (S ++ T ++ payload) pdu_len 2 (clear_dest MAX_MAC_LEN));
    [| exact Hbuf | reflexivity
     | fold D; rewrite length_app; subst hd; simpl; lia
     | assumption | apply dest_given_inv | assumption].
  fold D.
  rewrite (decode_framed_address (src_given src) src y buf (hd ++ D)
             (T ++ payload) pdu_len _ (clear_src MAX_MAC_LEN));
    [| rewrite Hbuf, <- !app_assoc; reflexivity | reflexivity
     | fold S; rewrite !length_app; subst hd; simpl; lia
     | assumption | apply src_given_inv | assumption].
  fold S.
  erewrite (decode_tail_framed buf ((hd ++ D) ++ S) payload pdu_len _ _
              (dest_given dest) d);
    [| rewrite Hbuf; subst T; rewrite <- !app_assoc; reflexivity
     | reflexivity
     | fold T; rewrite <- !app_assoc; lia
     | | reflexivity | assumption | assumption].
  - fold T. rewrite <- !app_assoc.
    unfold Npdu.decoded_dest, Npdu.decoded_src, Npdu.decoded_header.
    f_equal.
  - destruct dest as [a |]; [| reflexivity].
    destruct (dest_given (Some a)) eqn:E; [| reflexivity]. exact E.
Qed.


(** X3.  Decoding an encoded header that is followed by any payload, with
    any [pdu_len] that covers the header, gives the header and the addresses
    and returns the header's length: the offset of the payload.
    [npdu_decode], which takes the length first, agrees. *)
Theorem decode_stops_at_payload
    (d : BACNET_NPDU_DATA) (dest src : option BACNET_ADDRESS)
    (payload : list Z) (pdu_len : Z)
    (x y : option BACNET_ADDRESS) (d0 : BACNET_NPDU_DATA) :
  wf_header d -> wf_address_opt dest -> wf_address_opt src ->
  (forall x0, x = Some x0 -> length (adr x0) = MAX_MAC_LEN) ->
  (forall y0, y = Some y0 -> length (adr y0) = MAX_MAC_LEN) ->
  let e := npdu_encode_pdu MAX_MAC_LEN dest src (Some d) in
  enc_len e <= pdu_len ->
  let r := mkDecoded (enc_len e)
             (decoded_dest dest <$> x) (decoded_src src <$> y)
             (Some (decoded_header (dest_given dest) d d0)) in
  bacnet_npdu_decode MAX_MAC_LEN NETWORK_MESSAGE_INVALID
    (Some (enc_npdu e ++ payload)) pdu_len x y (Some d0) = r /\
  npdu_decode MAX_MAC_LEN NETWORK_MESSAGE_INVALID pdu_len
    (Some (enc_npdu e ++ payload)) x y (Some d0) = r.
Proof.
  intros Hd Hdest Hsrc Hx Hy e Hfit r. unfold npdu_decode.
  split; apply decode_framed; assumption.
Qed.

Lemma control_octet_network (mt : Z) (der : bool) (prio : Z) :
  0 <= prio <= 3 ->
  control_octet None None (npdu_encode_npdu_network mt der prio)
  = 128 + (if der then 4 else 0) + prio.
Proof.
  intros Hp.
  assert (Hc : prio = 0 \/ prio = 1 \/ prio = 2 \/ prio = 3) by lia.
  destruct der; destruct Hc as [-> | [-> | [-> | ->]]]; reflexivity.
Qed.

(** X4.  The header that [npdu_encode_npdu_network] sets up is encoded
    without addresses as the version, a control octet with bit 7 set, the
    message type and, for the vendor range [0x80..0xFF], two zero octets
    for the vendor identifier; the decoder returns the offset behind them
    and a header with the network-message flag set and hop count 0. *)
Theorem network_message_header_on_the_wire
    (mt : Z) (der : bool) (prio : Z) (payload : list Z)
    (d0 : BACNET_NPDU_DATA) :
  is_octet mt -> 0 <= prio <= 3 ->
  let d := npdu_encode_npdu_network mt der prio in
  let e := npdu_encode_pdu MAX_MAC_LEN None None (Some d) in
  enc_npdu e = [1; 128 + (if der then 4 else 0) + prio; mt] ++
               (if 0x80 <=? mt then [0; 0] else []) /\
  bacnet_npdu_decode MAX_MAC_LEN NETWORK_MESSAGE_INVALID
    (Some (enc_npdu e ++ payload))
    (Z.of_nat (length (enc_npdu e ++ payload))) None None (Some d0)
  = mkDecoded (if 0x80 <=? mt then 5 else 3) None None
      (Some (mkNpduData BACNET_PROTOCOL_VERSION der true prio mt
               (if 0x80 <=? mt then 0 else vendor_id d0) 0)).
Proof.
  intros Hmt Hp. cbn zeta.
  assert (Hw : wf_header (npdu_encode_npdu_network mt der prio)).
  { unfold wf_header. simpl. repeat split; try lia; apply Hmt. }
  assert (Hn : wf_address_opt None) by (intros a [=]).
  pose proof (decode_framed (npdu_encode_npdu_network mt der prio) None None
                payload
                (Z.of_nat (length
                   (enc_npdu (npdu_encode_pdu MAX_MAC_LEN None None
                      (Some (npdu_encode_npdu_network mt der prio)))
                    ++ payload)))
                None None d0 Hw Hn Hn
                ltac:(intros ? [=]) ltac:(intros ? [=])) as Hdec.
  cbn zeta in Hdec.
  assert (Himg : enc_npdu (npdu_encode_pdu MAX_MAC_LEN None None
                   (Some (npdu_encode_npdu_network mt der prio)))
                 = [1; 128 + (if der then 4 else 0) + prio; mt] ++
                   (if 0x80 <=? mt then [0; 0] else [])).
  { unfold npdu_encode_pdu. cbn [enc_npdu dest_given src_given].
    rewrite control_octet_network by exact Hp.
    cbn [npdu_encode_npdu_network protocol_version network_layer_message
         network_message_type vendor_id hop_count].
    unfold is_octet in Hmt. rewrite Z.mod_small by lia. reflexivity. }
  split; [exact Himg |].
  assert (Hlen : enc_len (npdu_encode_pdu MAX_MAC_LEN None None
                   (Some (npdu_encode_npdu_network mt der prio)))
                 = if 0x80 <=? mt then 5 else 3).
  { change (enc_len (npdu_encode_pdu MAX_MAC_LEN None None
              (Some (npdu_encode_npdu_network mt der prio))))
      with (Z.of_nat (length (enc_npdu (npdu_encode_pdu MAX_MAC_LEN None None
              (Some (npdu_encode_npdu_network mt der prio)))))).
    rewrite Himg. destruct (128 <=? mt); reflexivity. }
  rewrite Hdec.
  - rewrite Hlen. unfold Npdu.decoded_header. cbn.
    destruct (128 <=? mt); reflexivity.
  - rewrite Hlen, Himg, length_app. destruct (128 <=? mt); simpl; lia.
Qed.


Variable PDU_TYPE_CONFIRMED_SERVICE_REQUEST : Z.

Local Abbreviation npdu_confirmed_service :=
  (Npdu.npdu_confirmed_service MAX_MAC_LEN NETWORK_MESSAGE_INVALID
     PDU_TYPE_CONFIRMED_SERVICE_REQUEST).

(** X5.  Behind an encoded header of an application message,
    [npdu_confirmed_service] looks at the first octet of the APDU: it
    answers whether its high nibble is the Confirmed-Request type, and
    [false] when no APDU follows. *)
Theorem confirmed_service_behind_encoded_header
    (d : BACNET_NPDU_DATA) (dest src : option BACNET_ADDRESS)
    (apdu : list Z) :
  wf_header d -> wf_address_opt dest -> wf_address_opt src ->
  protocol_version d = BACNET_PROTOCOL_VERSION ->
  network_layer_message d = false ->
  let e := npdu_encode_pdu MAX_MAC_LEN dest src (Some d) in
  let pdu := enc_npdu e ++ apdu in
  npdu_confirmed_service pdu (Z.of_nat (length pdu))
  = match apdu with
    | [] => false
    | b :: _ => Z.land b 0xF0 =? PDU_TYPE_CONFIRMED_SERVICE_REQUEST
    end.
Proof.
  intros Hw Hd Hs Hv Hn. cbn zeta.
  pose proof (npdu_encode_pdu_length_bounds dest src d) as (Hl & Hb).
  cbn zeta in Hl, Hb.
  set (e := npdu_encode_pdu MAX_MAC_LEN dest src (Some d)) in *.
  unfold Npdu.npdu_confirmed_service.
  assert (Hpos : (0 <? Z.of_nat (length (enc_npdu e ++ apdu))) = true).
  { apply Z.ltb_lt. rewrite length_app. lia. }
  rewrite Hpos.
  assert (H0 : octet_at (enc_npdu e ++ apdu) 0 = protocol_version d)
    by reflexivity.
  rewrite H0, Hv, Z.eqb_refl.
  rewrite (decode_framed d dest src apdu _ None None);
    [| assumption | assumption | assumption | intros ? [=] | intros ? [=]
     | fold e; rewrite length_app; lia].
  fold e. cbn [dec_len dec_data default].
  unfold Npdu.decoded_header. cbn [network_layer_message]. rewrite Hn.
  cbn [negb andb].
  assert (Hlt : (0 <? enc_len e) = true) by (apply Z.ltb_lt; lia).
  rewrite Hlt. cbn [andb].
  destruct apdu as [| b rest].
  - rewrite app_nil_r, <- Hl, Z.ltb_irrefl. reflexivity.
  - assert (Hin : (enc_len e <? Z.of_nat (length (enc_npdu e ++ b :: rest)))
                  = true).
    { apply Z.ltb_lt. rewrite length_app. simpl. lia. }
    rewrite Hin.
    rewrite (octet_at_eq _ (enc_npdu e) rest b) by (first [reflexivity | lia]).
    reflexivity.
Qed.


(** *** What the decoder reads and how far it goes *)

Lemma decode_address_block_within
    (buf : list Z) (pdu_len pos : Z) (x : option BACNET_ADDRESS) :
  pos <= pdu_len ->
  match decode_address_block MAX_MAC_LEN buf pdu_len pos x with
  | BlockDone pos' _ _ => pos' <= pdu_len
  | BlockReject _ => True
  end.
Proof.
  intros H. unfold decode_address_block.
  repeat match goal with
         | |- context [if ?c then _ else _] => destruct c eqn:?
         end; try exact I; lia.
Qed.

Lemma decode_address_block_onward
    (buf : list Z) (pdu_len pos : Z) (x : option BACNET_ADDRESS) :
  Forall is_octet buf ->
  match decode_address_block MAX_MAC_LEN buf pdu_len pos x with
  | BlockDone pos' _ _ => pos <= pos'
  | BlockReject _ => True
  end.
Proof.
  intros H. unfold decode_address_block.
  pose proof (octet_at_nonneg buf (pos + 2) H).
  repeat match goal with
         | |- context [if ?c then _ else _] => destruct c eqn:?
         end; try exact I; lia.
Qed.

Lemma decode_tail_within
    (buf : list Z) (pdu_len pos dest_net : Z) (d : BACNET_NPDU_DATA) :
  pos <= pdu_len ->
  fst (decode_tail NETWORK_MESSAGE_INVALID buf pdu_len pos dest_net d)
  <= pdu_len.
Proof.
  intros H. unfold decode_tail.
  repeat match goal with
         | |- context [if ?c then _ else _] => destruct c eqn:?
         end; simpl;
  repeat match goal with
         | E : (_ <? _) = true |- _ => apply Z.ltb_lt in E
         | E : (_ <=? _) = true |- _ => apply Z.leb_le in E
         end; lia.
Qed.

(** X7.  [bacnet_npdu_decode] never returns an offset beyond [pdu_len]:
    a caller can index the buffer up to the returned offset. *)
Theorem decode_stays_within_pdu_len
    (buf : list Z) (pdu_len : Z) (dest src : option BACNET_ADDRESS)
    (d0 : option BACNET_NPDU_DATA) :
  0 <= pdu_len ->
  dec_len (bacnet_npdu_decode MAX_MAC_LEN NETWORK_MESSAGE_INVALID
             (Some buf) pdu_len dest src d0) <= pdu_len.
Proof.
  intros H0. unfold bacnet_npdu_decode.
  destruct d0 as [d0 |]; [| simpl; lia].
  destruct (Z.leb_spec 2 pdu_len) as [H2 | H2]; [| simpl; lia].
  set (ctl := octet_at buf 1).
  assert (Hd : match (if negb (Z.land ctl (BIT 5) =? 0)
                      then decode_address_block MAX_MAC_LEN buf pdu_len 2 dest
                      else BlockDone 2 0 (clear_dest MAX_MAC_LEN <$> dest))
               with
               | BlockDone pos' _ _ => pos' <= pdu_len
               | BlockReject _ => True
               end).
  { destruct (negb (Z.land ctl (BIT 5) =? 0)); [| exact H2].
    apply decode_address_block_within. exact H2. }
  destruct (if negb (Z.land ctl (BIT 5) =? 0)
            then decode_address_block MAX_MAC_LEN buf pdu_len 2 dest
            else BlockDone 2 0 (clear_dest MAX_MAC_LEN <$> dest))
    as [x' | pos1 dnet x']; [simpl; lia |].
  assert (Hs : match (if negb (Z.land ctl (BIT 3) =? 0)
                      then decode_address_block MAX_MAC_LEN buf pdu_len pos1
                             src
                      else BlockDone pos1 0 (clear_src MAX_MAC_LEN <$> src))
               with
               | BlockDone pos' _ _ => pos' <= pdu_len
               | BlockReject _ => True
               end).
  { destruct (negb (Z.land ctl (BIT 3) =? 0)); [| exact Hd].
    apply decode_address_block_within. exact Hd. }
  destruct (if negb (Z.land ctl (BIT 3) =? 0)
            then decode_address_block MAX_MAC_LEN buf pdu_len pos1 src
            else BlockDone pos1 0 (clear_src MAX_MAC_LEN <$> src))
    as [y' | pos2 snet y']; [simpl; lia |].
  match goal with
  | |- context [decode_tail ?i ?b ?l ?p ?n ?d] =>
      pose proof (decode_tail_within b l p n d Hs) as Ht;
      destruct (decode_tail i b l p n d) as [p' d']
  end.
  exact Ht.
Qed.

Lemma decode_accepts_from_2
    (buf : list Z) (pdu_len : Z) (dest src : option BACNET_ADDRESS)
    (d0 : option BACNET_NPDU_DATA) :
  Forall is_octet buf ->
  let r := bacnet_npdu_decode MAX_MAC_LEN NETWORK_MESSAGE_INVALID
             (Some buf) pdu_len dest src d0 in
  0 < dec_len r -> 2 <= dec_len r /\ 2 <= pdu_len.
Proof.
  intros Hoct. cbn zeta. unfold bacnet_npdu_decode.
  destruct d0 as [d0 |]; [| simpl; lia].
  destruct (Z.leb_spec 2 pdu_len) as [H2 | H2]; [| simpl; lia].
  set (ctl := octet_at buf 1).
  assert (Hd : match (if negb (Z.land ctl (BIT 5) =? 0)
                      then decode_address_block MAX_MAC_LEN buf pdu_len 2 dest
                      else BlockDone 2 0 (clear_dest MAX_MAC_LEN <$> dest))
               with
               | BlockDone pos' _ _ => 2 <= pos'
               | BlockReject _ => True
               end).
  { destruct (negb (Z.land ctl (BIT 5) =? 0)); [| simpl; lia].
    apply decode_address_block_onward. exact Hoct. }
  destruct (if negb (Z.land ctl (BIT 5) =? 0)
            then decode_address_block MAX_MAC_LEN buf pdu_len 2 dest
            else BlockDone 2 0 (clear_dest MAX_MAC_LEN <$> dest))
    as [x' | pos1 dnet x']; [simpl; lia |].
  assert (Hs : match (if negb (Z.land ctl (BIT 3) =? 0)
                      then decode_address_block MAX_MAC_LEN buf pdu_len pos1
                             src
                      else BlockDone pos1 0 (clear_src MAX_MAC_LEN <$> src))
               with
               | BlockDone pos' _ _ => 2 <= pos'
               | BlockReject _ => True
               end).
  { destruct (negb (Z.land ctl (BIT 3) =? 0)); [| exact Hd].
    pose proof (decode_address_block_onward buf pdu_len pos1 src Hoct) as Ho.
    destruct (decode_address_block MAX_MAC_LEN buf pdu_len pos1 src);
      [exact I | lia]. }
  destruct (if negb (Z.land ctl (BIT 3) =? 0)
            then decode_address_block MAX_MAC_LEN buf pdu_len pos1 src
            else BlockDone pos1 0 (clear_src MAX_MAC_LEN <$> src))
    as [y' | pos2 snet y']; [simpl; lia |].
  match goal with
  | |- context [decode_tail ?i ?b ?l ?p ?n ?d] =>
      pose proof (decode_tail_advances NETWORK_MESSAGE_INVALID b l p n d)
        as Ht;
      destruct (decode_tail i b l p n d) as [p' d']
  end.
  simpl in *. lia.
Qed.

Lemma decode_tail_keeps_flag
    (buf : list Z) (pdu_len pos dest_net : Z) (d : BACNET_NPDU_DATA) :
  network_layer_message
    (snd (decode_tail NETWORK_MESSAGE_INVALID buf pdu_len pos dest_net d))
  = network_layer_message d.
Proof.
  unfold decode_tail.
  repeat match goal with
         | |- context [if ?c then _ else _] => destruct c
         end; reflexivity.
Qed.

Lemma decode_keeps_control_bit
    (buf : list Z) (pdu_len : Z) (dest src : option BACNET_ADDRESS)
    (d0 : BACNET_NPDU_DATA) :
  let r := bacnet_npdu_decode MAX_MAC_LEN NETWORK_MESSAGE_INVALID
             (Some buf) pdu_len dest src (Some d0) in
  0 < dec_len r ->
  network_layer_message (default d0 (dec_data r))
  = negb (Z.land (octet_at buf 1) (BIT 7) =? 0).
Proof.
  cbn zeta. unfold bacnet_npdu_decode.
  destruct (Z.leb_spec 2 pdu_len) as [H2 | H2]; [| simpl; lia].
  set (ctl := octet_at buf 1).
  destruct (if negb (Z.land ctl (BIT 5) =? 0)
            then decode_address_block MAX_MAC_LEN buf pdu_len 2 dest
            else BlockDone 2 0 (clear_dest MAX_MAC_LEN <$> dest))
    as [x' | pos1 dnet x']; [simpl; lia |].
  destruct (if negb (Z.land ctl (BIT 3) =? 0)
            then decode_address_block MAX_MAC_LEN buf pdu_len pos1 src
            else BlockDone pos1 0 (clear_src MAX_MAC_LEN <$> src))
    as [y' | pos2 snet y']; [simpl; lia |].
  intros _.
  match goal with
  | |- context [decode_tail ?i ?b ?l ?p ?n ?d] =>
      pose proof (decode_tail_keeps_flag b l p n d) as Ht;
      destruct (decode_tail i b l p n d) as [p' d']
  end.
  exact Ht.
Qed.

(** X6.  [npdu_confirmed_service] answers [true] only for a PDU of at
    least three octets that starts with the protocol version and whose
    control octet has bit 7 (network layer message) clear. *)
Theorem confirmed_service_only_for_apdus (pdu : list Z) (pdu_len : Z) :
  Forall is_octet pdu ->
  npdu_confirmed_service pdu pdu_len = true ->
  3 <= pdu_len /\
  octet_at pdu 0 = BACNET_PROTOCOL_VERSION /\
  Z.land (octet_at pdu 1) (BIT 7) = 0.
Proof.
  intros Hoct. unfold Npdu.npdu_confirmed_service.
  destruct (0 <? pdu_len); [| discriminate].
  destruct (Z.eqb_spec (octet_at pdu 0) BACNET_PROTOCOL_VERSION) as [Hv | Hv];
    [| discriminate].
  set (z := mkNpduData 0 false false 0 0 0 0).
  pose proof (decode_accepts_from_2 pdu pdu_len None None (Some z) Hoct)
    as Hacc.
  pose proof (decode_keeps_control_bit pdu pdu_len None None z) as Hbit.
  cbn zeta in Hacc, Hbit.
  set (r := bacnet_npdu_decode MAX_MAC_LEN NETWORK_MESSAGE_INVALID
              (Some pdu) pdu_len None None (Some z)) in *.
  destruct (network_layer_message (default z (dec_data r))) eqn:En;
    [discriminate |].
  cbn [negb andb].
  destruct (Z.ltb_spec 0 (dec_len r)) as [Hp | Hp]; [| discriminate].
  destruct (Z.ltb_spec (dec_len r) pdu_len) as [Hl | Hl]; [| discriminate].
  intros _. specialize (Hacc Hp). specialize (Hbit Hp).
  split; [lia |]. split; [exact Hv |].
  destruct (Z.eqb_spec (Z.land (octet_at pdu 1) (BIT 7)) 0) as [E | E];
    [exact E | discriminate].
Qed.


Lemma octet_at_take (buf buf' : list Z) (n : nat) (pos : Z) :
  take n buf = take n buf' -> (Z.to_nat pos < n)%nat ->
  octet_at buf pos = octet_at buf' pos.
Proof.
  intros Ht Hp. unfold octet_at. rewrite !list_lookup_total_alt.
  rewrite <- (lookup_take_lt buf n) by exact Hp.
  rewrite <- (lookup_take_lt buf' n) by exact Hp.
  rewrite Ht. reflexivity.
Qed.

Lemma store_loop_ext (f g : nat -> Z) (n k : nat) (a : list Z) :
  (forall i, (k <= i < k + n)%nat -> f i = g i) ->
  store_loop f k n a = store_loop g k n a.
Proof.
  revert k a. induction n as [| n IH]; intros k a H; simpl; [reflexivity |].
  rewrite (H k) by lia. apply IH. intros i Hi. apply H. lia.
Qed.

Section Locality.

Variables (buf buf' : list Z) (pdu_len : Z).
Hypothesis same : take (Z.to_nat pdu_len) buf = take (Z.to_nat pdu_len) buf'.

Lemma read_inside (pos : Z) :
  pos < pdu_len -> 0 < pdu_len -> octet_at buf pos = octet_at buf' pos.
Proof. intros H1 H2. apply (octet_at_take _ _ _ _ same). lia. Qed.

Lemma decode_address_block_local (pos : Z) (x : option BACNET_ADDRESS) :
  0 < pdu_len ->
  decode_address_block MAX_MAC_LEN buf pdu_len pos x
  = decode_address_block MAX_MAC_LEN buf' pdu_len pos x.
Proof.
  intros H0. unfold decode_address_block.
  destruct (Z.leb_spec (pos + 3) pdu_len) as [H3 | H3]; [| reflexivity].
  unfold decode_unsigned16.
  rewrite (read_inside pos), (read_inside (pos + 1)), (read_inside (pos + 2))
    by lia.
  set (alen := octet_at buf' (pos + 2)).
  destruct (negb (alen =? 0)); [| reflexivity].
  destruct (Z.ltb_spec (Z.of_nat MAX_MAC_LEN) alen) as [Hm | Hm];
    [reflexivity |].
  destruct (Z.ltb_spec pdu_len (pos + 2 + 1 + alen)) as [Hl | Hl];
    [reflexivity |].
  cbn [orb]. f_equal. destruct x as [x0 |]; [| reflexivity]. simpl.
  do 2 f_equal. apply store_loop_ext. intros i Hi.
  apply read_inside; lia.
Qed.

Lemma decode_tail_local (pos dest_net : Z) (d : BACNET_NPDU_DATA) :
  0 < pdu_len ->
  decode_tail NETWORK_MESSAGE_INVALID buf pdu_len pos dest_net d
  = decode_tail NETWORK_MESSAGE_INVALID buf' pdu_len pos dest_net d.
Proof.
  intros H0. unfold decode_tail, decode_unsigned16.
  repeat match goal with
         | E : (_ <? _) = true |- _ => apply Z.ltb_lt in E
         | E : (_ <=? _) = true |- _ => apply Z.leb_le in E
         | E : (_ <? _) = false |- _ => apply Z.ltb_ge in E
         | E : (_ <=? _) = false |- _ => apply Z.leb_gt in E
         | |- context [octet_at buf ?p] =>
             rewrite (read_inside p) by lia
         | |- context [if ?c then _ else _] =>
             lazymatch c with
             | context [octet_at buf _] => fail
             | _ => destruct c eqn:?
             end
         end; first [reflexivity | exfalso; lia].
Qed.

(** X8.  [bacnet_npdu_decode] reads the first [pdu_len] octets only: two
    buffers that agree there decode alike. *)
Theorem decode_reads_only_pdu_len
    (dest src : option BACNET_ADDRESS) (d0 : option BACNET_NPDU_DATA) :
  bacnet_npdu_decode MAX_MAC_LEN NETWORK_MESSAGE_INVALID
    (Some buf) pdu_len dest src d0
  = bacnet_npdu_decode MAX_MAC_LEN NETWORK_MESSAGE_INVALID
      (Some buf') pdu_len dest src d0.
Proof.
  unfold bacnet_npdu_decode. destruct d0 as [d0 |]; [| reflexivity].
  destruct (Z.leb_spec 2 pdu_len) as [H2 | H2]; [| reflexivity].
  rewrite (read_inside 0), (read_inside 1) by lia.
  rewrite !decode_address_block_local by lia.
  destruct (if negb (Z.land (octet_at buf' 1) (BIT 5) =? 0)
            then decode_address_block MAX_MAC_LEN buf' pdu_len 2 dest
            else BlockDone 2 0 (clear_dest MAX_MAC_LEN <$> dest))
    as [x' | pos1 dnet x']; [reflexivity |].
  rewrite !decode_address_block_local by lia.
  destruct (if negb (Z.land (octet_at buf' 1) (BIT 3) =? 0)
            then decode_address_block MAX_MAC_LEN buf' pdu_len pos1 src
            else BlockDone pos1 0 (clear_src MAX_MAC_LEN <$> src))
    as [y' | pos2 snet y']; [reflexivity |].
  rewrite decode_tail_local by lia. reflexivity.
Qed.

End Locality.

End Facts.

Import Examples.

Lemma bacnet_npdu_encode_pdu_sizes_then_stores_witness :
  let r := bacnet_npdu_encode_pdu mac7 true 20
             (Some overlong_dest) (Some from_net_2) (Some routed_header) in
  enc_len r = 21 /\ enc_npdu r = [] /\
  enc_dest r = Some (mkAddress 1 7 [5; 1; 2; 3; 4; 5; 6]).
Proof.
  assert (Hm : (0 < mac7)%nat) by (unfold mac7; lia).
  pose proof (bacnet_npdu_encode_pdu_sizes_then_stores mac7 true 20
                (Some overlong_dest) (Some from_net_2) (Some routed_header)
                Hm) as (H1 & H2 & _ & H4).
  cbn zeta. rewrite H1, H2, H4. split; [| split]; reflexivity.
Defined.

Lemma decode_stops_at_payload_witness :
  let e := npdu_encode_pdu mac7 (Some to_net_1) (Some from_net_2)
             (Some routed_header) in
  bacnet_npdu_decode mac7 invalid_type
    (Some (enc_npdu e ++ [0x10; 0x08])) 17
    (Some zero_address) (Some zero_address)
    (Some (npdu_encode_npdu_data invalid_type false 0))
  = mkDecoded 15 (Some to_net_1) (Some from_net_2) (Some routed_header).
Proof.
  refine (proj1
    (decode_stops_at_payload mac7 invalid_type routed_header
       (Some to_net_1) (Some from_net_2) [0x10; 0x08] 17
       (Some zero_address) (Some zero_address)
       (npdu_encode_npdu_data invalid_type false 0) _ _ _ _ _ _)).
  - unfold wf_header, is_octet. simpl.
    split; [lia | split; [intros _; lia | lia]].
  - intros a [= <-]. unfold wf_address, mac7. simpl.
    split; [lia | split; [lia | reflexivity]].
  - intros a [= <-]. unfold wf_address, mac7. simpl.
    split; [lia | split; [lia | reflexivity]].
  - intros a [= <-]. reflexivity.
  - intros a [= <-]. reflexivity.
  - vm_compute. discriminate.
Defined.

Lemma network_message_header_on_the_wire_witness :
  let e := npdu_encode_pdu mac7 None None
             (Some (npdu_encode_npdu_network 0x02 false 0)) in
  enc_npdu e = [1; 128; 2] /\
  bacnet_npdu_decode mac7 invalid_type (Some (enc_npdu e ++ [0; 5])) 5
    None None (Some routed_header)
  = mkDecoded 3 None None
      (Some (mkNpduData 1 false true 0 2 0x1234 0)).
Proof.
  refine (network_message_header_on_the_wire mac7 invalid_type
            0x02 false 0 [0; 5] routed_header _ _).
  - unfold is_octet. lia.
  - lia.
Defined.

Lemma confirmed_service_behind_encoded_header_witness :
  let e := npdu_encode_pdu mac7 (Some to_net_1) None
             (Some (npdu_encode_npdu_data invalid_type true 0)) in
  npdu_confirmed_service mac7 invalid_type confirmed_request
    (enc_npdu e ++ [0x02; 0x45; 0x01; 0x0C]) 11 = true.
Proof.
  refine (confirmed_service_behind_encoded_header mac7 invalid_type
            confirmed_request (npdu_encode_npdu_data invalid_type true 0)
            (Some to_net_1) None [0x02; 0x45; 0x01; 0x0C] _ _ _ _ _).
  - unfold wf_header, is_octet. simpl.
    split; [lia | split; [intros [=] | lia]].
  - intros a [= <-]. unfold wf_address, mac7. simpl.
    split; [lia | split; [lia | reflexivity]].
  - intros a [=].
  - reflexivity.
  - reflexivity.
Defined.

Lemma confirmed_service_only_for_apdus_witness :
  3 <= 4 /\
  octet_at [1; 4; 0x02; 0x45] 0 = BACNET_PROTOCOL_VERSION /\
  Z.land (octet_at [1; 4; 0x02; 0x45] 1) (BIT 7) = 0.
Proof.
  refine (confirmed_service_only_for_apdus mac7 invalid_type
            confirmed_request [1; 4; 0x02; 0x45] 4 _ _).
  - repeat constructor; unfold is_octet; lia.
  - reflexivity.
Defined.

Lemma decode_stays_within_pdu_len_witness :
  dec_len (bacnet_npdu_decode mac7 invalid_type
             (Some [1; 0x20; 0; 1; 7; 1; 2; 3; 4; 5; 6; 7; 8]) 6
             (Some zero_address) None (Some routed_header)) <= 6.
Proof.
  refine (decode_stays_within_pdu_len mac7 invalid_type
            [1; 0x20; 0; 1; 7; 1; 2; 3; 4; 5; 6; 7; 8] 6
            (Some zero_address) None (Some routed_header) _).
  lia.
Defined.

Lemma decode_reads_only_pdu_len_witness :
  bacnet_npdu_decode mac7 invalid_type
    (Some [1; 0x20; 0; 1; 2; 9; 8; 255; 0x10]) 8
    (Some zero_address) None (Some routed_header)
  = bacnet_npdu_decode mac7 invalid_type
      (Some [1; 0x20; 0; 1; 2; 9; 8; 255; 0x30; 0x01]) 8
      (Some zero_address) None (Some routed_header).
Proof.
  refine (decode_reads_only_pdu_len mac7 invalid_type
            [1; 0x20; 0; 1; 2; 9; 8; 255; 0x10]
            [1; 0x20; 0; 1; 2; 9; 8; 255; 0x30; 0x01] 8 _
            (Some zero_address) None (Some routed_header)).
  reflexivity.
Defined.

End NpduServiceTheorems.

(** * Further properties of the Load Control object *)

Module LoadControlObjectTheorems.

Import Datetime Bacapp LoadControl.


Section MachineFacts.

Context {clock : DateTimeOps} {AO : Type} {ao_ops : AnalogOutput AO}.

Lemma touches_only_refl (k : nat) (s : lc_state) : touches_only k s s.
Proof. unfold touches_only. repeat split. Qed.

Ltac frame_step :=
  let H := fresh "H" in
  let Hj := fresh "Hj" in
  let Hs := fresh "Hs" in
  intros H; destruct H as (Hj & Hs & H); unfold touches_only;
  split;
  [ intros j Hne; specialize (Hj j Hne); cbn;
    rewrite ?list_lookup_total_insert_ne by congruence;
    exact Hj
  | split;
    [ intros j Hne; specialize (Hs j Hne); cbn;
      rewrite ?list_lookup_total_insert_ne by congruence;
      exact Hs
    | exact H ] ].

Lemma touches_enter (k : nat) (s t : lc_state) (v : LOAD_CONTROL_STATE) :
  touches_only k s t -> touches_only k s (enter t k v).
Proof. frame_step. Qed.

Lemma touches_update_End_Time (k : nat) (s t : lc_state) :
  touches_only k s t -> touches_only k s (update_End_Time t k).
Proof. frame_step. Qed.

Lemma touches_expect_requested (k : nat) (s t : lc_state) :
  touches_only k s t -> touches_only k s (expect_requested t k).
Proof. frame_step. Qed.

Lemma touches_actual_requested (k : nat) (s t : lc_state) :
  touches_only k s t -> touches_only k s (actual_requested t k).
Proof. frame_step. Qed.

Lemma touches_expect_default (k : nat) (s t : lc_state) :
  touches_only k s t -> touches_only k s (expect_default t k).
Proof. frame_step. Qed.

Lemma touches_actual_default (k : nat) (s t : lc_state) :
  touches_only k s t -> touches_only k s (actual_default t k).
Proof. frame_step. Qed.

Lemma touches_request_flag (k : nat) (s t : lc_state) (b : bool) :
  touches_only k s t ->
  touches_only k s
    (set_Load_Control_Request_Written t
       (<[k := b]> (Load_Control_Request_Written t))).
Proof. frame_step. Qed.

Lemma touches_start_flag (k : nat) (s t : lc_state) (b : bool) :
  touches_only k s t ->
  touches_only k s
    (set_Start_Time_Property_Written t
       (<[k := b]> (Start_Time_Property_Written t))).
Proof. frame_step. Qed.

Lemma touches_start_time_0 (k : nat) (s t : lc_state) (v : BACNET_DATE_TIME) :
  touches_only k s t ->
  touches_only k s (set_Start_Time t (<[0%nat := v]> (Start_Time t))).
Proof. frame_step. Qed.


Ltac frame_chain :=
  repeat first
    [ assumption
    | apply touches_only_refl
    | apply touches_enter
    | apply touches_update_End_Time
    | apply touches_expect_requested
    | apply touches_actual_requested
    | apply touches_expect_default
    | apply touches_actual_default
    | apply touches_request_flag
    | apply touches_start_flag
    | apply touches_start_time_0 ].

Ltac split_branches :=
  repeat match goal with
         | |- context [if ?c then _ else _] => destruct c
         | |- context [match ?x with Percent _ => _ | _ => _ end] =>
             destruct x
         | |- context [match ?x with SHED_INACTIVE => _ | _ => _ end] =>
             destruct x
         end.

Lemma tick_frame (s : lc_state) (ao : AO) (k : nat) :
  touches_only k s (Load_Control_State_Machine s ao k).1.
Proof.
  unfold Load_Control_State_Machine.
  destruct (negb (Load_Control_Enable s !!! k)); [cbn [fst]; frame_chain |].
  destruct (Load_Control_State s !!! k).
  - unfold inactive. split_branches; cbn [fst]; frame_chain.
  - unfold request_pending.
    set (s1 := if (Load_Control_Request_Written s !!! k : bool)
               then _ else s).
    assert (H1 : touches_only k s s1)
      by (subst s1; split_branches; frame_chain).
    clearbody s1.
    set (s2 := if (Start_Time_Property_Written s1 !!! k : bool)
               then _ else s1).
    assert (H2 : touches_only k s s2)
      by (subst s2; split_branches; frame_chain).
    clearbody s2.
    set (s3 := update_End_Time s2 k).
    assert (H3 : touches_only k s s3) by (subst s3; frame_chain).
    clearbody s3.
    unfold comply, cannot_comply.
    split_branches; cbn [fst]; frame_chain.
  - unfold non_compliant, comply, cannot_comply.
    split_branches; cbn [fst]; frame_chain.
  - unfold compliant, comply, cannot_comply.
    split_branches; cbn [fst]; frame_chain.
Qed.


(** X10.  A tick of the state machine for instance [k] leaves the state,
    the levels, the end time and the written flags of every other instance
    as they were, changes no start time but possibly that of instance 0,
    and never changes a request, the configuration or the clock reading. *)
Theorem tick_touches_only (s : lc_state) (ao : AO) (k : nat) :
  touches_only k s (Load_Control_State_Machine s ao k).1.
Proof. apply tick_frame. Qed.

Lemma touches_value (k : nat) (s t : lc_state) (ao : AO) :
  touches_only k s t ->
  Requested_Shed_Level_Value t k = Requested_Shed_Level_Value s k /\
  Able_To_Meet_Shed_Request t ao k = Able_To_Meet_Shed_Request s ao k.
Proof.
  intros (_ & _ & _ & R & _ & _ & _ & _ & F & L & _).
  unfold Able_To_Meet_Shed_Request, Requested_Shed_Level_Value.
  rewrite R, F, L. split; reflexivity.
Qed.

Ltac same_length :=
  cbn; rewrite ?length_insert; first [assumption | reflexivity].

(** X11.  A tick leaves the Analog Output alone, or commands the
    requested level at priority 4 on entering COMPLIANT, or relinquishes
    priority 4 on leaving COMPLIANT for INACTIVE; nothing else is ever done
    to the output. *)
Theorem output_commanded_only_for_compliance
    (s : lc_state) (ao : AO) (k : nat) :
  (k < length (Load_Control_State s))%nat ->
  let r := Load_Control_State_Machine s ao k in
  r.2 = ao \/
  (Load_Control_State s !!! k <> SHED_COMPLIANT /\
   Load_Control_State r.1 !!! k = SHED_COMPLIANT /\
   r.2 = Analog_Output_Present_Value_Set ao (Z.of_nat k)
           (Requested_Shed_Level_Value s k) 4) \/
  (Load_Control_State s !!! k = SHED_COMPLIANT /\
   Load_Control_State r.1 !!! k = SHED_INACTIVE /\
   r.2 = Analog_Output_Present_Value_Relinquish ao (Z.of_nat k) 4).
Proof.
  intros Hk. cbn zeta. unfold Load_Control_State_Machine.
  destruct (negb (Load_Control_Enable s !!! k)); [left; reflexivity |].
  destruct (Load_Control_State s !!! k) eqn:Hst.
  - unfold inactive. destruct (Start_Time_Property_Written s !!! k);
      left; reflexivity.
  - unfold request_pending.
    set (s1 := if (Load_Control_Request_Written s !!! k : bool)
               then _ else s).
    assert (H1 : touches_only k s s1 /\
                 length (Load_Control_State s1) = length (Load_Control_State s)).
    { subst s1; split_branches; (split; [frame_chain | same_length]). }
    clearbody s1.
    set (s2 := if (Start_Time_Property_Written s1 !!! k : bool)
               then _ else s1).
    assert (H2 : touches_only k s s2 /\
                 length (Load_Control_State s2) = length (Load_Control_State s)).
    { destruct H1; subst s2; split_branches;
        (split; [frame_chain | same_length]). }
    clearbody s2. clear H1.
    set (s3 := update_End_Time s2 k).
    assert (H3 : touches_only k s s3 /\
                 length (Load_Control_State s3) = length (Load_Control_State s)).
    { destruct H2; subst s3; (split; [frame_chain | same_length]). }
    clearbody s3. clear H2. destruct H3 as (H3 & L3).
    destruct (_ && _); [left; reflexivity |].
    destruct (_ && _); [left; reflexivity |].
    destruct (_ <? 0); [left; reflexivity |].
    destruct (_ <? 0); [left; reflexivity |].
    destruct (0 <? _); [| left; reflexivity].
    destruct (Able_To_Meet_Shed_Request s3 ao k); [| left; reflexivity].
    right; left. split; [discriminate |]. unfold comply. cbn [fst snd].
    split.
    + cbn. apply list_lookup_total_insert_eq. lia.
    + f_equal. apply (touches_value k s _ ao). frame_chain.
  - unfold non_compliant.
    set (s3 := update_End_Time s k).
    assert (H3 : touches_only k s s3) by (subst s3; frame_chain).
    assert (L3 : length (Load_Control_State s3) = length (Load_Control_State s))
      by reflexivity.
    clearbody s3.
    destruct (_ <? 0); [left; reflexivity |].
    destruct (_ || _); [left; reflexivity |].
    destruct (Able_To_Meet_Shed_Request s3 ao k); [| left; reflexivity].
    right; left. split; [discriminate |]. unfold comply. cbn [fst snd].
    split.
    + cbn. apply list_lookup_total_insert_eq. lia.
    + f_equal. apply (touches_value k s _ ao). frame_chain.
  - unfold compliant.
    set (s3 := update_End_Time s k).
    assert (L3 : length (Load_Control_State s3) = length (Load_Control_State s))
      by reflexivity.
    clearbody s3.
    destruct (_ <? 0).
    + right; right. split; [reflexivity |]. cbn [fst snd].
      split; [| reflexivity]. cbn. apply list_lookup_total_insert_eq. lia.
    + destruct (_ || _); [left; reflexivity |].
      destruct (negb _); left; reflexivity.
Qed.


Lemma lookup_insert_same {A : Type} `{Inhabited A}
    (l : list A) (i j : nat) (x : A) :
  l !!! j = x -> <[i := x]> l !!! j = x.
Proof.
  intros Hj. destruct (decide (i = j)) as [-> | Hne].
  - destruct (decide (j < length l)%nat).
    + apply list_lookup_total_insert_eq. assumption.
    + rewrite list_insert_ge by lia. exact Hj.
  - rewrite list_lookup_total_insert_ne by exact Hne. exact Hj.
Qed.

Lemma same_requests_refl (s : lc_state) : same_requests s s.
Proof. unfold same_requests. repeat split. Qed.

Lemma idle_tick (s0 s : lc_state) (ao : AO) (k : nat) :
  (k < MAX_LOAD_CONTROLS)%nat ->
  idle s -> same_requests s0 s ->
  let r := Load_Control_State_Machine s ao k in
  r.2 = ao /\ idle r.1 /\ same_requests s0 r.1 /\
  Load_Control_State_Previously r.1 = Load_Control_State_Previously s /\
  initialized r.1 = initialized s.
Proof.
  intros Hk Hidle Hsame. cbn zeta. unfold Load_Control_State_Machine.
  destruct (Hidle k Hk) as (Hst & Hw).
  destruct (negb (Load_Control_Enable s !!! k)).
  - cbn [fst snd]. split; [reflexivity |]. split; [| split; [exact Hsame |]].
    + intros j Hj. destruct (Hidle j Hj) as (Hs & Hf). cbn.
      split; [| exact Hf]. apply lookup_insert_same. exact Hs.
    + split; reflexivity.
  - rewrite Hst. unfold inactive. rewrite Hw. cbn [fst snd].
    split; [reflexivity |]. split; [exact Hidle |].
    split; [exact Hsame |]. split; reflexivity.
Qed.

Lemma idle_loop (s0 : lc_state) (indices : list nat) (s : lc_state) (ao : AO) :
  Forall (fun i => (i < MAX_LOAD_CONTROLS)%nat) indices ->
  idle s -> same_requests s0 s ->
  let r :=
    foldl (fun (acc : lc_state * AO) (i : nat) =>
             let '(s, ao) := Load_Control_State_Machine acc.1 acc.2 i in
             (set_State_Previously s
                (<[i := Load_Control_State s !!! i]>
                   (Load_Control_State_Previously s))
                (initialized s), ao))
          (s, ao) indices in
  r.2 = ao /\ idle r.1 /\ same_requests s0 r.1.
Proof.
  cbn zeta. revert s ao.
  induction indices as [| i rest IH]; intros s ao Hall Hidle Hsame.
  - split; [reflexivity | split; assumption].
  - inversion Hall as [| ? ? Hi Hrest]; subst. cbn [foldl fst snd].
    pose proof (idle_tick s0 s ao i Hi Hidle Hsame) as (Hao & Hid & Hsm & _).
    cbn zeta in Hao, Hid, Hsm.
    destruct (Load_Control_State_Machine s ao i) as [s' ao'].
    cbn [fst snd] in *. subst ao'.
    apply IH; [exact Hrest | exact Hid | exact Hsm].
Qed.

Lemma idle_handler (s0 : lc_state) (now : BACNET_DATE_TIME)
    (s : lc_state) (ao : AO) :
  idle s -> same_requests s0 s ->
  let r := Load_Control_State_Machine_Handler now s ao in
  r.2 = ao /\ idle r.1 /\ same_requests s0 r.1.
Proof.
  intros Hidle Hsame. cbn zeta. unfold Load_Control_State_Machine_Handler.
  apply idle_loop.
  - apply Forall_forall. intros i Hi. apply elem_of_seq in Hi. lia.
  - destruct (negb (initialized s)); [| exact Hidle].
    intros k Hk. destruct (Hidle k Hk) as (_ & Hf). cbn.
    split; [| exact Hf]. unfold MAX_LOAD_CONTROLS in Hk.
    do 4 (destruct k as [| k]; [reflexivity |]). lia.
  - destruct (negb (initialized s)); exact Hsame.
Qed.

(** X12.  An object whose instances are all inactive with no start time
    written stays so however often the handler runs and whatever the clock
    reads: the output is not commanded and no request, level, time or flag
    changes. *)
Theorem idle_object_stays_idle
    (nows : list BACNET_DATE_TIME) (s : lc_state) (ao : AO) :
  idle s ->
  let r := ticks nows s ao in
  r.2 = ao /\ idle r.1 /\ same_requests s r.1.
Proof.
  intros Hidle. cbn zeta. unfold ticks.
  assert (G : forall s1 ao1, idle s1 -> same_requests s s1 ->
            let r := foldl (fun (acc : lc_state * AO) now =>
                              Load_Control_State_Machine_Handler now acc.1
                                acc.2) (s1, ao1) nows in
            r.2 = ao1 /\ idle r.1 /\ same_requests s r.1).
  { induction nows as [| now rest IH]; intros s1 ao1 H1 H2; cbn zeta.
    - split; [reflexivity | split; assumption].
    - cbn [foldl fst snd].
      pose proof (idle_handler s now s1 ao1 H1 H2) as (Hao & Hid & Hsm).
      cbn zeta in Hao, Hid, Hsm.
      destruct (Load_Control_State_Machine_Handler now s1 ao1) as [s' ao'].
      cbn [fst snd] in *. subst ao'. apply IH; assumption. }
  apply G; [exact Hidle | apply same_requests_refl].
Qed.


(** X16.  For a request by level, [Requested_Shed_Level_Value] takes
    the value of the last shed level that is at most the requested one:
    with the three levels [a], [b], [c] it is 70 when [c <= level],
    otherwise 80 when [b <= level], otherwise 90, also when the request is
    below [a]. *)
Theorem level_request_takes_last_matching_level
    (s : lc_state) (k : nat) (level a b c : Z) :
  Requested_Shed_Level s !!! k = Level level ->
  Shed_Levels s !!! k = [a; b; c] ->
  Requested_Shed_Level_Value s k =
    Ieee.of_Z32 (if c <=? level then 70
                 else if b <=? level then 80
                 else 90).
Proof.
  intros Hr Hl. unfold Requested_Shed_Level_Value. rewrite Hr, Hl.
  cbn [foldl seq MAX_SHED_LEVELS].
  change ([a; b; c] !!! 0%nat) with a.
  change ([a; b; c] !!! 1%nat) with b.
  change ([a; b; c] !!! 2%nat) with c.
  destruct (a <=? level), (b <=? level), (c <=? level); reflexivity.
Qed.


(** X14.  While a shed is under way (NON_COMPLIANT or COMPLIANT) and its
    end time has not passed, a tick that finds a written flag sends the
    instance back to REQUEST_PENDING: the end time is recomputed, the flags
    stay set for the next tick, and the levels, the start time and the
    output are untouched. *)
Theorem written_flag_sends_shed_back_to_pending
    (s : lc_state) (ao : AO) (k : nat) :
  lc_wf s -> (k < MAX_LOAD_CONTROLS)%nat ->
  Load_Control_Enable s !!! k = true ->
  Load_Control_State s !!! k = SHED_NON_COMPLIANT \/
  Load_Control_State s !!! k = SHED_COMPLIANT ->
  0 <= datetime_compare
         (datetime_add_minutes (Start_Time s !!! k) (Shed_Duration s !!! k))
         (Current_Time s) ->
  (Load_Control_Request_Written s !!! k : bool) = true \/
  (Start_Time_Property_Written s !!! k : bool) = true ->
  let r := Load_Control_State_Machine s ao k in
  Load_Control_State r.1 !!! k = SHED_REQUEST_PENDING /\
  r.2 = ao /\
  Load_Control_Request_Written r.1 = Load_Control_Request_Written s /\
  Start_Time_Property_Written r.1 = Start_Time_Property_Written s /\
  Expected_Shed_Level r.1 = Expected_Shed_Level s /\
  Actual_Shed_Level r.1 = Actual_Shed_Level s /\
  Start_Time r.1 = Start_Time s /\
  End_Time r.1 =
    <[k := datetime_add_minutes (Start_Time s !!! k) (Shed_Duration s !!! k)]>
      (End_Time s).
Proof.
  intros Hwf Hk Hen Hst Hend Hw. cbn zeta.
  destruct Hwf as (L1 & L2 & L3 & L4 & L5 & L6 & L7 & L8 & L9).
  unfold Load_Control_State_Machine. rewrite Hen. cbn [negb].
  assert (Hor : (Load_Control_Request_Written s !!! k : bool) ||
                Start_Time_Property_Written s !!! k = true)
    by (destruct Hw as [-> | ->]; [reflexivity | apply orb_true_r]).
  destruct Hst as [-> | ->].
  - unfold non_compliant, update_End_Time.
    cbn [End_Time Current_Time set_End_Time Load_Control_Request_Written
         Start_Time_Property_Written].
    rewrite list_lookup_total_insert_eq by lia.
    destruct (Z.ltb_spec
                (datetime_compare
                   (datetime_add_minutes (Start_Time s !!! k)
                      (Shed_Duration s !!! k)) (Current_Time s)) 0); [lia |].
    rewrite Hor. cbn [fst snd]. cbn.
    rewrite list_lookup_total_insert_eq by lia. repeat split.
  - unfold compliant, update_End_Time.
    cbn [End_Time Current_Time set_End_Time Load_Control_Request_Written
         Start_Time_Property_Written].
    rewrite list_lookup_total_insert_eq by lia.
    destruct (Z.ltb_spec
                (datetime_compare
                   (datetime_add_minutes (Start_Time s !!! k)
                      (Shed_Duration s !!! k)) (Current_Time s)) 0); [lia |].
    rewrite Hor. cbn [fst snd]. cbn.
    rewrite list_lookup_total_insert_eq by lia. repeat split.
Qed.

(** X15.  A pending instance whose request was written with the default
    level goes INACTIVE at the tick, which clears the request flag and
    nothing else; the start-time flag is kept, so when it is set the next
    tick takes the instance back to REQUEST_PENDING. *)
Theorem default_level_cancels_pending_request
    (s : lc_state) (ao : AO) (k : nat) :
  lc_wf s -> (k < MAX_LOAD_CONTROLS)%nat ->
  Load_Control_Enable s !!! k = true ->
  Load_Control_State s !!! k = SHED_REQUEST_PENDING ->
  cancels_request s k = true ->
  let r := Load_Control_State_Machine s ao k in
  let r2 := Load_Control_State_Machine r.1 r.2 k in
  Load_Control_State r.1 !!! k = SHED_INACTIVE /\
  r.2 = ao /\
  Load_Control_Request_Written r.1
    = <[k := false]> (Load_Control_Request_Written s) /\
  Start_Time_Property_Written r.1 = Start_Time_Property_Written s /\
  Expected_Shed_Level r.1 = Expected_Shed_Level s /\
  Actual_Shed_Level r.1 = Actual_Shed_Level s /\
  Start_Time r.1 = Start_Time s /\ End_Time r.1 = End_Time s /\
  Load_Control_State r2.1 !!! k =
    (if (Start_Time_Property_Written s !!! k : bool)
     then SHED_REQUEST_PENDING else SHED_INACTIVE) /\
  r2.2 = ao.
Proof.
  intros Hwf Hk Hen Hst Hc. cbn zeta.
  destruct Hwf as (L1 & L2 & L3 & L4 & L5 & L6 & L7 & L8 & L9).
  unfold cancels_request in Hc. apply andb_prop in Hc as [Hw Hd].
  assert (Hfirst :
    Load_Control_State_Machine s ao k =
    (enter (set_Load_Control_Request_Written s
              (<[k := false]> (Load_Control_Request_Written s)))
       k SHED_INACTIVE, ao)).
  { unfold Load_Control_State_Machine. rewrite Hen, Hst. cbn [negb].
    unfold request_pending. rewrite Hw.
    cbn [Requested_Shed_Level set_Load_Control_Request_Written].
    destruct (Requested_Shed_Level s !!! k); rewrite Hd;
      cbn [andb Load_Control_State enter set_Load_Control_State
           set_Load_Control_Request_Written];
      rewrite list_lookup_total_insert_eq by lia; reflexivity. }
  rewrite Hfirst. cbn [fst snd].
  split; [cbn; apply list_lookup_total_insert_eq; lia |].
  split; [reflexivity |]. do 6 (split; [reflexivity |]).
  unfold Load_Control_State_Machine.
  cbn [Load_Control_Enable Load_Control_State enter set_Load_Control_State
       set_Load_Control_Request_Written].
  rewrite Hen. cbn [negb].
  rewrite list_lookup_total_insert_eq by lia.
  unfold inactive.
  cbn [Start_Time_Property_Written enter set_Load_Control_State
       set_Load_Control_Request_Written].
  destruct (Start_Time_Property_Written s !!! k); cbn [fst snd].
  - split; [| reflexivity]. cbn.
    apply list_lookup_total_insert_eq. rewrite !length_insert. lia.
  - split; [| reflexivity]. cbn.
    apply list_lookup_total_insert_eq. lia.
Qed.

End MachineFacts.

Section WriteFacts.

Variable MAX_BACNET_APPLICATION_TAG : Z.

Local Abbreviation Load_Control_Write_Property :=
  (LoadControl.Load_Control_Write_Property MAX_BACNET_APPLICATION_TAG).
Local Abbreviation write_dispatch :=
  (LoadControl.write_dispatch MAX_BACNET_APPLICATION_TAG).
Local Abbreviation first_decode :=
  (fun (wp_data : BACNET_WRITE_PROPERTY_DATA) value =>
     bacapp_decode_application_data MAX_BACNET_APPLICATION_TAG
       (application_data wp_data) (application_data_len wp_data) value).

(** A request that passes the checks in front of the [switch]. *)
Lemma write_reaches_dispatch
    (wp_data : BACNET_WRITE_PROPERTY_DATA)
    (value v : BACNET_APPLICATION_DATA_VALUE) (len : Z) (s : lc_state) :
  0 <= application_data_len wp_data ->
  first_decode wp_data value = (len, v) ->
  0 <= len ->
  object_property wp_data = PROP_SHED_LEVELS \/
  array_index wp_data = BACNET_ARRAY_ALL ->
  Load_Control_Write_Property (Some wp_data) value s
  = write_dispatch wp_data v len s.
Proof.
  intros Hl Hd Hn Hp. unfold LoadControl.Load_Control_Write_Property.
  destruct (Z.ltb_spec (application_data_len wp_data) 0); [lia |].
  rewrite Hd.
  destruct (Z.ltb_spec len 0); [lia |].
  destruct Hp as [Hp | Hp].
  - rewrite Hp. reflexivity.
  - rewrite Hp, Z.eqb_refl.
    destruct (object_property wp_data); reflexivity.
Qed.

Ltac split_write :=
  repeat match goal with
         | |- context [let (_, _) := ?c in _] => destruct c
         | |- context [if ?c then _ else _] => destruct c
         | |- context [match ?p with PROP_OBJECT_IDENTIFIER => _ | _ => _ end] =>
             destruct p
         end.

Lemma dispatch_failure_changes_nothing
    (wp_data : BACNET_WRITE_PROPERTY_DATA)
    (v : BACNET_APPLICATION_DATA_VALUE) (len : Z) (s : lc_state) :
  wr_status (write_dispatch wp_data v len s) = false ->
  wr_state (write_dispatch wp_data v len s) = s.
Proof.
  unfold LoadControl.write_dispatch, write_property_type_valid.
  split_write; cbn [wr_status wr_state]; intros; first [reflexivity | discriminate].
Qed.

(** X17.  A [Load_Control_Write_Property] that returns [false] has
    changed nothing in the object. *)
Theorem failed_write_changes_nothing
    (wp_data : option BACNET_WRITE_PROPERTY_DATA)
    (value : BACNET_APPLICATION_DATA_VALUE) (s : lc_state) :
  let r := Load_Control_Write_Property wp_data value s in
  wr_status r = false -> wr_state r = s.
Proof.
  cbn zeta. unfold LoadControl.Load_Control_Write_Property.
  destruct wp_data as [wp_data |]; [| reflexivity].
  destruct (application_data_len wp_data <? 0); [reflexivity |].
  destruct (bacapp_decode_application_data _ _ _ _) as [len v].
  destruct (len <? 0); [reflexivity |].
  match goal with
  | |- context [if ?c then _ else _] => destruct c; [reflexivity |]
  end.
  apply dispatch_failure_changes_nothing.
Qed.


Lemma dispatch_footprint
    (wp_data : BACNET_WRITE_PROPERTY_DATA)
    (v : BACNET_APPLICATION_DATA_VALUE) (len : Z) (s : lc_state) :
  let s' := wr_state (write_dispatch wp_data v len s) in
  Present_Value s' = Present_Value s /\
  Expected_Shed_Level s' = Expected_Shed_Level s /\
  Actual_Shed_Level s' = Actual_Shed_Level s /\
  End_Time s' = End_Time s /\
  Current_Time s' = Current_Time s /\
  Full_Duty_Baseline s' = Full_Duty_Baseline s /\
  Load_Control_State s' = Load_Control_State s /\
  Load_Control_State_Previously s' = Load_Control_State_Previously s /\
  initialized s' = initialized s /\
  (forall j, (Load_Control_Request_Written s !!! j : bool) = true ->
             (Load_Control_Request_Written s' !!! j : bool) = true) /\
  (forall j, (Start_Time_Property_Written s !!! j : bool) = true ->
             (Start_Time_Property_Written s' !!! j : bool) = true).
Proof.
  cbn zeta. unfold LoadControl.write_dispatch, write_property_type_valid.
  split_write; cbn [wr_state];
    (repeat split; try reflexivity; intros j Hj; cbn;
     first [exact Hj | apply lookup_insert_same; exact Hj]).
Qed.

Lemma write_footprint
    (wp_data : option BACNET_WRITE_PROPERTY_DATA)
    (value : BACNET_APPLICATION_DATA_VALUE) (s : lc_state) :
  let s' := wr_state (Load_Control_Write_Property wp_data value s) in
  Present_Value s' = Present_Value s /\
  Expected_Shed_Level s' = Expected_Shed_Level s /\
  Actual_Shed_Level s' = Actual_Shed_Level s /\
  End_Time s' = End_Time s /\
  Current_Time s' = Current_Time s /\
  Full_Duty_Baseline s' = Full_Duty_Baseline s /\
  Load_Control_State s' = Load_Control_State s /\
  Load_Control_State_Previously s' = Load_Control_State_Previously s /\
  initialized s' = initialized s /\
  (forall j, (Load_Control_Request_Written s !!! j : bool) = true ->
             (Load_Control_Request_Written s' !!! j : bool) = true) /\
  (forall j, (Start_Time_Property_Written s !!! j : bool) = true ->
             (Start_Time_Property_Written s' !!! j : bool) = true).
Proof.
  cbn zeta. unfold LoadControl.Load_Control_Write_Property.
  destruct wp_data as [wp_data |];
    [| cbn [wr_state]; repeat split; auto].
  destruct (application_data_len wp_data <? 0);
    [cbn [wr_state]; repeat split; auto |].
  destruct (bacapp_decode_application_data _ _ _ _) as [len v].
  destruct (len <? 0); [cbn [wr_state]; repeat split; auto |].
  destruct (match object_property wp_data with
            | PROP_SHED_LEVELS => false
            | _ => negb (array_index wp_data =? BACNET_ARRAY_ALL)
            end); [cbn [wr_state]; repeat split; auto |].
  apply dispatch_footprint.
Qed.

(** X18.  No write to a valid instance, accepted or not, changes the
    present value, the expected and actual levels, the end times, the
    clock reading, the baselines or the states of the machine, and no such
    write clears a written flag. *)
Theorem write_leaves_the_state_machine_alone
    (wp_data : BACNET_WRITE_PROPERTY_DATA)
    (value : BACNET_APPLICATION_DATA_VALUE) (s : lc_state) :
  Load_Control_Valid_Instance (object_instance wp_data) = true ->
  let s' := wr_state (Load_Control_Write_Property (Some wp_data) value s) in
  Present_Value s' = Present_Value s /\
  Expected_Shed_Level s' = Expected_Shed_Level s /\
  Actual_Shed_Level s' = Actual_Shed_Level s /\
  End_Time s' = End_Time s /\
  Current_Time s' = Current_Time s /\
  Full_Duty_Baseline s' = Full_Duty_Baseline s /\
  Load_Control_State s' = Load_Control_State s /\
  Load_Control_State_Previously s' = Load_Control_State_Previously s /\
  initialized s' = initialized s /\
  (forall j, (Load_Control_Request_Written s !!! j : bool) = true ->
             (Load_Control_Request_Written s' !!! j : bool) = true) /\
  (forall j, (Start_Time_Property_Written s !!! j : bool) = true ->
             (Start_Time_Property_Written s' !!! j : bool) = true).
Proof. intros _. apply write_footprint. Qed.



(** X20.  A write of an unsigned value to ShedLevels of a valid
    instance: element 0 is refused with WRITE_ACCESS_DENIED; the whole
    array is accepted and stores nothing; element [1..MAX_SHED_LEVELS]
    stores the value, cut to 32 bits, in that element of the instance and
    nowhere else; a larger index is refused with OTHER. *)
Theorem shed_levels_element_write
    (wp_data : BACNET_WRITE_PROPERTY_DATA)
    (value v : BACNET_APPLICATION_DATA_VALUE) (len : Z) (s : lc_state) :
  object_property wp_data = PROP_SHED_LEVELS ->
  0 <= array_index wp_data ->
  0 <= application_data_len wp_data ->
  first_decode wp_data value = (len, v) ->
  0 <= len ->
  tag v = BACNET_APPLICATION_TAG_UNSIGNED_INT ->
  Load_Control_Valid_Instance (object_instance wp_data) = true ->
  let k := Load_Control_Instance_To_Index (object_instance wp_data) in
  levels_in_object s k ->
  let r := Load_Control_Write_Property (Some wp_data) value s in
  let i := array_index wp_data in
  if i =? 0 then
    wr_status r = false /\ wr_state r = s /\
    error_code <$> wr_data r = Some ERROR_CODE_WRITE_ACCESS_DENIED
  else if i =? BACNET_ARRAY_ALL then
    wr_status r = true /\ wr_state r = s
  else if i <=? Z.of_nat MAX_SHED_LEVELS then
    wr_status r = true /\
    wr_state r =
      set_Shed_Levels s
        (<[k := <[Z.to_nat (i - 1) := to_uint32 (Unsigned_Int (type v))]>
                  (Shed_Levels s !!! k)]> (Shed_Levels s))
  else
    wr_status r = false /\ wr_state r = s /\
    error_code <$> wr_data r = Some ERROR_CODE_OTHER.
Proof.
  intros Hp H0 Hl Hd Hn Ht _ k0 _. subst k0. cbn zeta.
  rewrite (write_reaches_dispatch wp_data value v len s Hl Hd Hn (or_introl Hp)).
  unfold LoadControl.write_dispatch, write_property_type_valid.
  rewrite Hp, Ht, Z.eqb_refl.
  destruct (array_index wp_data =? 0); [repeat split |].
  destruct (array_index wp_data =? BACNET_ARRAY_ALL); [repeat split |].
  destruct (array_index wp_data <=? Z.of_nat MAX_SHED_LEVELS); repeat split.
Qed.

End WriteFacts.

Section WriteThenTick.

Variable MAX_BACNET_APPLICATION_TAG : Z.
Context {clock : DateTimeOps} {AO : Type} {ao_ops : AnalogOutput AO}.

Local Abbreviation Load_Control_Write_Property :=
  (LoadControl.Load_Control_Write_Property MAX_BACNET_APPLICATION_TAG).
Local Abbreviation first_decode :=
  (fun (wp_data : BACNET_WRITE_PROPERTY_DATA) value =>
     bacapp_decode_application_data MAX_BACNET_APPLICATION_TAG
       (application_data wp_data) (application_data_len wp_data) value).

(** X21.  Writing FALSE to Enable is accepted and leaves the state as it
    is; the next tick of the instance makes it INACTIVE, without
    relinquishing the output. *)
Theorem disabling_write_stops_the_shed
    (wp_data : BACNET_WRITE_PROPERTY_DATA)
    (value v : BACNET_APPLICATION_DATA_VALUE) (len : Z)
    (s : lc_state) (ao : AO) :
  object_property wp_data = PROP_ENABLE ->
  array_index wp_data = BACNET_ARRAY_ALL ->
  0 <= application_data_len wp_data ->
  first_decode wp_data value = (len, v) ->
  0 <= len ->
  tag v = BACNET_APPLICATION_TAG_BOOLEAN ->
  Boolean (type v) = false ->
  let k := Load_Control_Instance_To_Index (object_instance wp_data) in
  (k < length (Load_Control_Enable s))%nat ->
  (k < length (Load_Control_State s))%nat ->
  let r := Load_Control_Write_Property (Some wp_data) value s in
  let t := Load_Control_State_Machine (wr_state r) ao k in
  wr_status r = true /\
  Load_Control_State (wr_state r) = Load_Control_State s /\
  Load_Control_State t.1 !!! k = SHED_INACTIVE /\
  t.2 = ao.
Proof.
  intros Hp Hi Hl Hd Hn Ht Hb k Hk1 Hk2. cbn zeta.
  rewrite (write_reaches_dispatch _ wp_data value v len s Hl Hd Hn
             (or_intror Hi)).
  unfold LoadControl.write_dispatch, write_property_type_valid.
  rewrite Hp, Ht, Z.eqb_refl, Hb. cbn [wr_status wr_state].
  split; [reflexivity |]. split; [reflexivity |].
  unfold Load_Control_State_Machine. cbn [Load_Control_Enable set_Load_Control_Enable].
  fold k. rewrite list_lookup_total_insert_eq by exact Hk1. cbn [negb fst snd].
  split; [| reflexivity]. cbn.
  apply list_lookup_total_insert_eq. exact Hk2.
Qed.

(** X22.  Writing a date and a time to StartTime of an enabled, inactive
    instance stores them and sets the start-time flag; the next tick takes
    the instance to REQUEST_PENDING with the request as its expected level
    and the default as its actual level, leaves the flag set and does not
    command the output. *)
Theorem start_time_write_arms_the_request
    (wp_data : BACNET_WRITE_PROPERTY_DATA)
    (value v1 v2 : BACNET_APPLICATION_DATA_VALUE) (n1 n2 : Z)
    (s : lc_state) (ao : AO) :
  object_property wp_data = PROP_START_TIME ->
  array_index wp_data = BACNET_ARRAY_ALL ->
  0 <= application_data_len wp_data ->
  first_decode wp_data value = (n1, v1) ->
  0 <= n1 ->
  tag v1 = BACNET_APPLICATION_TAG_DATE ->
  bacapp_decode_application_data MAX_BACNET_APPLICATION_TAG
    (drop (Z.to_nat n1) (application_data wp_data))
    (application_data_len wp_data - n1) v1 = (n2, v2) ->
  n2 <> 0 ->
  tag v2 = BACNET_APPLICATION_TAG_TIME ->
  let k := Load_Control_Instance_To_Index (object_instance wp_data) in
  (k < MAX_LOAD_CONTROLS)%nat -> lc_wf s ->
  Load_Control_Enable s !!! k = true ->
  Load_Control_State s !!! k = SHED_INACTIVE ->
  let r := Load_Control_Write_Property (Some wp_data) value s in
  let t := Load_Control_State_Machine (wr_state r) ao k in
  wr_status r = true /\
  Start_Time (wr_state r) !!! k
    = mkDateTime (Date (type v1)) (Time (type v2)) /\
  (Start_Time_Property_Written (wr_state r) !!! k : bool) = true /\
  Load_Control_State t.1 !!! k = SHED_REQUEST_PENDING /\
  Expected_Shed_Level t.1 !!! k = Requested_Shed_Level s !!! k /\
  Actual_Shed_Level t.1 !!! k
    = Shed_Level_Default_Set (shed_type (Requested_Shed_Level s !!! k)) /\
  (Start_Time_Property_Written t.1 !!! k : bool) = true /\
  t.2 = ao.
Proof.
  intros Hp Hi Hl Hd1 Hn1 Ht1 Hd2 Hn2 Ht2 k Hk Hwf Hen Hst. cbn zeta.
  destruct Hwf as (L1 & L2 & L3 & L4 & L5 & L6 & L7 & L8 & L9).
  rewrite (write_reaches_dispatch _ wp_data value v1 n1 s Hl Hd1 Hn1
             (or_intror Hi)).
  unfold LoadControl.write_dispatch, write_property_type_valid.
  rewrite Hp, Ht1, Z.eqb_refl. cbn [negb]. rewrite Hd2.
  destruct (Z.eqb_spec n2 0) as [? | _]; [contradiction |]. cbn [negb].
  rewrite Ht2, Z.eqb_refl. cbn [wr_status wr_state]. fold k.
  split; [reflexivity |].
  split; [cbn; apply list_lookup_total_insert_eq; lia |].
  split; [cbn; apply list_lookup_total_insert_eq; lia |].
  unfold Load_Control_State_Machine.
  cbn [Load_Control_Enable Load_Control_State set_Start_Time
       set_Start_Time_Property_Written].
  rewrite Hen, Hst. cbn [negb]. unfold inactive.
  cbn [Start_Time_Property_Written set_Start_Time
       set_Start_Time_Property_Written].
  rewrite list_lookup_total_insert_eq by lia. cbn [fst snd].
  cbn. rewrite !list_lookup_total_insert_eq by lia. repeat split.
Qed.


Lemma handler_keeps_present_value
    (now : BACNET_DATE_TIME) (s : lc_state) (ao : AO) :
  Present_Value (Load_Control_State_Machine_Handler now s ao).1
  = Present_Value s.
Proof.
  unfold Load_Control_State_Machine_Handler.
  set (s0 := set_Current_Time _ now).
  assert (H0 : Present_Value s0 = Present_Value s)
    by (subst s0; destruct (negb (initialized s)); reflexivity).
  clearbody s0. rewrite <- H0. clear H0.
  generalize (seq 0 MAX_LOAD_CONTROLS). intros l. revert s0 ao.
  induction l as [| i l IH]; intros s0 ao; [reflexivity |].
  cbn [foldl fst snd].
  pose proof (tick_frame s0 ao i) as (_ & _ & Hpv & _).
  destruct (Load_Control_State_Machine s0 ao i) as [s1 ao1].
  cbn [fst] in Hpv. rewrite IH. cbn. exact Hpv.
Qed.

(** X13.  [Load_Control_Present_Value] answers the same, for every
    instance asked about, before and after a run of the handler and before
    and after a write to a valid instance: neither ever stores a present
    value. *)
Theorem present_value_is_never_updated
    (now : BACNET_DATE_TIME) (s : lc_state) (ao : AO)
    (wp_data : BACNET_WRITE_PROPERTY_DATA)
    (value : BACNET_APPLICATION_DATA_VALUE) (instance : Z) :
  Load_Control_Valid_Instance (object_instance wp_data) = true ->
  Load_Control_Present_Value
    (Load_Control_State_Machine_Handler now s ao).1 instance
  = Load_Control_Present_Value s instance /\
  Load_Control_Present_Value
    (wr_state (Load_Control_Write_Property (Some wp_data) value s)) instance
  = Load_Control_Present_Value s instance.
Proof.
  intros _. unfold Load_Control_Present_Value.
  rewrite handler_keeps_present_value.
  split; [reflexivity |].
  pose proof (write_footprint MAX_BACNET_APPLICATION_TAG (Some wp_data)
                value s) as (Hpv & _).
  cbn zeta in Hpv. rewrite Hpv. reflexivity.
Qed.

End WriteThenTick.

Import Examples.


Lemma output_commanded_only_for_compliance_witness :
  let s := shedding SHED_REQUEST_PENDING (morning 10 1) in
  let r := Load_Control_State_Machine s ao_idle 1 in
  r.2 = ao_idle \/
  (Load_Control_State s !!! 1%nat <> SHED_COMPLIANT /\
   Load_Control_State r.1 !!! 1%nat = SHED_COMPLIANT /\
   r.2 = Analog_Output_Present_Value_Set ao_idle 1
           (Requested_Shed_Level_Value s 1) 4) \/
  (Load_Control_State s !!! 1%nat = SHED_COMPLIANT /\
   Load_Control_State r.1 !!! 1%nat = SHED_INACTIVE /\
   r.2 = Analog_Output_Present_Value_Relinquish ao_idle 1 4).
Proof.
  refine (output_commanded_only_for_compliance
            (shedding SHED_REQUEST_PENDING (morning 10 1)) ao_idle 1 _).
  simpl. lia.
Defined.

Lemma idle_object_stays_idle_witness :
  let r := ticks [morning 9 0; morning 9 1] Load_Control_Init ao_idle in
  r.2 = ao_idle /\ idle r.1 /\ same_requests Load_Control_Init r.1.
Proof.
  refine (idle_object_stays_idle [morning 9 0; morning 9 1]
            Load_Control_Init ao_idle _).
  intros k Hk. unfold MAX_LOAD_CONTROLS in Hk.
  do 4 (destruct k as [| k]; [split; reflexivity |]). lia.
Defined.

Lemma level_request_takes_last_matching_level_witness :
  Requested_Shed_Level_Value (shedding SHED_INACTIVE (morning 9 0)) 1
  = Ieee.of_Z32 80.
Proof.
  refine (level_request_takes_last_matching_level
            (shedding SHED_INACTIVE (morning 9 0)) 1 2 1 2 3 _ _);
    reflexivity.
Defined.

Lemma written_flag_sends_shed_back_to_pending_witness :
  let s := rescheduled SHED_COMPLIANT (morning 10 5) in
  let r := Load_Control_State_Machine s ao_shed 1 in
  Load_Control_State r.1 !!! 1%nat = SHED_REQUEST_PENDING /\
  r.2 = ao_shed /\
  (Start_Time_Property_Written r.1 !!! 1%nat : bool) = true.
Proof.
  cbn zeta.
  assert (Hwf : lc_wf (rescheduled SHED_COMPLIANT (morning 10 5)))
    by (repeat split).
  assert (Hk : (1 < MAX_LOAD_CONTROLS)%nat)
    by (unfold MAX_LOAD_CONTROLS; lia).
  assert (Hend :
    0 <= datetime_compare
           (datetime_add_minutes
              (Start_Time (rescheduled SHED_COMPLIANT (morning 10 5))
                 !!! 1%nat)
              (Shed_Duration (rescheduled SHED_COMPLIANT (morning 10 5))
                 !!! 1%nat))
           (Current_Time (rescheduled SHED_COMPLIANT (morning 10 5))))
    by (vm_compute; discriminate).
  destruct (written_flag_sends_shed_back_to_pending
              (rescheduled SHED_COMPLIANT (morning 10 5)) ao_shed 1
              Hwf Hk eq_refl (or_intror eq_refl) Hend (or_intror eq_refl))
    as (H1 & H2 & _ & H4 & _).
  split; [exact H1 |]. split; [exact H2 |]. rewrite H4. reflexivity.
Defined.

Lemma default_level_cancels_pending_request_witness :
  let s := withdrawn (morning 10 1) in
  let r := Load_Control_State_Machine s ao_idle 1 in
  let r2 := Load_Control_State_Machine r.1 r.2 1 in
  Load_Control_State r.1 !!! 1%nat = SHED_INACTIVE /\
  Load_Control_State r2.1 !!! 1%nat = SHED_REQUEST_PENDING /\
  r2.2 = ao_idle.
Proof.
  cbn zeta.
  assert (Hwf : lc_wf (withdrawn (morning 10 1))) by (repeat split).
  assert (Hk : (1 < MAX_LOAD_CONTROLS)%nat)
    by (unfold MAX_LOAD_CONTROLS; lia).
  destruct (default_level_cancels_pending_request
              (withdrawn (morning 10 1)) ao_idle 1
              Hwf Hk eq_refl eq_refl eq_refl)
    as (H1 & _ & _ & _ & _ & _ & _ & _ & H9 & H10).
  split; [exact H1 |]. split; [exact H9 | exact H10].
Defined.

Lemma failed_write_changes_nothing_witness :
  wr_state (Load_Control_Write_Property 16 (Some indexed_duration_30)
              blank_value (shedding SHED_COMPLIANT (morning 10 5)))
  = shedding SHED_COMPLIANT (morning 10 5).
Proof.
  refine (failed_write_changes_nothing 16 (Some indexed_duration_30)
            blank_value (shedding SHED_COMPLIANT (morning 10 5)) _).
  reflexivity.
Defined.

Lemma write_leaves_the_state_machine_alone_witness :
  let s := rescheduled SHED_COMPLIANT (morning 10 5) in
  let s' := wr_state (Load_Control_Write_Property 16 (Some start_time_write)
                        blank_value s) in
  Start_Time s' !!! 1%nat = morning 10 0 /\
  End_Time s' = End_Time s /\
  Load_Control_State s' = Load_Control_State s /\
  (Start_Time_Property_Written s' !!! 1%nat : bool) = true.
Proof.
  cbn zeta.
  assert (Hv : Load_Control_Valid_Instance (object_instance start_time_write)
               = true) by reflexivity.
  destruct (write_leaves_the_state_machine_alone 16 start_time_write
              blank_value (rescheduled SHED_COMPLIANT (morning 10 5)) Hv)
    as (_ & _ & _ & He & _ & _ & Hs & _ & _ & _ & Hf).
  split; [reflexivity |]. split; [exact He |]. split; [exact Hs |].
  apply Hf. reflexivity.
Defined.

Lemma present_value_is_never_updated_witness :
  let s := shedding SHED_COMPLIANT (morning 10 5) in
  Load_Control_Present_Value
    (Load_Control_State_Machine_Handler (morning 10 6) s ao_shed).1 1
  = Load_Control_Present_Value s 1 /\
  Load_Control_Present_Value
    (wr_state (Load_Control_Write_Property 16 (Some disable_write)
                 blank_value s)) 1
  = Load_Control_Present_Value s 1.
Proof.
  refine (present_value_is_never_updated 16 (morning 10 6)
            (shedding SHED_COMPLIANT (morning 10 5)) ao_shed
            disable_write blank_value 1 _).
  reflexivity.
Defined.


Lemma shed_levels_element_write_witness :
  let r := Load_Control_Write_Property 16 (Some shed_level_2_write)
             blank_value Load_Control_Init in
  wr_status r = true /\
  wr_state r =
    set_Shed_Levels Load_Control_Init
      [[1; 2; 3]; [1; 5; 3]; [1; 2; 3]; [1; 2; 3]].
Proof.
  refine (shed_levels_element_write 16 shed_level_2_write blank_value
            (mkValue false 0 2 (V_Unsigned_Int 5)) 2 Load_Control_Init
            _ _ _ _ _ _ _ _).
  - reflexivity.
  - simpl. lia.
  - simpl. lia.
  - reflexivity.
  - lia.
  - reflexivity.
  - reflexivity.
  - split; [vm_compute; lia | reflexivity].
Defined.

Lemma disabling_write_stops_the_shed_witness :
  let s := shedding SHED_COMPLIANT (morning 10 5) in
  let r := Load_Control_Write_Property 16 (Some disable_write)
             blank_value s in
  let t := Load_Control_State_Machine (wr_state r) ao_shed 1 in
  wr_status r = true /\
  Load_Control_State (wr_state r) = Load_Control_State s /\
  Load_Control_State t.1 !!! 1%nat = SHED_INACTIVE /\
  t.2 = ao_shed.
Proof.
  refine (disabling_write_stops_the_shed 16 disable_write blank_value
            (mkValue false 0 1 (V_Boolean false)) 1
            (shedding SHED_COMPLIANT (morning 10 5)) ao_shed
            _ _ _ _ _ _ _ _ _).
  - reflexivity.
  - reflexivity.
  - simpl. lia.
  - reflexivity.
  - lia.
  - reflexivity.
  - reflexivity.
  - vm_compute. lia.
  - vm_compute. lia.
Defined.

Lemma start_time_write_arms_the_request_witness :
  let s := shedding SHED_INACTIVE (morning 9 0) in
  let r := Load_Control_Write_Property 16 (Some start_time_write)
             blank_value s in
  let t := Load_Control_State_Machine (wr_state r) ao_idle 1 in
  wr_status r = true /\
  Start_Time (wr_state r) !!! 1%nat = morning 10 0 /\
  (Start_Time_Property_Written (wr_state r) !!! 1%nat : bool) = true /\
  Load_Control_State t.1 !!! 1%nat = SHED_REQUEST_PENDING /\
  Expected_Shed_Level t.1 !!! 1%nat = Level 2 /\
  Actual_Shed_Level t.1 !!! 1%nat = Level 0 /\
  (Start_Time_Property_Written t.1 !!! 1%nat : bool) = true /\
  t.2 = ao_idle.
Proof.
  refine (start_time_write_arms_the_request 16 start_time_write blank_value
            (mkValue false 0 10 (V_Date (mkDate 2024 1 24 3)))
            (mkValue false 0 11 (V_Time (mkTime 10 0 0 0))) 5 5
            (shedding SHED_INACTIVE (morning 9 0)) ao_idle
            _ _ _ _ _ _ _ _ _ _ _ _ _).
  - reflexivity.
  - reflexivity.
  - simpl. lia.
  - reflexivity.
  - lia.
  - reflexivity.
  - reflexivity.
  - lia.
  - reflexivity.
  - vm_compute. lia.
  - repeat split.
  - reflexivity.
  - reflexivity.
Defined.

End LoadControlObjectTheorems.

Module LoadControlReadTheorems.

Import Datetime Bacapp LoadControl.

Section ReadFacts.

Context {encoders : Encoders} {enums : Enumerations}.

(** X23.  Reading any listed property other than ShedLevels and
    ShedLevelDescriptions with an array index returns [BACNET_STATUS_ERROR]
    with error class PROPERTY and code PROPERTY_IS_NOT_AN_ARRAY. *)
Theorem read_refuses_index_on_scalars
    (rpdata : Rp.BACNET_READ_PROPERTY_DATA) (buffer : list Z)
    (char_string : BACNET_CHARACTER_STRING) (bit_string : BACNET_BIT_STRING)
    (s : lc_state) :
  Rp.application_data rpdata = Some buffer ->
  Rp.application_data_len rpdata <> 0 ->
  Rp.array_index rpdata <> BACNET_ARRAY_ALL ->
  In (Rp.object_property rpdata)
     (Load_Control_Properties_Required ++ Load_Control_Properties_Optional) ->
  Rp.object_property rpdata <> PROP_SHED_LEVELS ->
  Rp.object_property rpdata <> PROP_SHED_LEVEL_DESCRIPTIONS ->
  let r := Load_Control_Read_Property (Some rpdata) char_string bit_string s in
  rd_len r = BACNET_STATUS_ERROR /\
  Rp.error_class <$> rd_data r = Some ERROR_CLASS_PROPERTY /\
  Rp.error_code <$> rd_data r = Some Rp.ERROR_CODE_PROPERTY_IS_NOT_AN_ARRAY.
Proof.
  intros Hb Hl Hi Hp H1 H2. cbn zeta. unfold Load_Control_Read_Property.
  rewrite Hb.
  destruct (Z.eqb_spec (Rp.application_data_len rpdata) 0); [contradiction |].
  destruct (Z.eqb_spec (Rp.array_index rpdata) BACNET_ARRAY_ALL);
    [contradiction |].
  destruct (Rp.object_property rpdata) eqn:E;
    try contradiction;
    try (exfalso; simpl in Hp; intuition discriminate);
    cbv beta zeta;
    repeat match goal with
           | |- context [Load_Control_Object_Name ?a ?b] =>
               destruct (Load_Control_Object_Name a b)
           | |- context [match ?l with Percent _ => _ | _ => _ end] =>
               destruct l
           end;
    cbv beta iota zeta;
    rewrite (proj2 (Z.leb_le 0 (Z.of_nat _)) (Nat2Z.is_nonneg _));
    repeat split.
Qed.


(** X24.  Reading ShedLevels of a valid instance: index 0 gives the
    number of levels; no index gives the three levels of the instance in
    order, or an abort when they do not fit in [MAX_APDU]; index
    [1..MAX_SHED_LEVELS] gives that level alone; a larger index is
    [BACNET_STATUS_ERROR] with INVALID_ARRAY_INDEX and nothing encoded. *)
Theorem read_of_shed_levels_by_index
    (rpdata : Rp.BACNET_READ_PROPERTY_DATA) (buffer : list Z)
    (char_string : BACNET_CHARACTER_STRING) (bit_string : BACNET_BIT_STRING)
    (s : lc_state) :
  Rp.application_data rpdata = Some buffer ->
  Rp.application_data_len rpdata <> 0 ->
  Rp.object_property rpdata = PROP_SHED_LEVELS ->
  0 <= Rp.array_index rpdata ->
  Load_Control_Valid_Instance (Rp.object_instance rpdata) = true ->
  let k := Load_Control_Instance_To_Index (Rp.object_instance rpdata) in
  levels_in_object s k ->
  let r := Load_Control_Read_Property (Some rpdata) char_string bit_string s in
  let i := Rp.array_index rpdata in
  let element (n : nat) :=
    encode_application_unsigned ((Shed_Levels s !!! k) !!! n) in
  let all := element 0%nat ++ element 1%nat ++ element 2%nat in
  if i =? 0 then
    rd_apdu r = encode_application_unsigned (Z.of_nat MAX_SHED_LEVELS) /\
    rd_len r = Z.of_nat (length (rd_apdu r)) /\ rd_data r = Some rpdata
  else if i =? BACNET_ARRAY_ALL then
    if Z.of_nat (length all) <? MAX_APDU then
      rd_apdu r = all /\ rd_len r = Z.of_nat (length all) /\
      rd_data r = Some rpdata
    else
      rd_len r = BACNET_STATUS_ABORT /\
      rd_data r =
        Some (Rp.set_error_code rpdata
                Rp.ERROR_CODE_ABORT_SEGMENTATION_NOT_SUPPORTED)
  else if i <=? Z.of_nat MAX_SHED_LEVELS then
    rd_apdu r = element (Z.to_nat (i - 1)) /\
    rd_len r = Z.of_nat (length (rd_apdu r)) /\ rd_data r = Some rpdata
  else
    rd_len r = BACNET_STATUS_ERROR /\ rd_apdu r = [] /\
    Rp.error_class <$> rd_data r = Some ERROR_CLASS_PROPERTY /\
    Rp.error_code <$> rd_data r = Some Rp.ERROR_CODE_INVALID_ARRAY_INDEX.
Proof.
  intros Hb Hl Hp H0 _ k0 _. subst k0. cbn zeta.
  unfold Load_Control_Read_Property.
  rewrite Hb.
  destruct (Z.eqb_spec (Rp.application_data_len rpdata) 0); [contradiction |].
  rewrite Hp. cbv beta zeta.
  destruct (Rp.array_index rpdata =? 0);
    [cbv beta iota zeta; rewrite andb_false_r; repeat split |].
  destruct (Rp.array_index rpdata =? BACNET_ARRAY_ALL).
  - set (k := Load_Control_Instance_To_Index (Rp.object_instance rpdata)).
    set (e0 := encode_application_unsigned ((Shed_Levels s !!! k) !!! 0%nat)).
    set (e1 := encode_application_unsigned ((Shed_Levels s !!! k) !!! 1%nat)).
    set (e2 := encode_application_unsigned ((Shed_Levels s !!! k) !!! 2%nat)).
    cbn [seq MAX_SHED_LEVELS encode_elements]. fold e0 e1 e2.
    cbv beta iota zeta.
    rewrite !length_app.
    destruct (Z.ltb_spec (Z.of_nat (length e0 + (length e1 + length e2)))
                MAX_APDU) as [Hfit | Hfit].
    + destruct (Z.ltb_spec (0 + Z.of_nat (length e0)) MAX_APDU); [| lia].
      destruct (Z.ltb_spec (0 + Z.of_nat (length e0) + Z.of_nat (length e1))
                  MAX_APDU); [| lia].
      destruct (Z.ltb_spec (0 + Z.of_nat (length e0) + Z.of_nat (length e1)
                            + Z.of_nat (length e2)) MAX_APDU); [| lia].
      rewrite andb_false_r. cbn [rd_apdu rd_len rd_data].
      split; [| split; [lia | reflexivity]].
      change (take (Z.to_nat 0) [] ++ e0) with e0.
      rewrite (take_ge e0) by lia.
      rewrite take_ge by (rewrite length_app; lia).
      rewrite <- app_assoc. reflexivity.
    + destruct (0 + Z.of_nat (length e0) <? MAX_APDU);
        [| rewrite andb_false_r; repeat split].
      destruct (0 + Z.of_nat (length e0) + Z.of_nat (length e1) <? MAX_APDU);
        [| rewrite andb_false_r; repeat split].
      destruct (Z.ltb_spec (0 + Z.of_nat (length e0) + Z.of_nat (length e1)
                            + Z.of_nat (length e2)) MAX_APDU); [lia |].
      rewrite andb_false_r. repeat split.
  - destruct (Rp.array_index rpdata <=? Z.of_nat MAX_SHED_LEVELS);
      cbv beta iota zeta; rewrite andb_false_r; repeat split.
Qed.

(** X25.  The lists that [Load_Control_Property_Lists] hands out are the
    properties [Load_Control_Read_Property] knows: a property outside them
    is refused with UNKNOWN_PROPERTY and nothing encoded, and a listed
    scalar property read without an index returns the number of octets
    encoded and leaves the request as it was. *)
Theorem property_lists_match_read_property
    (rpdata : Rp.BACNET_READ_PROPERTY_DATA) (buffer : list Z)
    (char_string : BACNET_CHARACTER_STRING) (bit_string : BACNET_BIT_STRING)
    (s : lc_state) :
  Rp.application_data rpdata = Some buffer ->
  Rp.application_data_len rpdata <> 0 ->
  let r := Load_Control_Read_Property (Some rpdata) char_string bit_string s in
  let listed :=
    Load_Control_Property_Lists.1.1 ++ Load_Control_Property_Lists.1.2 ++
    Load_Control_Property_Lists.2 in
  (~ In (Rp.object_property rpdata) listed ->
   rd_len r = BACNET_STATUS_ERROR /\ rd_apdu r = [] /\
   Rp.error_class <$> rd_data r = Some ERROR_CLASS_PROPERTY /\
   Rp.error_code <$> rd_data r = Some Rp.ERROR_CODE_UNKNOWN_PROPERTY) /\
  (In (Rp.object_property rpdata) listed ->
   Rp.object_property rpdata <> PROP_SHED_LEVELS ->
   Rp.object_property rpdata <> PROP_SHED_LEVEL_DESCRIPTIONS ->
   Rp.array_index rpdata = BACNET_ARRAY_ALL ->
   rd_len r = Z.of_nat (length (rd_apdu r)) /\ rd_data r = Some rpdata).
Proof.
  intros Hb Hl. cbn zeta. unfold Load_Control_Read_Property.
  rewrite Hb.
  destruct (Z.eqb_spec (Rp.application_data_len rpdata) 0); [contradiction |].
  split.
  - intros Hp.
    destruct (Rp.object_property rpdata);
      try (exfalso; apply Hp; simpl; tauto).
    repeat split.
  - intros Hp H1 H2 Hi. rewrite Hi, Z.eqb_refl.
    destruct (Rp.object_property rpdata) eqn:E;
      try contradiction;
      try (exfalso; simpl in Hp; intuition discriminate);
      cbv beta zeta;
      repeat match goal with
             | |- context [Load_Control_Object_Name ?a ?b] =>
                 destruct (Load_Control_Object_Name a b)
             | |- context [match ?l with Percent _ => _ | _ => _ end] =>
                 destruct l
             end;
      cbv beta iota zeta; rewrite andb_false_r; repeat split.
Qed.

End ReadFacts.

Import Examples.

Lemma read_refuses_index_on_scalars_witness :
  let r := Load_Control_Read_Property
             (Some (read_request PROP_SHED_DURATION 1))
             String.EmptyString [] Load_Control_Init in
  rd_len r = BACNET_STATUS_ERROR /\
  Rp.error_class <$> rd_data r = Some ERROR_CLASS_PROPERTY /\
  Rp.error_code <$> rd_data r = Some Rp.ERROR_CODE_PROPERTY_IS_NOT_AN_ARRAY.
Proof.
  refine (read_refuses_index_on_scalars
            (read_request PROP_SHED_DURATION 1) []
            String.EmptyString [] Load_Control_Init _ _ _ _ _ _).
  - reflexivity.
  - discriminate.
  - discriminate.
  - simpl. do 8 right. left. reflexivity.
  - discriminate.
  - discriminate.
Defined.

Lemma read_of_shed_levels_by_index_witness :
  let r := Load_Control_Read_Property
             (Some (read_request PROP_SHED_LEVELS 2))
             String.EmptyString [] Load_Control_Init in
  rd_apdu r = [0x21; 2] /\ rd_len r = 2 /\
  rd_data r = Some (read_request PROP_SHED_LEVELS 2).
Proof.
  refine (read_of_shed_levels_by_index
            (read_request PROP_SHED_LEVELS 2) []
            String.EmptyString [] Load_Control_Init _ _ _ _ _ _).
  - reflexivity.
  - discriminate.
  - reflexivity.
  - simpl. lia.
  - reflexivity.
  - split; [vm_compute; lia | reflexivity].
Defined.

Lemma property_lists_match_read_property_witness :
  let r := Load_Control_Read_Property
             (Some (read_request PROP_ENABLE BACNET_ARRAY_ALL))
             String.EmptyString [] Load_Control_Init in
  rd_apdu r = [0x11] /\
  rd_len r = Z.of_nat (length (rd_apdu r)) /\
  rd_data r = Some (read_request PROP_ENABLE BACNET_ARRAY_ALL).
Proof.
  cbn zeta. split; [reflexivity |].
  refine (proj2
    (property_lists_match_read_property
       (read_request PROP_ENABLE BACNET_ARRAY_ALL) []
       String.EmptyString [] Load_Control_Init _ _) _ _ _ _).
  - reflexivity.
  - discriminate.
  - simpl. do 10 right. left. reflexivity.
  - discriminate.
  - discriminate.
  - reflexivity.
Defined.

End LoadControlReadTheorems.

(** * The utilities of [bacapp.c] *)

Module BacappUtilityTheorems.

Import Datetime Bacapp.

Section TrimFacts.

Variable trimmedchars : list Ascii.ascii.

Local Abbreviation strchr := (Bacapp.strchr trimmedchars).
Local Abbreviation ltrim_scan := (Bacapp.ltrim_scan trimmedchars).
Local Abbreviation rtrim_scan := (Bacapp.rtrim_scan trimmedchars).
Local Abbreviation ltrim := (Bacapp.ltrim trimmedchars).
Local Abbreviation rtrim := (Bacapp.rtrim trimmedchars).
Local Abbreviation trim := (Bacapp.trim trimmedchars).

Lemma strchr_terminator : strchr Ascii.zero = true.
Proof. reflexivity. Qed.

Lemma ltrim_scan_all (str : list Ascii.ascii) :
  Forall (fun c => strchr c = true) str -> ltrim_scan str = None.
Proof.
  induction 1 as [| c str Hc _ IH]; simpl.
  - reflexivity.
  - rewrite Hc. exact IH.
Qed.

Lemma ltrim_scan_some (str : list Ascii.ascii) :
  Exists (fun c => strchr c = false) str ->
  exists pre c rest,
    ltrim_scan str = Some (c :: rest) /\ str = pre ++ c :: rest /\
    Forall (fun c => strchr c = true) pre /\ strchr c = false.
Proof.
  induction str as [| c str IH]; intros Hex.
  - inversion Hex.
  - simpl. destruct (strchr c) eqn:Hc.
    + assert (Hex' : Exists (fun c => strchr c = false) str).
      { inversion Hex as [? ? Hh | ? ? Ht]; subst; [congruence | exact Ht]. }
      destruct (IH Hex') as (pre & c' & rest & Hs & -> & Hpre & Hc').
      exists (c :: pre), c', rest. repeat split; try assumption.
      constructor; assumption.
    + exists [], c, str. repeat split; [constructor | exact Hc].
Qed.

Lemma rtrim_scan_spec (e : nat) (str : list Ascii.ascii) :
  length str = S e ->
  exists suf,
    str = rtrim_scan str e ++ suf /\
    Forall (fun c => strchr c = true) suf /\
    (rtrim_scan str e = [] \/
     exists r c, rtrim_scan str e = r ++ [c] /\ strchr c = false).
Proof.
  revert str. induction e as [| e IH]; intros str Hlen.
  - destruct str as [| c [| ? ?]]; try discriminate. simpl.
    destruct (strchr c) eqn:Hc.
    + exists [c]. repeat split; [constructor; [exact Hc | constructor] |].
      left. reflexivity.
    + exists []. repeat split; [constructor |]. right. exists [], c.
      split; [reflexivity | exact Hc].
  - destruct (exists_last (l := str)) as (l' & c & ->);
      [intros ->; discriminate |].
    rewrite length_app in Hlen. simpl in Hlen.
    assert (Hl' : length l' = S e) by lia.
    cbn [Bacapp.rtrim_scan].
    assert (Hn : nth (S e) (l' ++ [c]) Ascii.zero = c).
    { rewrite app_nth2 by lia. rewrite Hl', Nat.sub_diag. reflexivity. }
    rewrite Hn.
    destruct (strchr c) eqn:Hc.
    + assert (Ht : take (S e) (l' ++ [c]) = l').
      { rewrite <- Hl'. apply take_app_length. }
      rewrite Ht.
      destruct (IH l' Hl') as (suf & Heq & Hsuf & Hend).
      exists (suf ++ [c]). split; [| split].
      * rewrite app_assoc, <- Heq. reflexivity.
      * apply Forall_app. split; [exact Hsuf |].
        constructor; [exact Hc | constructor].
      * exact Hend.
    + exists []. rewrite app_nil_r. repeat split; [constructor |].
      right. exists l', c. split; [reflexivity | exact Hc].
Qed.

(** X28.  [ltrim] runs off the end of the string, the one case in which
    it returns no string of the buffer, exactly when the string is not
    empty and made of trimmed characters only: the scan takes the
    terminator for a trimmed character. *)
Theorem ltrim_runs_off_a_string_of_trimmed_characters
    (str : list Ascii.ascii) :
  ltrim str = None <->
  str <> [] /\ Forall (fun c => strchr c = true) str.
Proof.
  unfold Bacapp.ltrim. destruct str as [| c str].
  - split; [discriminate | intros [H _]; contradiction].
  - split.
    + intros Hn. split; [discriminate |].
      apply Forall_forall. intros x Hx.
      destruct (strchr x) eqn:Hs; [reflexivity |]. exfalso.
      assert (Hex : Exists (fun c => strchr c = false) (c :: str)).
      { apply Exists_exists. exists x. split; [exact Hx | exact Hs]. }
      destruct (ltrim_scan_some _ Hex) as (? & ? & ? & Hsome & _).
      congruence.
    + intros [_ Hall]. apply ltrim_scan_all. exact Hall.
Qed.

(** X29.  [trim] always finds a result: the string without a prefix and
    a suffix made of trimmed characters only, and such that neither its
    first nor its last character is a trimmed one. *)
Theorem trim_strips_both_ends (str : list Ascii.ascii) :
  exists pre res suf,
    trim str = Some res /\ str = pre ++ res ++ suf /\
    Forall (fun c => strchr c = true) pre /\
    Forall (fun c => strchr c = true) suf /\
    (forall c, head res = Some c -> strchr c = false) /\
    (forall d, last res = Some d -> strchr d = false).
Proof.
  unfold Bacapp.trim, Bacapp.rtrim.
  destruct str as [| c0 str0].
  - exists [], [], []. repeat split; try apply Forall_nil_2; discriminate.
  - set (str := c0 :: str0).
    assert (Hlen : length str = S (length str - 1)) by (subst str; simpl; lia).
    destruct (rtrim_scan_spec (length str - 1) str Hlen)
      as (suf & Heq & Hsuf & Hend).
    set (r := rtrim_scan str (length str - 1)) in *.
    destruct Hend as [Hr | (r' & d & Hr & Hd)].
    + exists [], [], suf. rewrite Hr in *. simpl.
      repeat split; try assumption; try apply Forall_nil_2; discriminate.
    + assert (Hex : Exists (fun c => strchr c = false) r).
      { rewrite Hr. apply Exists_app. right. constructor. exact Hd. }
      destruct (ltrim_scan_some r Hex)
        as (pre & c & rest & Hs & Hsplit & Hpre & Hc).
      exists pre, (c :: rest), suf.
      assert (Hlt : ltrim r = Some (c :: rest)).
      { unfold Bacapp.ltrim. destruct r; [inversion Hex | exact Hs]. }
      split; [exact Hlt |].
      split; [rewrite app_assoc, <- Hsplit; exact Heq |].
      split; [exact Hpre |]. split; [exact Hsuf |].
      split; [intros ? [= <-]; exact Hc |].
      intros x Hx.
      assert (Hl : last r = Some d) by (rewrite Hr; apply last_snoc).
      rewrite Hsplit in Hl.
      rewrite last_app_cons in Hl. congruence.
Qed.

End TrimFacts.

(** X26.  [bacapp_decode_data_len] gives the length of the content for
    the tags from unsigned to object identifier, saturated at [INT_MAX],
    and 0 for NULL, BOOLEAN and every tag it does not know; the result is
    never negative and never more than the length given. *)
Theorem decode_data_len_saturates (tag_data_type len_value_type : Z) :
  0 <= len_value_type ->
  let len := bacapp_decode_data_len tag_data_type len_value_type in
  0 <= len <= 2 ^ 31 - 1 /\ len <= len_value_type /\
  (2 <= tag_data_type <= 12 -> len = Z.min len_value_type (2 ^ 31 - 1)) /\
  (tag_data_type < 2 \/ 12 < tag_data_type -> len = 0).
Proof.
  intros H0. cbn zeta.
  assert (Hc : tag_data_type = 0 \/ tag_data_type = 1 \/
               (2 <= tag_data_type <= 12) \/
               (tag_data_type < 0 \/ 12 < tag_data_type)) by lia.
  unfold bacapp_decode_data_len.
  change (Z.shiftr (Z.lnot 0 `mod` 2 ^ 32) 1) with 2147483647.
  change (2 ^ 31 - 1) with 2147483647.
  destruct Hc as [-> | [-> | [Hc | Hc]]].
  - cbn. lia.
  - cbn. lia.
  - assert (Hk : tag_data_type = 2 \/ tag_data_type = 3 \/
                 tag_data_type = 4 \/ tag_data_type = 5 \/
                 tag_data_type = 6 \/ tag_data_type = 7 \/
                 tag_data_type = 8 \/ tag_data_type = 9 \/
                 tag_data_type = 10 \/ tag_data_type = 11 \/
                 tag_data_type = 12) by lia.
    clear Hc.
    repeat (destruct Hk as [-> | Hk]); try subst tag_data_type;
      cbn [Z.eqb Pos.eqb orb BACNET_APPLICATION_TAG_NULL
           BACNET_APPLICATION_TAG_BOOLEAN BACNET_APPLICATION_TAG_UNSIGNED_INT
           BACNET_APPLICATION_TAG_SIGNED_INT BACNET_APPLICATION_TAG_REAL
           BACNET_APPLICATION_TAG_DOUBLE BACNET_APPLICATION_TAG_OCTET_STRING
           BACNET_APPLICATION_TAG_CHARACTER_STRING
           BACNET_APPLICATION_TAG_BIT_STRING BACNET_APPLICATION_TAG_ENUMERATED
           BACNET_APPLICATION_TAG_DATE BACNET_APPLICATION_TAG_TIME
           BACNET_APPLICATION_TAG_OBJECT_ID];
      destruct (Z.ltb_spec len_value_type 2147483647); lia.
  - unfold BACNET_APPLICATION_TAG_NULL, BACNET_APPLICATION_TAG_BOOLEAN,
      BACNET_APPLICATION_TAG_UNSIGNED_INT, BACNET_APPLICATION_TAG_SIGNED_INT,
      BACNET_APPLICATION_TAG_REAL, BACNET_APPLICATION_TAG_DOUBLE,
      BACNET_APPLICATION_TAG_OCTET_STRING,
      BACNET_APPLICATION_TAG_CHARACTER_STRING,
      BACNET_APPLICATION_TAG_BIT_STRING, BACNET_APPLICATION_TAG_ENUMERATED,
      BACNET_APPLICATION_TAG_DATE, BACNET_APPLICATION_TAG_TIME,
      BACNET_APPLICATION_TAG_OBJECT_ID.
    rewrite !(proj2 (Z.eqb_neq tag_data_type _)) by lia. cbn [orb]. lia.
Qed.

Section CopyFacts.

Variable BACNET_APPLICATION_TAG_EMPTYLIST : Z.
Variable same_in_other_arms :
  BACNET_APPLICATION_DATA_VALUE -> BACNET_APPLICATION_DATA_VALUE -> bool.
Variable copied_in_other_arms : value_type -> value_type -> value_type.
Context {clock : DateTimeOps}.

Local Abbreviation bacapp_same_value :=
  (Bacapp.bacapp_same_value BACNET_APPLICATION_TAG_EMPTYLIST
     same_in_other_arms).
Local Abbreviation bacapp_copy := (Bacapp.bacapp_copy copied_in_other_arms).

Lemma islessgreater_irrefl (x : spec_float) : Ieee.islessgreater x x = false.
Proof.
  unfold Ieee.islessgreater, SFltb.
  destruct (SFcompare x x) as [[| |] |] eqn:E; try reflexivity;
    exfalso; pose proof (BacappTheorems.SFcompare_antisym x x) as H;
    rewrite E in H; simpl in H; discriminate.
Qed.

Ltac known_tag :=
  cbn [Z.eqb Pos.eqb negb Boolean Unsigned_Int Real Double Date Time];
  rewrite ?eqb_reflx, ?Z.eqb_refl, ?islessgreater_irrefl;
  cbn [negb]; intros _; reflexivity.

(** X27.  [bacapp_copy] of two values succeeds for every tag and gives
    the destination the tag of the source, keeping the destination's
    context fields.  For the tags NULL, BOOLEAN, UNSIGNED_INT, REAL,
    DOUBLE, DATE, TIME and EMPTYLIST the copy is the same value as the
    source, in the sense of [bacapp_same_value], whatever the arms of the
    other types do (for the date and the time: with a clock that finds a
    value equal to itself). *)
Theorem copy_is_the_same_value_for_known_tags
    (dest src : BACNET_APPLICATION_DATA_VALUE) :
  (forall d, datetime_compare_date d d = 0) ->
  (forall t, datetime_compare_time t t = 0) ->
  let r := bacapp_copy (Some dest) (Some src) in
  r.1 = true /\
  exists copy,
    r.2 = Some copy /\ tag copy = tag src /\
    context_specific copy = context_specific dest /\
    context_tag copy = context_tag dest /\
    (In (tag src)
        [BACNET_APPLICATION_TAG_NULL; BACNET_APPLICATION_TAG_BOOLEAN;
         BACNET_APPLICATION_TAG_UNSIGNED_INT; BACNET_APPLICATION_TAG_REAL;
         BACNET_APPLICATION_TAG_DOUBLE; BACNET_APPLICATION_TAG_DATE;
         BACNET_APPLICATION_TAG_TIME; BACNET_APPLICATION_TAG_EMPTYLIST] ->
     bacapp_same_value copy src = true).
Proof.
  intros Hdate Htime. cbn zeta.
  destruct src as [cs ct t ty]. destruct dest as [dcs dct dt dty].
  unfold Bacapp.bacapp_copy. cbn [fst snd tag type].
  split; [reflexivity |].
  eexists. split; [reflexivity |].
  unfold BACNET_APPLICATION_TAG_NULL, BACNET_APPLICATION_TAG_BOOLEAN,
    BACNET_APPLICATION_TAG_UNSIGNED_INT, BACNET_APPLICATION_TAG_REAL,
    BACNET_APPLICATION_TAG_DOUBLE, BACNET_APPLICATION_TAG_DATE,
    BACNET_APPLICATION_TAG_TIME.
  assert (Hc : t = 0 \/ t = 1 \/ t = 2 \/ t = 4 \/ t = 5 \/ t = 10 \/
               t = 11 \/
               (t <> 0 /\ t <> 1 /\ t <> 2 /\ t <> 4 /\ t <> 5 /\
                t <> 10 /\ t <> 11)) by lia.
  destruct Hc as [-> | [-> | [-> | [-> | [-> | [-> | [-> | Hc]]]]]]].
  1-7: cbn [Z.eqb Pos.eqb set_tag set_type tag context_specific context_tag
            type];
       (split; [reflexivity |]); (split; [reflexivity |]);
       (split; [reflexivity |]);
       unfold Bacapp.bacapp_same_value;
       cbn [tag type BACNET_APPLICATION_TAG_NULL
            BACNET_APPLICATION_TAG_BOOLEAN
            BACNET_APPLICATION_TAG_UNSIGNED_INT BACNET_APPLICATION_TAG_REAL
            BACNET_APPLICATION_TAG_DOUBLE BACNET_APPLICATION_TAG_DATE
            BACNET_APPLICATION_TAG_TIME Z.eqb Pos.eqb];
       rewrite ?Hdate, ?Htime; known_tag.
  destruct Hc as (N0 & N1 & N2 & N4 & N5 & N10 & N11).
  rewrite !(proj2 (Z.eqb_neq t _)) by assumption.
  cbn [set_tag set_type tag context_specific context_tag type].
  (split; [reflexivity |]); (split; [reflexivity |]);
    (split; [reflexivity |]).
  unfold Bacapp.bacapp_same_value. cbn [tag type].
  unfold BACNET_APPLICATION_TAG_NULL, BACNET_APPLICATION_TAG_BOOLEAN,
    BACNET_APPLICATION_TAG_UNSIGNED_INT, BACNET_APPLICATION_TAG_REAL,
    BACNET_APPLICATION_TAG_DOUBLE, BACNET_APPLICATION_TAG_DATE,
    BACNET_APPLICATION_TAG_TIME.
  rewrite Z.eqb_refl.
  rewrite !(proj2 (Z.eqb_neq t _)) by assumption.
  destruct (Z.eqb_spec t BACNET_APPLICATION_TAG_EMPTYLIST) as [E | E].
  - intros _. reflexivity.
  - simpl. intros Hin. exfalso.
    repeat (destruct Hin as [Hin | Hin]; [congruence |]). exact Hin.
Qed.

End CopyFacts.


(** *** Linked arrays of values *)

Lemma set_next_lookup (a : list BACNET_PROPERTY_VALUE) (i j : nat)
    (n : option nat) :
  set_next a i n !! j =
  if decide (i = j)
  then (fun v => mkPropertyValue (propertyIdentifier v) (propertyArrayIndex v)
                   (value v) (priority v) n) <$> a !! j
  else a !! j.
Proof.
  unfold set_next. destruct (decide (i = j)) as [-> | Hne].
  - destruct (a !! j) as [v |] eqn:E; simpl.
    + rewrite list_lookup_insert_eq; [reflexivity |].
      apply lookup_lt_Some in E. exact E.
    + exact E.
  - destruct (a !! i) as [v |] eqn:E; [| reflexivity].
    apply list_lookup_insert_ne. exact Hne.
Qed.

Lemma length_set_next (a : list BACNET_PROPERTY_VALUE) (i : nat)
    (n : option nat) : length (set_next a i n) = length a.
Proof.
  unfold set_next. destruct (a !! i); [apply length_insert | reflexivity].
Qed.

Lemma link_lookup (count : nat) :
  forall (a : list BACNET_PROPERTY_VALUE) (first j : nat),
  bacapp_property_value_list_link a first count !! j =
  if decide (first <= j < first + count)%nat
  then (fun v => mkPropertyValue (propertyIdentifier v) (propertyArrayIndex v)
                   (value v) (priority v)
                   (if (j + 1 <? first + count)%nat then Some (j + 1)%nat
                    else None)) <$> a !! j
  else a !! j.
Proof.
  induction count as [| count IH]; intros a first j.
  - simpl. destruct (decide _); [lia | reflexivity].
  - cbn [bacapp_property_value_list_link].
    destruct (Nat.ltb_spec 1 (S count)) as [H1 | H1].
    + rewrite IH. rewrite set_next_lookup.
      destruct (decide (first = j)) as [-> | Hne].
      * destruct (decide (S j <= j < S j + count)%nat); [lia |].
        destruct (decide (j <= j < j + S count)%nat); [| lia].
        destruct (Nat.ltb_spec (j + 1) (j + S count)); [| lia].
        replace (S j) with (j + 1)%nat by lia. reflexivity.
      * destruct (decide (S first <= j < S first + count)%nat);
          destruct (decide (first <= j < first + S count)%nat); try lia;
          try reflexivity.
        replace (S first + count)%nat with (first + S count)%nat by lia.
        reflexivity.
    + assert (count = 0%nat) by lia. subst count. simpl.
      rewrite set_next_lookup.
      destruct (decide (first = j)) as [-> | Hne].
      * destruct (decide (j <= j < j + 1)%nat); [| lia].
        destruct (Nat.ltb_spec (j + 1) (j + 1)); [lia |]. reflexivity.
      * destruct (decide (first <= j < first + 1)%nat); [lia | reflexivity].
Qed.

Lemma chain_of_links (a : list BACNET_PROPERTY_VALUE) (count : nat) :
  (forall j, (j < count)%nat ->
     next <$> a !! j =
     Some (if (j + 1 <? count)%nat then Some (j + 1)%nat else None)) ->
  forall (fuel i : nat),
    (i < count)%nat -> (count - i <= fuel)%nat ->
    chain a fuel (Some i) = seq i (count - i).
Proof.
  intros Hnext fuel. induction fuel as [| fuel IH]; intros i Hi Hf; [lia |].
  cbn [chain]. specialize (Hnext i Hi) as Hn.
  destruct (a !! i) as [v |]; [| discriminate]. simpl in Hn.
  injection Hn as Hn. rewrite Hn.
  replace (count - i)%nat with (S (count - (i + 1))) by lia.
  cbn [seq]. f_equal.
  destruct (Nat.ltb_spec (i + 1) count) as [Hlt | Hge].
  - rewrite IH by lia. replace (S i) with (i + 1)%nat by lia. reflexivity.
  - replace (count - (i + 1))%nat with 0%nat by lia.
    destruct fuel; reflexivity.
Qed.

Section ListFacts.

Variable MAX_BACNET_PROPERTY_ID : Z.

Local Abbreviation bacapp_property_value_list_init :=
  (Bacapp.bacapp_property_value_list_init MAX_BACNET_PROPERTY_ID).

Lemma init_lookup (count : nat) :
  forall (a : list BACNET_PROPERTY_VALUE) (n j : nat),
  (n <= count)%nat ->
  foldl (fun a i =>
           match a !! i with
           | Some v =>
               <[i := mkPropertyValue MAX_BACNET_PROPERTY_ID BACNET_ARRAY_ALL
                        (default (value v)
                           (head (bacapp_value_list_init [value v] 1)))
                        BACNET_NO_PRIORITY
                        (if (i + 1 <? count)%nat then Some (i + 1)%nat
                         else None)]> a
           | None => a
           end) a (seq 0 n) !! j =
  if decide (j < n)%nat
  then (fun v => mkPropertyValue MAX_BACNET_PROPERTY_ID BACNET_ARRAY_ALL
                   (mkElement
                      (mkValue false 0 BACNET_APPLICATION_TAG_NULL
                         (type (element (value v)))) None)
                   BACNET_NO_PRIORITY
                   (if (j + 1 <? count)%nat then Some (j + 1)%nat else None))
       <$> a !! j
  else a !! j.
Proof.
  intros a n. induction n as [| n IH]; intros j Hn.
  - cbn [seq foldl]. destruct (decide (j < 0)%nat); [lia | reflexivity].
  - rewrite seq_S, foldl_app. cbn [foldl Nat.add].
    set (a' := foldl _ a (seq 0 n)).
    assert (Ha' : forall j, a' !! j = _) by (intros j'; apply IH; lia).
    destruct (a' !! n) as [v |] eqn:E.
    + destruct (decide (n = j)) as [-> | Hne].
      * rewrite list_lookup_insert_eq by (apply lookup_lt_Some in E; exact E).
        rewrite Ha' in E.
        destruct (decide (j < j)%nat); [lia |].
        destruct (decide (j < S j)%nat); [| lia].
        rewrite E. reflexivity.
      * rewrite list_lookup_insert_ne by exact Hne. rewrite Ha'.
        destruct (decide (j < n)%nat); destruct (decide (j < S n)%nat);
          try lia; reflexivity.
    + rewrite Ha'. rewrite Ha' in E.
      destruct (decide (n < n)%nat); [lia |].
      destruct (decide (j < n)%nat); destruct (decide (j < S n)%nat);
        try lia; try reflexivity.
      assert (j = n) by lia. subst j. rewrite E. reflexivity.
Qed.

(** X30.  After [bacapp_property_value_list_link] and after
    [bacapp_property_value_list_init] of the first [count] elements of an
    array, each of these elements but the last links to the one behind it
    and the last one has no successor, so following [next] from the first
    element, for however many steps, visits the elements [0 .. count-1] in
    order and nothing else.  Linking changes nothing but the links;
    initialising sets the property to [MAX_BACNET_PROPERTY_ID], the index
    to [BACNET_ARRAY_ALL], no priority and a NULL value with no successor;
    the elements from [count] on are untouched by both. *)
Theorem property_value_list_is_chained
    (a : list BACNET_PROPERTY_VALUE) (count : nat) :
  (1 <= count <= length a)%nat ->
  let linked := bacapp_property_value_list_link a 0 count in
  let fresh := bacapp_property_value_list_init a count in
  let successor (j : nat) :=
    if (j + 1 <? count)%nat then Some (j + 1)%nat else None in
  (forall j, (j < count)%nat ->
     next <$> linked !! j = Some (successor j) /\
     next <$> fresh !! j = Some (successor j)) /\
  successor (count - 1)%nat = None /\
  (forall fuel, (count <= fuel)%nat ->
     chain linked fuel (Some 0%nat) = seq 0 count /\
     chain fresh fuel (Some 0%nat) = seq 0 count) /\
  (forall j v, a !! j = Some v ->
     exists w, linked !! j = Some w /\
       propertyIdentifier w = propertyIdentifier v /\
       propertyArrayIndex w = propertyArrayIndex v /\
       value w = value v /\ priority w = priority v /\
       ((count <= j)%nat -> w = v)) /\
  (forall j v, a !! j = Some v ->
     exists w, fresh !! j = Some w /\
       if decide (j < count)%nat
       then propertyIdentifier w = MAX_BACNET_PROPERTY_ID /\
            propertyArrayIndex w = BACNET_ARRAY_ALL /\
            priority w = BACNET_NO_PRIORITY /\
            tag (element (value w)) = BACNET_APPLICATION_TAG_NULL /\
            context_specific (element (value w)) = false /\
            element_next (value w) = None
       else w = v).
Proof.
  intros Hc. cbn zeta.
  assert (Hlink : forall j,
            bacapp_property_value_list_link a 0 count !! j = _)
    by (intros j; apply link_lookup).
  assert (Hinit : forall j, bacapp_property_value_list_init a count !! j = _)
    by (intros j; apply (init_lookup count a count j); lia).
  assert (Hnl : forall j, (j < count)%nat ->
            next <$> bacapp_property_value_list_link a 0 count !! j =
            Some (if (j + 1 <? count)%nat then Some (j + 1)%nat else None)).
  { intros j Hj. rewrite Hlink.
    destruct (decide (0 <= j < 0 + count)%nat); [| lia].
    destruct (a !! j) as [v |] eqn:E;
      [| apply lookup_ge_None in E; lia].
    reflexivity. }
  assert (Hni : forall j, (j < count)%nat ->
            next <$> bacapp_property_value_list_init a count !! j =
            Some (if (j + 1 <? count)%nat then Some (j + 1)%nat else None)).
  { intros j Hj. rewrite Hinit.
    destruct (decide (j < count)%nat); [| lia].
    destruct (a !! j) as [v |] eqn:E;
      [| apply lookup_ge_None in E; lia].
    reflexivity. }
  split; [| split; [| split; [| split]]].
  - intros j Hj. split; [apply Hnl | apply Hni]; exact Hj.
  - destruct (Nat.ltb_spec (count - 1 + 1) count); [lia | reflexivity].
  - intros fuel Hf. split.
    + rewrite <- (Nat.sub_0_r count) at 2.
      apply chain_of_links; [exact Hnl | lia | lia].
    + rewrite <- (Nat.sub_0_r count) at 2.
      apply chain_of_links; [exact Hni | lia | lia].
  - intros j v Hv. rewrite Hlink, Hv.
    destruct (decide (0 <= j < 0 + count)%nat) as [Hin | Hout].
    + eexists. split; [reflexivity |]. simpl.
      repeat split. intros; lia.
    + exists v. repeat split.
  - intros j v Hv. rewrite Hinit, Hv.
    destruct (decide (j < count)%nat) as [Hin | Hout].
    + eexists. split; [reflexivity |]. simpl. repeat split.
    + exists v. split; reflexivity.
Qed.

End ListFacts.

Import Examples.

Lemma lex_compare_refl (l : list Z) : lex_compare l l = 0.
Proof.
  induction l as [| x l IH]; [reflexivity |].
  simpl. rewrite Z.ltb_irrefl. exact IH.
Qed.

Lemma decode_data_len_saturates_witness :
  bacapp_decode_data_len BACNET_APPLICATION_TAG_OCTET_STRING 0xFFFFFFFF
  = 2 ^ 31 - 1.
Proof.
  assert (H0 : 0 <= 0xFFFFFFFF) by lia.
  destruct (decode_data_len_saturates
              BACNET_APPLICATION_TAG_OCTET_STRING 0xFFFFFFFF H0)
    as (_ & _ & H & _).
  rewrite H; [reflexivity |].
  unfold BACNET_APPLICATION_TAG_OCTET_STRING. lia.
Defined.

Lemma copy_is_the_same_value_for_known_tags_witness :
  let r := bacapp_copy (fun _ payload => payload)
             (Some blank_value) (Some real_100) in
  r.1 = true /\
  exists copy,
    r.2 = Some copy /\
    Bacapp.bacapp_same_value empty_list_tag (fun _ _ => false)
      copy real_100 = true.
Proof.
  cbn zeta.
  destruct (copy_is_the_same_value_for_known_tags (clock := sample_clock)
              empty_list_tag (fun _ _ => false) (fun _ payload => payload)
              blank_value real_100
              (fun d => lex_compare_refl (date_fields d))
              (fun t => lex_compare_refl (time_fields t)))
    as (H1 & copy & Hc & _ & _ & _ & Hs).
  split; [exact H1 |]. exists copy. split; [exact Hc |].
  apply Hs. simpl. do 3 right. left. reflexivity.
Defined.

Lemma property_value_list_is_chained_witness :
  chain three_property_values 7 (Some 0%nat) = [0; 2; 0; 2; 0; 2; 0]%nat /\
  chain (bacapp_property_value_list_link three_property_values 0 3) 7
        (Some 0%nat) = [0; 1; 2]%nat /\
  chain (bacapp_property_value_list_init property_id_limit
           three_property_values 3) 7 (Some 0%nat) = [0; 1; 2]%nat.
Proof.
  assert (H3 : (1 <= 3 <= length three_property_values)%nat)
    by (simpl; lia).
  destruct (property_value_list_is_chained property_id_limit
              three_property_values 3 H3) as (_ & _ & H & _).
  assert (H7 : (3 <= 7)%nat) by lia.
  split; [reflexivity |]. exact (H 7%nat H7).
Defined.

End BacappUtilityTheorems.
